(** * Web-scraper MCP server: session lifecycle and action sequencing

    A shallow embedding of [src/mcp-servers/web-scraper/server.js].

    The four tool handlers ([scrapePage], [testReactApp], [getPageInfo],
    [waitForElement]) and the dispatcher ([callTool]) are written in a
    small state-and-exception monad, with [try]/[catch] and
    [try]/[finally] as combinators.  The browser driver, the clock and
    the file system are external: they are an interface ([Playwright])
    whose operations may return or throw, and every call made through
    the interface is appended to a trace, so that statements about which
    calls a request makes, in which order and how often, are statements
    about the trace.

    The file has the definitions first (JavaScript values, requests, the
    page as scripts see it, the interface, the monad, the handlers, a
    concrete world to run them in, and the vocabulary of traces and
    responses), then
    the lemmas and theorems, and at the end the handlers run on the
    concrete world. *)

From Stdlib Require Import String Ascii List ZArith Lia Bool DecimalString
  DecimalPos.
Import ListNotations.
Open Scope string_scope.

(* ===================================================================== *)
(** ** JavaScript values used by the handlers *)
(* ===================================================================== *)

(** A thrown [Error]; the handlers only ever read its [message]. *)
Record JsError := Thrown { message : string }.

(** The completion of an awaited call: [inl e] when it throws. *)
Definition Res (A : Type) : Type := (JsError + A)%type.

Definition is_ok {A} (r : Res A) : bool :=
  match r with inl _ => false | inr _ => true end.

(** A line feed, as written [\n] in the source. *)
Definition nl : string := String "010"%char EmptyString.

(** A double quote. *)
Definition dq : string := String "034"%char EmptyString.

(** [Array.prototype.push]. *)
Definition push {A} (array : list A) (x : A) : list A := List.app array [x].

(** [Array.prototype.join]. *)
Fixpoint join (sep : string) (l : list string) : string :=
  match l with
  | [] => EmptyString
  | [x] => x
  | x :: rest => x ++ sep ++ join sep rest
  end.

(** A template literal renders a missing property as [undefined] and a
    [null] as [null]. *)
Definition show_undefined (o : option string) : string :=
  match o with Some s => s | None => "undefined" end.

Definition show_null (o : option string) : string :=
  match o with Some s => s | None => "null" end.

(** [join] renders [null] elements as the empty string. *)
Definition join_item (o : option string) : string :=
  match o with Some s => s | None => EmptyString end.

(** Decimal rendering of an integer and of an array length. *)
Definition show_Z (z : Z) : string := NilZero.string_of_int (Z.to_int z).
Definition show_nat (n : nat) : string := NilZero.string_of_uint (Nat.to_uint n).

(** Truthiness of a string that may be [undefined]. *)
Definition truthy_str (o : option string) : bool :=
  match o with
  | Some s => negb (String.eqb s EmptyString)
  | None => false
  end.

(** *** The regular expression [/^\d+$/] and [parseInt] *)

Definition is_digit (c : ascii) : bool :=
  let n := nat_of_ascii c in (48 <=? n)%nat && (n <=? 57)%nat.

Fixpoint all_digits (s : string) : bool :=
  match s with
  | EmptyString => true
  | String c rest => is_digit c && all_digits rest
  end.

(** [s.match(/^\d+$/)] is truthy: one or more ASCII digits and nothing
    else. *)
Definition matches_digits (s : string) : bool :=
  negb (String.eqb s EmptyString) && all_digits s.

Definition digit_value (c : ascii) : Z := Z.of_nat (nat_of_ascii c) - 48.

Fixpoint parse_digits (acc : Z) (s : string) : Z :=
  match s with
  | EmptyString => acc
  | String c rest =>
      if is_digit c then parse_digits (10 * acc + digit_value c) rest else acc
  end.

(** The numbers [parseInt] returns on a string of digits: JavaScript
    numbers are binary64 floating-point values, and of those only the
    non-negative integers and [Infinity] arise here. *)
Inductive JsNumber :=
| Finite (z : Z)
| Infinity.

(** The number value of a non-negative integer: the integer itself when
    it is below 2^53; above, the multiple of [2^e] nearest to it, where
    [e] leaves 53 significant bits, a tie going to the even significand;
    [Infinity] when that reaches 2^1024. *)
Definition to_double (z : Z) : JsNumber :=
  if (z <? 2 ^ 53)%Z then Finite z
  else
    let e := (Z.log2 z - 52)%Z in
    let q := Z.shiftr z e in
    let r := (z - Z.shiftl q e)%Z in
    let half := Z.shiftl 1 (e - 1) in
    let q' := if (half <? r)%Z || ((r =? half)%Z && Z.odd q)
              then (q + 1)%Z else q in
    let v := Z.shiftl q' e in
    if (2 ^ 1024 <=? v)%Z then Infinity else Finite v.

(** [parseInt(s)] on a string that starts with a digit: the integer its
    longest digit prefix denotes in base ten, as a number value.  (The
    language lets an implementation round after the twentieth
    significant digit; V8, which runs the server, reads them all.) *)
Definition parseInt (s : string) : JsNumber := to_double (parse_digits 0 s).

(** *** ASCII case mapping and [trim] *)

Definition upper_char (c : ascii) : ascii :=
  let n := nat_of_ascii c in
  if (97 <=? n)%nat && (n <=? 122)%nat then ascii_of_nat (n - 32) else c.

Definition lower_char (c : ascii) : ascii :=
  let n := nat_of_ascii c in
  if (65 <=? n)%nat && (n <=? 90)%nat then ascii_of_nat (n + 32) else c.

Fixpoint map_string (f : ascii -> ascii) (s : string) : string :=
  match s with
  | EmptyString => EmptyString
  | String c rest => String (f c) (map_string f rest)
  end.

(** [toUpperCase] and [toLowerCase]; the handlers apply them to element
    tag names only, which are ASCII. *)
Definition toUpperCase : string -> string := map_string upper_char.
Definition toLowerCase : string -> string := map_string lower_char.

(** The white space that [trim] removes, in the UTF-8 encoding of the
    strings of this file: the one-byte code points 9 to 13 and 32, then
    U+00A0, U+1680, U+2000 to U+200A, U+2028, U+2029, U+202F, U+205F,
    U+3000 and U+FEFF. *)
Definition white_space : list (list nat) :=
  [ [9]; [10]; [11]; [12]; [13]; [32]; [194; 160]; [225; 154; 128];
    [226; 128; 128]; [226; 128; 129]; [226; 128; 130]; [226; 128; 131];
    [226; 128; 132]; [226; 128; 133]; [226; 128; 134]; [226; 128; 135];
    [226; 128; 136]; [226; 128; 137]; [226; 128; 138]; [226; 128; 168];
    [226; 128; 169]; [226; 128; 175]; [226; 129; 159]; [227; 128; 128];
    [239; 187; 191] ].

Fixpoint strip_prefix (p l : list nat) : option (list nat) :=
  match p, l with
  | [], _ => Some l
  | x :: p', y :: l' => if Nat.eqb x y then strip_prefix p' l' else None
  | _ :: _, [] => None
  end.

Fixpoint strip_one (ws : list (list nat)) (l : list nat) : option (list nat) :=
  match ws with
  | [] => None
  | p :: ws' =>
      match strip_prefix p l with
      | Some l' => Some l'
      | None => strip_one ws' l
      end
  end.

Fixpoint trim_start (fuel : nat) (ws : list (list nat)) (l : list nat)
  : list nat :=
  match fuel with
  | O => l
  | S fuel' =>
      match strip_one ws l with
      | Some l' => trim_start fuel' ws l'
      | None => l
      end
  end.

Definition bytes_of (s : string) : list nat :=
  map nat_of_ascii (list_ascii_of_string s).

Definition string_of (l : list nat) : string :=
  string_of_list_ascii (map ascii_of_nat l).

(** [String.prototype.trim]: white space is removed at both ends; at the
    end the encoded white space is matched backwards. *)
Definition trim (s : string) : string :=
  let l := bytes_of s in
  let l1 := trim_start (List.length l) white_space l in
  let r := trim_start (List.length l1) (map (@rev nat) white_space) (rev l1) in
  string_of (rev r).


(* ===================================================================== *)
(** ** Requests *)
(* ===================================================================== *)

(** One element of [actions].  Every property may be missing: the
    handler destructures [{ type, selector, value, timeout = 5000 }]. *)
Module Action.
Record t := Make {
  type : option string;
  selector : option string;
  value : option string;
  timeout : option Z
}.
End Action.

(** The [arguments] object of a tool call.  Each handler destructures the
    properties it uses and ignores the others. *)
Record Args := {
  url : string;
  selector : option string;
  browser : option string;
  waitFor : option string;
  screenshot : bool;
  actions : list Action.t;
  includePerformance : bool;
  timeout : option Z
}.

(** A default value in a destructuring pattern applies when the property
    is [undefined]. *)
Definition default {A} (d : A) (o : option A) : A :=
  match o with Some x => x | None => d end.

(** A tool response: the text items of its [content], and [isError],
    which only the error response of the dispatcher sets. *)
Record ToolResult := { content : list string; isError : bool }.

Inductive Engine := chromium | firefox | webkit.

(** [browsers[browserType]] for [browsers = { chromium, firefox, webkit }]. *)
Definition browsers (browserType : string) : option Engine :=
  if String.eqb browserType "chromium" then Some chromium
  else if String.eqb browserType "firefox" then Some firefox
  else if String.eqb browserType "webkit" then Some webkit
  else None.

(* ===================================================================== *)
(** ** The page as the in-page scripts see it *)
(* ===================================================================== *)

(** An element of the document.  [localName] is the lower-case tag name
    of an HTML element; [name] and [content] are the reflected attributes
    read by [meta.name] and [meta.content] (the empty string when the
    attribute is missing); [property] is the value of the expression
    [meta.property], which is [undefined] unless the element object
    carries such a property (the attribute of that name is not reflected
    by the DOM); [href] tells whether the element has an [href]
    attribute. *)
Record Element := {
  localName : string;
  name : string;
  property : option string;
  elem_content : string;
  href : bool;
  textContent : string
}.

(** [h.tagName] of an HTML element: its local name in upper case. *)
Definition tagName (e : Element) : string := toUpperCase (localName e).

(** The selectors of the source: a type selector, possibly with an
    attribute-presence test on [href]; a selector list is a list of them. *)
Inductive Selector :=
| TypeSel (tag : string)
| TypeHref (tag : string).

Definition matches (s : Selector) (e : Element) : bool :=
  match s with
  | TypeSel tag => String.eqb (localName e) tag
  | TypeHref tag => String.eqb (localName e) tag && href e
  end.

(** [querySelectorAll]: the elements matching one of the selectors of
    the list, in document order. *)
Definition querySelectorAll (elements : list Element) (sel : list Selector)
  : list Element :=
  filter (fun e => existsb (fun s => matches s e) sel) elements.

Section Numbers.

(** Navigation and paint timings are JavaScript numbers with a
    fractional part; the handlers subtract them, test them for
    truthiness and render them in a template. *)
Variable Num : Type.

Record NavigationTiming := {
  domContentLoadedEventStart : Num;
  domContentLoadedEventEnd : Num;
  loadEventStart : Num;
  loadEventEnd : Num
}.

Record PaintTiming := {
  paint_name : string;
  startTime : Num
}.

(** What the scripts passed to [page.evaluate] read: the document in
    document order, and the performance timeline. *)
Record Document := {
  title : string;
  location_href : string;
  elements : list Element;
  navigation_entries : list NavigationTiming;
  paint_entries : list PaintTiming
}.

End Numbers.

Arguments domContentLoadedEventStart {Num}.
Arguments domContentLoadedEventEnd {Num}.
Arguments loadEventStart {Num}.
Arguments loadEventEnd {Num}.
Arguments paint_name {Num}.
Arguments startTime {Num}.
Arguments title {Num}.
Arguments location_href {Num}.
Arguments elements {Num}.
Arguments navigation_entries {Num}.
Arguments paint_entries {Num}.

(* ===================================================================== *)
(** ** The external interface and the trace of calls *)
(* ===================================================================== *)

(** The calls a handler makes to the driver and to the file system. *)
Inductive Call :=
| Launch (engine : Engine)
| NewPage
| Close
| Goto (url : string)
| WaitForTimeout (ms : JsNumber)
| WaitForSelector (selector : option string) (timeout : Z)
| Click (selector : option string) (timeout : Z)
| Fill (selector value : option string) (timeout : Z)
| Screenshot
| WriteFile (path : string)
| TextContent (selector : option string)
| GetAttribute (selector name : option string)
| QueryAll (selector : string)
| Query (selector : option string)
| ElementText
| ElementVisible
| Evaluate.

(** A call with its completion: [true] when it returned, [false] when it
    threw. *)
Definition Event : Type := (Call * bool)%type.

(** The driver, the clock and the file system.  [W] is the state of the
    world outside the server; an operation takes it to the next state and
    returns or throws.  [writeFileSync] stands for the whole expression
    [require('fs').writeFileSync(path, buffer)]. *)
Class Playwright (W : Type) := {
  Browser : Type;
  Page : Type;
  ElementHandle : Type;
  Buffer : Type;
  Num : Type;
  num_sub : Num -> Num -> Num;
  num_truthy : Num -> bool;
  num_show : Num -> string;
  Date_now : W -> Z;
  launch : Engine -> W -> W * Res Browser;
  newPage : Browser -> W -> W * Res Page;
  close : Browser -> W -> W * Res unit;
  goto : Page -> string -> W -> W * Res unit;
  waitForTimeout : Page -> JsNumber -> W -> W * Res unit;
  waitForSelector : Page -> option string -> Z -> W -> W * Res unit;
  click : Page -> option string -> Z -> W -> W * Res unit;
  fill : Page -> option string -> option string -> Z -> W -> W * Res unit;
  page_screenshot : Page -> W -> W * Res Buffer;
  writeFileSync : string -> Buffer -> W -> W * Res unit;
  page_textContent : Page -> option string -> W -> W * Res (option string);
  getAttribute :
    Page -> option string -> option string -> W -> W * Res (option string);
  query_all : Page -> string -> W -> W * Res (list ElementHandle);
  query : Page -> option string -> W -> W * Res (option ElementHandle);
  element_textContent : ElementHandle -> W -> W * Res (option string);
  element_isVisible : ElementHandle -> W -> W * Res bool;
  page_document : Page -> W -> W * Res (Document Num);
  evaluate_error : JsError -> JsError
}.

(* ===================================================================== *)
(** ** The monad of the handlers *)
(* ===================================================================== *)

Section Server.
Context {W : Type} {PW : Playwright W}.

(** The state a handler runs in: the world, and the calls made so far. *)
Record St := { world : W; trace : list Event }.

(** An [async] computation: it ends in a value or in a thrown error. *)
Definition M (A : Type) : Type := St -> St * Res A.

Definition ret {A} (a : A) : M A := fun st => (st, inr a).

Definition throw {A} (e : JsError) : M A := fun st => (st, inl e).

Definition bind {A B} (m : M A) (k : A -> M B) : M B :=
  fun st =>
    match m st with
    | (st', inr a) => k a st'
    | (st', inl e) => (st', inl e)
    end.

(** [try { body } catch (e) { handler }]. *)
Definition try_catch {A} (body : M A) (handler : JsError -> M A) : M A :=
  fun st =>
    match body st with
    | (st', inl e) => handler e st'
    | (st', inr a) => (st', inr a)
    end.

(** [try { body } finally { fin }]: [fin] runs whatever the completion
    of [body]; an error thrown by [fin] replaces that completion. *)
Definition try_finally {A} (body : M A) (fin : M unit) : M A :=
  fun st =>
    let (st', r) := body st in
    match fin st' with
    | (st'', inl e) => (st'', inl e)
    | (st'', inr _) => (st'', r)
    end.

(** An awaited call to the interface, recorded in the trace. *)
Definition call {A} (c : Call) (op : W -> W * Res A) : M A :=
  fun st =>
    let (w', r) := op (world st) in
    ({| world := w'; trace := trace st ++ [(c, is_ok r)] |}, r).

(** [Date.now()]. *)
Definition now : M Z := fun st => (st, inr (Date_now (world st))).

(** [page.waitForTimeout(ms)]. *)
Definition sleep (page : Page) (ms : JsNumber) : M unit :=
  call (WaitForTimeout ms) (waitForTimeout page ms).

(** [page.evaluate(script)]: the script runs against the document of
    the page; an error it throws comes back as the rejection of the
    call. *)
Definition evaluate {A} (page : Page) (script : Document Num -> Res A)
  : M A :=
  fun st =>
    let (w', r) := page_document page (world st) in
    let r' :=
      match r with
      | inl e => inl e
      | inr doc =>
          match script doc with
          | inl e => inl (evaluate_error e)
          | inr a => inr a
          end
      end in
    ({| world := w'; trace := trace st ++ [(Evaluate, is_ok r')] |}, r').

(** [Promise.all(ms)]: every computation of the array is started, in
    array order; the result is the array of their values, or a
    rejection when one of them rejects (here the first in array
    order). *)
Fixpoint promise_all {A} (ms : list (M A)) : M (list A) :=
  fun st =>
    match ms with
    | [] => (st, inr [])
    | m :: rest =>
        let (st1, r) := m st in
        let (st2, rs) := promise_all rest st1 in
        (st2,
         match r, rs with
         | inl e, _ => inl e
         | inr _, inl e => inl e
         | inr a, inr l => inr (a :: l)
         end)
    end.

End Server.

Arguments St W : clear implicits.
Arguments M W A : clear implicits.

Declare Scope js_scope.
Delimit Scope js_scope with js.
Notation "x <- m ;; k" := (bind m (fun x => k))
  (at level 61, m at next level, right associativity) : js_scope.
Notation "m ;; k" := (bind m (fun _ => k))
  (at level 61, right associativity) : js_scope.
Open Scope js_scope.

(* ===================================================================== *)
(** ** The tool handlers *)
(* ===================================================================== *)

(** Property names every object inherits: for these [browsers[name]] is
    not [undefined], but it has no [launch] method either. *)
Definition object_prototype_names : list string :=
  [ "constructor"; "__defineGetter__"; "__defineSetter__"; "hasOwnProperty";
    "__lookupGetter__"; "__lookupSetter__"; "isPrototypeOf";
    "propertyIsEnumerable"; "toString"; "valueOf"; "__proto__";
    "toLocaleString" ].

(** One entry of [info.metaTags] and of [info.headings]. *)
Record MetaTag := { meta_name : option string; meta_content : string }.
Record Heading := { tag : string; text : string }.

Record PageInfo := {
  info_title : string;
  info_url : string;
  metaTags : list MetaTag;
  headings : list Heading;
  links : nat;
  images : nat;
  forms : nat
}.

(** The object returned by the second script of [getPageInfo]; the two
    paint timings are [undefined] when no such entry is found. *)
Record Metrics (Num : Type) := {
  domContentLoaded : Num;
  loadComplete : Num;
  firstPaint : option Num;
  firstContentfulPaint : option Num
}.

Arguments domContentLoaded {Num}.
Arguments loadComplete {Num}.
Arguments firstPaint {Num}.
Arguments firstContentfulPaint {Num}.

(** [a || b] on a string and a value that may be [undefined]. *)
Definition or_else (a : string) (b : option string) : option string :=
  if String.eqb a EmptyString then b else Some a.

Section Handlers.
Context {W : Type} {PW : Playwright W}.

(** [getBrowser(browserType)]. *)
Definition getBrowser (browserType : string) : M W Browser :=
  match browsers browserType with
  | Some engine => call (Launch engine) (launch engine)
  | None =>
      if existsb (String.eqb browserType) object_prototype_names
      then throw (Thrown "browsers[browserType].launch is not a function")
      else throw (Thrown
             "Cannot read properties of undefined (reading 'launch')")
  end.

(** *** scrape_page *)

(** The wait of [scrapePage]: nothing when [waitFor] is falsy, a timer
    when it is a string of digits, a selector wait otherwise. *)
Definition scrapePage_wait (page : Page) (waitFor : option string)
  : M W unit :=
  match waitFor with
  | Some w =>
      if String.eqb w EmptyString then ret tt
      else if matches_digits w then sleep page (parseInt w)
      else call (WaitForSelector (Some w) 10000)
                (waitForSelector page (Some w) 10000)
  | None => ret tt
  end.

(** The text of [content] as the template renders it: the joined array
    of the matches of [selector], or the text of [body]. *)
Definition scrapePage_content (page : Page) (selector : option string)
  : M W string :=
  match selector with
  | Some sel =>
      if String.eqb sel EmptyString then
        c <- call (TextContent (Some "body"))
                  (page_textContent page (Some "body")) ;;
        ret (show_null c)
      else
        els <- call (QueryAll sel) (query_all page sel) ;;
        texts <- promise_all
                   (map (fun el => call ElementText (element_textContent el))
                        els) ;;
        ret (join (nl ++ "---" ++ nl) (map join_item texts))
  | None =>
      c <- call (TextContent (Some "body"))
                (page_textContent page (Some "body")) ;;
      ret (show_null c)
  end.

(** The [try] block of [scrapePage]. *)
Definition scrapePage_body (page : Page) (args : Args) : M W ToolResult :=
  call (Goto (url args)) (goto page (url args)) ;;
  scrapePage_wait page (waitFor args) ;;
  content <- scrapePage_content page (selector args) ;;
  let result :=
    [ "Scraped content from " ++ url args ++ ":" ++ nl ++ nl ++ content ]
  in
  if screenshot args then
    screenshotBuffer <- call Screenshot (page_screenshot page) ;;
    t <- now ;;
    let screenshotPath := "/tmp/screenshot-" ++ show_Z t ++ ".png" in
    call (WriteFile screenshotPath)
         (writeFileSync screenshotPath screenshotBuffer) ;;
    ret {| content :=
             push result ("Screenshot saved to: " ++ screenshotPath);
           isError := false |}
  else ret {| content := result; isError := false |}.

Definition scrapePage (args : Args) : M W ToolResult :=
  let browserType := default "chromium" (browser args) in
  browser <- getBrowser browserType ;;
  page <- call NewPage (newPage browser) ;;
  try_finally (scrapePage_body page args) (call Close (close browser)).

(** *** test_react_app *)

Definition ok_mark : string := "✅".
Definition fail_mark : string := "❌".

(** The [switch] on the action type; each branch ends by pushing one
    line onto [results]. *)
Definition action_switch (page : Page) (action : Action.t)
    (results : list string) : M W (list string) :=
  let type := Action.type action in
  let selector := Action.selector action in
  let value := Action.value action in
  let timeout := default 5000%Z (Action.timeout action) in
  let is_type k := match type with Some t => String.eqb t k | None => false end in
  if is_type "click" then
    call (Click selector timeout) (click page selector timeout) ;;
    ret (push results
           (ok_mark ++ " Clicked: " ++ show_undefined selector))
  else if is_type "fill" then
    call (Fill selector value timeout) (fill page selector value timeout) ;;
    ret (push results
           (ok_mark ++ " Filled " ++ dq ++ show_undefined value ++ dq
            ++ " into: "
            ++ show_undefined selector))
  else if is_type "wait" then
    call (WaitForSelector selector timeout)
         (waitForSelector page selector timeout) ;;
    ret (push results
           (ok_mark ++ " Waited for: " ++ show_undefined selector))
  else if is_type "screenshot" then
    screenshotBuffer <- call Screenshot (page_screenshot page) ;;
    t <- now ;;
    let screenshotPath := "/tmp/react-test-" ++ show_Z t ++ ".png" in
    call (WriteFile screenshotPath)
         (writeFileSync screenshotPath screenshotBuffer) ;;
    ret (push results
           (ok_mark ++ " Screenshot saved: " ++ screenshotPath))
  else if is_type "getText" then
    text <- call (TextContent selector) (page_textContent page selector) ;;
    ret (push results
           (ok_mark ++ " Text from " ++ show_undefined selector ++ ": " ++ dq
            ++ show_null text ++ dq))
  else if is_type "getAttribute" then
    attr <- call (GetAttribute selector value)
                 (getAttribute page selector value) ;;
    ret (push results
           (ok_mark ++ " Attribute " ++ dq ++ show_undefined value ++ dq
            ++ " from " ++ show_undefined selector ++ ": " ++ dq
            ++ show_null attr ++ dq))
  else
    ret (push results
           (fail_mark ++ " Unknown action type: " ++ show_undefined type)).

(** The line pushed by the [catch] of one action. *)
Definition failed_line (action : Action.t) (actionError : JsError) : string :=
  fail_mark ++ " Failed " ++ show_undefined (Action.type action) ++ " on "
    ++ show_undefined (Action.selector action) ++ ": "
    ++ message actionError.

(** The body of the loop: the [switch] inside its [try], and the
    [catch] that records the error. *)
Definition action_step (page : Page) (action : Action.t)
    (results : list string) : M W (list string) :=
  try_catch (action_switch page action results)
    (fun actionError => ret (push results
           (failed_line action actionError))).

(** [for (const action of actions) { ... }]. *)
Fixpoint for_actions (page : Page) (actions : list Action.t)
    (results : list string) : M W (list string) :=
  match actions with
  | [] => ret results
  | action :: rest =>
      results' <- action_step page action results ;;
      for_actions page rest results'
  end.

(** The [try] block of [testReactApp], up to the [results] array it
    has built when the loop ends. *)
Definition testReactApp_results (page : Page) (args : Args)
  : M W (list string) :=
  call (Goto (url args)) (goto page (url args)) ;;
  for_actions page (actions args) [ok_mark ++ " Navigated to " ++ url args].

Definition testReactApp_report (results : list string) : ToolResult :=
  {| content :=
       ["React App Test Results:" ++ nl ++ nl ++ join nl results];
     isError := false |}.

(** The [try] block of [testReactApp]. *)
Definition testReactApp_body (page : Page) (args : Args) : M W ToolResult :=
  results <- testReactApp_results page args ;;
  ret (testReactApp_report results).

Definition testReactApp (args : Args) : M W ToolResult :=
  let browserType := default "chromium" (browser args) in
  browser <- getBrowser browserType ;;
  page <- call NewPage (newPage browser) ;;
  try_finally (testReactApp_body page args) (call Close (close browser)).

(** *** get_page_info *)

(** The first script: title, address, named meta tags, the headings
    selected by [h1, h2, h3], and three element counts. *)
Definition pageInfo_script (doc : Document Num) : Res PageInfo :=
  inr {|
    info_title := title doc;
    info_url := location_href doc;
    metaTags :=
      filter (fun meta => truthy_str (meta_name meta))
        (map (fun meta =>
                {| meta_name := or_else (name meta) (property meta);
                   meta_content := elem_content meta |})
             (querySelectorAll (elements doc) [TypeSel "meta"]));
    headings :=
      map (fun h =>
             {| tag := toLowerCase (tagName h);
                text := trim (textContent h) |})
          (querySelectorAll (elements doc)
             [TypeSel "h1"; TypeSel "h2"; TypeSel "h3"]);
    links := List.length (querySelectorAll (elements doc) [TypeHref "a"]);
    images := List.length (querySelectorAll (elements doc) [TypeSel "img"]);
    forms := List.length (querySelectorAll (elements doc) [TypeSel "form"])
  |}.

(** [entries.find(p => p.name === wanted)?.startTime]. *)
Definition paint_start (wanted : string) (entries : list (PaintTiming Num))
  : option Num :=
  option_map startTime
    (find (fun p => String.eqb (paint_name p) wanted) entries).

(** The second script: it reads the first navigation entry, and throws
    a [TypeError] when there is none. *)
Definition metrics_script (doc : Document Num) : Res (Metrics Num) :=
  match navigation_entries doc with
  | [] =>
      inl (Thrown ("Cannot read properties of undefined " ++
                   "(reading 'domContentLoadedEventEnd')"))
  | perf :: _ =>
      inr {|
        domContentLoaded :=
          num_sub (domContentLoadedEventEnd perf)
                  (domContentLoadedEventStart perf);
        loadComplete := num_sub (loadEventEnd perf) (loadEventStart perf);
        firstPaint := paint_start "first-paint" (paint_entries doc);
        firstContentfulPaint :=
          paint_start "first-contentful-paint" (paint_entries doc)
      |}
  end.

(** [metric || 'N/A'] in a template. *)
Definition or_NA (metric : option Num) : string :=
  match metric with
  | Some n => if num_truthy n then num_show n else "N/A"
  | None => "N/A"
  end.

(** The text of [performanceInfo] when it is built. *)
Definition performance_text (loadTime : Z) (metrics : Metrics Num)
  : string :=
  nl ++ nl ++ "Performance Metrics:" ++ nl
  ++ "- Page Load Time: " ++ show_Z loadTime ++ "ms" ++ nl
  ++ "- DOM Content Loaded: " ++ num_show (domContentLoaded metrics)
  ++ "ms" ++ nl
  ++ "- Load Complete: " ++ num_show (loadComplete metrics) ++ "ms" ++ nl
  ++ "- First Paint: " ++ or_NA (firstPaint metrics) ++ "ms" ++ nl
  ++ "- First Contentful Paint: " ++ or_NA (firstContentfulPaint metrics)
  ++ "ms".

(** The text of the report, with [performanceInfo] at its end. *)
Definition pageInfo_text (url : string) (info : PageInfo)
    (performanceInfo : string) : string :=
  "Page Information for " ++ url ++ ":" ++ nl ++ nl
  ++ "Title: " ++ info_title info ++ nl
  ++ "URL: " ++ info_url info ++ nl ++ nl
  ++ "Meta Tags:" ++ nl
  ++ join nl
       (map (fun meta =>
               "- " ++ show_undefined (meta_name meta) ++ ": "
               ++ meta_content meta)
            (metaTags info))
  ++ nl ++ nl
  ++ "Headings:" ++ nl
  ++ join nl
       (map (fun h => "- " ++ toUpperCase (tag h) ++ ": " ++ text h)
            (headings info))
  ++ nl ++ nl
  ++ "Page Elements:" ++ nl
  ++ "- Links: " ++ show_nat (links info) ++ nl
  ++ "- Images: " ++ show_nat (images info) ++ nl
  ++ "- Forms: " ++ show_nat (forms info) ++ performanceInfo.

(** The [try] block of [getPageInfo]. *)
Definition getPageInfo_body (page : Page) (args : Args) : M W ToolResult :=
  startTime <- now ;;
  call (Goto (url args)) (goto page (url args)) ;;
  endTime <- now ;;
  let loadTime := (endTime - startTime)%Z in
  info <- evaluate page pageInfo_script ;;
  performanceInfo <-
    (if includePerformance args then
       metrics <- evaluate page metrics_script ;;
       ret (performance_text loadTime metrics)
     else ret EmptyString) ;;
  ret {| content := [pageInfo_text (url args) info performanceInfo];
         isError := false |}.

Definition getPageInfo (args : Args) : M W ToolResult :=
  let browserType := default "chromium" (browser args) in
  browser <- getBrowser browserType ;;
  page <- call NewPage (newPage browser) ;;
  try_finally (getPageInfo_body page args) (call Close (close browser)).

(** *** wait_for_element *)

Definition show_bool (b : bool) : string := if b then "true" else "false".

(** The [try] block of [waitForElement]. *)
Definition waitForElement_body (page : Page) (args : Args)
  : M W ToolResult :=
  let selector := selector args in
  let timeout := default 10000%Z (timeout args) in
  call (Goto (url args)) (goto page (url args)) ;;
  startTime <- now ;;
  call (WaitForSelector selector timeout)
       (waitForSelector page selector timeout) ;;
  endTime <- now ;;
  let waitTime := (endTime - startTime)%Z in
  element <- call (Query selector) (query page selector) ;;
  match element with
  | None =>
      throw (Thrown "Cannot read properties of null (reading 'textContent')")
  | Some el =>
      text <- call ElementText (element_textContent el) ;;
      isVisible <- call ElementVisible (element_isVisible el) ;;
      ret {| content :=
               [ok_mark ++ " Element found: " ++ show_undefined selector
                ++ nl ++ "Wait time: " ++ show_Z waitTime ++ "ms" ++ nl
                ++ "Visible: " ++ show_bool isVisible ++ nl
                ++ "Text content: " ++ dq ++ show_null text ++ dq];
             isError := false |}
  end.

Definition waitForElement (args : Args) : M W ToolResult :=
  let browserType := default "chromium" (browser args) in
  browser <- getBrowser browserType ;;
  page <- call NewPage (newPage browser) ;;
  try_finally (waitForElement_body page args) (call Close (close browser)).

(** *** The dispatcher *)

(** The handler of a tool call: the handler named by the request runs,
    and an error it throws becomes an error response. *)
Definition callTool (name : string) (args : Args) : M W ToolResult :=
  try_catch
    (if String.eqb name "scrape_page" then scrapePage args
     else if String.eqb name "test_react_app" then testReactApp args
     else if String.eqb name "get_page_info" then getPageInfo args
     else if String.eqb name "wait_for_element" then waitForElement args
     else throw (Thrown ("Unknown tool: " ++ name)))
    (fun error =>
       ret {| content := ["Error: " ++ message error]; isError := true |}).
End Handlers.

(* ===================================================================== *)
(** ** The list of tools *)
(* ===================================================================== *)

(** The answer of the server to a request for its tools: for each tool
    its name, the properties of its input schema and the names of the
    required ones.  The descriptions, which no code reads, are left
    out; a property without [enum] has the empty list. *)
Inductive JsonType := TString | TBoolean | TNumber | TArray | TObject.

Inductive Json :=
| JString (s : string)
| JBoolean (b : bool)
| JNumber (z : Z).

Record Property := {
  prop_name : string;
  prop_type : JsonType;
  prop_enum : list string;
  prop_default : option Json
}.

Record Tool := {
  tool_name : string;
  tool_properties : list Property;
  tool_required : list string
}.

Definition plain (name : string) (type : JsonType) : Property :=
  {| prop_name := name; prop_type := type; prop_enum := [];
     prop_default := None |}.

(** The [browser] property, the same in the four schemas. *)
Definition browser_property : Property :=
  {| prop_name := "browser"; prop_type := TString;
     prop_enum := ["chromium"; "firefox"; "webkit"];
     prop_default := Some (JString "chromium") |}.

(** The schema of one element of [actions]. *)
Definition action_properties : list Property :=
  [ {| prop_name := "type"; prop_type := TString;
       prop_enum := ["click"; "fill"; "wait"; "screenshot"; "getText";
                     "getAttribute"];
       prop_default := None |};
    plain "selector" TString;
    plain "value" TString;
    {| prop_name := "timeout"; prop_type := TNumber; prop_enum := [];
       prop_default := Some (JNumber 5000) |} ].

Definition action_required : list string := ["type"].

Definition listTools : list Tool :=
  [ {| tool_name := "scrape_page";
       tool_properties :=
         [ plain "url" TString;
           plain "selector" TString;
           browser_property;
           plain "waitFor" TString;
           {| prop_name := "screenshot"; prop_type := TBoolean;
              prop_enum := []; prop_default := Some (JBoolean false) |} ];
       tool_required := ["url"] |};
    {| tool_name := "test_react_app";
       tool_properties :=
         [ plain "url" TString;
           plain "actions" TArray;
           browser_property ];
       tool_required := ["url"; "actions"] |};
    {| tool_name := "get_page_info";
       tool_properties :=
         [ plain "url" TString;
           browser_property;
           {| prop_name := "includePerformance"; prop_type := TBoolean;
              prop_enum := []; prop_default := Some (JBoolean false) |} ];
       tool_required := ["url"] |};
    {| tool_name := "wait_for_element";
       tool_properties :=
         [ plain "url" TString;
           plain "selector" TString;
           {| prop_name := "timeout"; prop_type := TNumber; prop_enum := [];
              prop_default := Some (JNumber 10000) |};
           browser_property ];
       tool_required := ["url"; "selector"] |} ].

(** The property of that name in a list of properties. *)
Definition property_named (name : string) (l : list Property)
  : option Property :=
  find (fun p => String.eqb (prop_name p) name) l.

(** The default a tool advertises for a property of its input, and the
    one advertised for a property of an action. *)
Definition advertised_default (tool property : string) : option Json :=
  match find (fun t => String.eqb (tool_name t) tool) listTools with
  | Some t =>
      match property_named property (tool_properties t) with
      | Some p => prop_default p
      | None => None
      end
  | None => None
  end.

Definition advertised_action_default (property : string) : option Json :=
  match property_named property action_properties with
  | Some p => prop_default p
  | None => None
  end.

(** The arguments with another [browser], and with another [timeout]. *)
Definition set_browser (b : option string) (args : Args) : Args :=
  {| url := url args; selector := selector args; browser := b;
     waitFor := waitFor args; screenshot := screenshot args;
     actions := actions args; includePerformance := includePerformance args;
     timeout := timeout args |}.

Definition set_timeout (t : option Z) (args : Args) : Args :=
  {| url := url args; selector := selector args; browser := browser args;
     waitFor := waitFor args; screenshot := screenshot args;
     actions := actions args; includePerformance := includePerformance args;
     timeout := t |}.

(** The action with another [timeout]. *)
Definition set_action_timeout (t : option Z) (action : Action.t) : Action.t :=
  Action.Make (Action.type action) (Action.selector action)
    (Action.value action) t.

(* ===================================================================== *)
(** ** A concrete world, for running the handlers *)
(* ===================================================================== *)

Module Demo.

(** A small deterministic world: a clock, the selectors that resolve to
    an element of the page, whether the browser can open a page, and the
    document the in-page scripts read. *)
Record World := {
  clock : Z;
  present : list string;
  page_creation_fails : bool;
  document : Document Z
}.

Definition tick (ms : Z) (w : World) : World :=
  {| clock := (clock w + ms)%Z;
     present := present w;
     page_creation_fails := page_creation_fails w;
     document := document w |}.

Definition timeout_error (t : Z) : JsError :=
  Thrown ("Timeout " ++ show_Z t ++ "ms exceeded.").

(** The time a timer takes: a delay the timer of the driver cannot hold
    ([Infinity]) is replaced by one millisecond. *)
Definition delay (ms : JsNumber) : Z :=
  match ms with
  | Finite z => z
  | Infinity => 1%Z
  end.

(** An operation on a located element: it returns at once when the
    selector resolves, and throws after [t] milliseconds otherwise. *)
Definition locate {A} (sel : option string) (t : Z) (a : A) (w : World)
  : World * Res A :=
  match sel with
  | Some s =>
      if existsb (String.eqb s) (present w) then (w, inr a)
      else (tick t w, inl (timeout_error t))
  | None => (w, inl (Thrown "selector: expected string, got undefined"))
  end.

Definition demo_fill (sel value : option string) (t : Z) (w : World)
  : World * Res unit :=
  match value with
  | Some _ => locate sel t tt w
  | None => (w, inl (Thrown "value: expected string, got undefined"))
  end.

#[export] Instance demo : Playwright World := {|
  Browser := unit;
  Page := unit;
  ElementHandle := string;
  Buffer := unit;
  Num := Z;
  num_sub := Z.sub;
  num_truthy := fun z => negb (Z.eqb z 0);
  num_show := show_Z;
  Date_now := clock;
  launch := fun _ w => (w, inr tt);
  newPage := fun _ w =>
    if page_creation_fails w
    then (w, inl (Thrown "Target page, context or browser has been closed"))
    else (w, inr tt);
  close := fun _ w => (w, inr tt);
  goto := fun _ _ w => (tick 120%Z w, inr tt);
  waitForTimeout := fun _ ms w => (tick (delay ms) w, inr tt);
  waitForSelector := fun _ sel t w => locate sel t tt w;
  click := fun _ sel t w => locate sel t tt w;
  fill := fun _ sel value t w => demo_fill sel value t w;
  page_screenshot := fun _ w => (w, inr tt);
  writeFileSync := fun _ _ w =>
    (w, inl (Thrown "require is not defined in ES module scope"));
  page_textContent := fun _ sel w =>
    locate sel 30000%Z (Some ("text of " ++ show_undefined sel)) w;
  getAttribute := fun _ sel _ w => locate sel 30000%Z None w;
  query_all := fun _ sel w =>
    (w, inr (if existsb (String.eqb sel) (present w) then [sel] else []));
  query := fun _ sel w =>
    (w, inr (match sel with
             | Some s =>
                 if existsb (String.eqb s) (present w) then Some s else None
             | None => None
             end));
  element_textContent := fun el w => (w, inr (Some ("text of " ++ el)));
  element_isVisible := fun _ w => (w, inr true);
  page_document := fun _ w => (w, inr (document w));
  evaluate_error := fun e => Thrown ("page.evaluate: " ++ message e)
|}.

Definition element (tag text : string) : Element :=
  {| localName := tag; name := EmptyString; property := None;
     elem_content := EmptyString; href := false; textContent := text |}.

Definition meta (name : string) (property : option string) (value : string)
  : Element :=
  {| localName := "meta"; name := name; property := property;
     elem_content := value; href := false; textContent := EmptyString |}.

Definition page_elements : list Element :=
  [ meta "description" None "A demo page";
    meta EmptyString None "utf-8";
    element "h1" " Welcome ";
    element "h4" "Details";
    element "h3" "Status";
    element "h2" "Login";
    element "h6" "Footer" ].

Definition navigation : NavigationTiming Z :=
  {| domContentLoadedEventStart := 80%Z; domContentLoadedEventEnd := 95%Z;
     loadEventStart := 110%Z; loadEventEnd := 118%Z |}.

(** A page with a login button, a user field and a status line, whose
    browser reports the navigation timing and the first contentful
    paint, but no first paint. *)
Definition world0 : World :=
  {| clock := 1000%Z;
     present := ["#login"; "#user"; "#status"; "body"];
     page_creation_fails := false;
     document :=
       {| title := "Demo"; location_href := "http://localhost:3000/";
          elements := page_elements;
          navigation_entries := [navigation];
          paint_entries :=
            [ {| paint_name := "first-contentful-paint"; startTime := 64%Z |} ]
       |} |}.

(** The same page in a browser that cannot open a page. *)
Definition world_no_page : World :=
  {| clock := clock world0; present := present world0;
     page_creation_fails := true; document := document world0 |}.

(** The same page in a browser that reports no navigation entry. *)
Definition world_no_navigation : World :=
  {| clock := clock world0; present := present world0;
     page_creation_fails := false;
     document :=
       {| title := "Demo"; location_href := "http://localhost:3000/";
          elements := page_elements;
          navigation_entries := [];
          paint_entries := [] |} |}.

Definition start (w : World) : St World := {| world := w; trace := [] |}.

Definition request : Args :=
  {| url := "http://localhost:3000"; selector := None; browser := None;
     waitFor := None; screenshot := false; actions := [];
     includePerformance := false; timeout := None |}.

Definition with_actions (l : list Action.t) : Args :=
  {| url := url request; selector := None; browser := None;
     waitFor := None; screenshot := false; actions := l;
     includePerformance := false; timeout := None |}.

Definition act (type : string) (selector value : option string) : Action.t :=
  Action.Make (Some type) selector value None.

(** The scenario of the specification: the third action targets an
    element that does not exist. *)
Definition login_flow : list Action.t :=
  [ act "click" (Some "#login") None;
    act "fill" (Some "#user") (Some "alice");
    act "click" (Some "#missing") None;
    act "getText" (Some "#status") None ].

(** One failing action between two others, and an action of an unknown
    type. *)
Definition before_missing : list Action.t :=
  [ act "click" (Some "#login") None;
    act "fill" (Some "#user") (Some "alice") ].

Definition click_missing : Action.t := act "click" (Some "#missing") None.

Definition after_missing : list Action.t :=
  [ act "getText" (Some "#status") None ].

Definition hover : Action.t := act "hover" (Some "#login") None.

(** A [fill] action without [value]. *)
Definition fill_no_value : Action.t := act "fill" (Some "#user") None.

(** The state of the world0 session once the navigation has succeeded. *)
Definition after_goto : St World :=
  {| world := tick 120 world0;
     trace := [(Launch chromium, true); (NewPage, true);
               (Goto (url request), true)] |}.

Definition first_line : list string :=
  [ok_mark ++ " Navigated to " ++ url request].

(** The state and the results when the loop reaches the failing click,
    and the state and the error it leaves. *)
Definition at_missing : St World * Res (list string) :=
  for_actions tt before_missing first_line after_goto.

Definition results_at_missing : list string :=
  match snd at_missing with inr l => l | inl _ => [] end.

Definition missing_thrown : St World * Res (list string) :=
  action_switch tt click_missing results_at_missing
    (fst at_missing).

Definition missing_error : JsError :=
  match snd missing_thrown with inl e => e | inr _ => Thrown EmptyString end.

(** [scrape_page] with a wait of 2000 milliseconds, a selector and a
    [timeout] property, which the handler does not read. *)
Definition scrape_2000 : Args :=
  {| url := url request; selector := Some "#status"; browser := None;
     waitFor := Some "2000"; screenshot := false; actions := [];
     includePerformance := false; timeout := Some 1%Z |}.


(** [wait_for_element] with a selector made of digits. *)
Definition wait_2000 : Args :=
  {| url := url request; selector := Some "2000"; browser := None;
     waitFor := None; screenshot := false; actions := [];
     includePerformance := false; timeout := None |}.

(** [get_page_info] with the performance metrics. *)
Definition with_performance : Args :=
  {| url := url request; selector := None; browser := None;
     waitFor := None; screenshot := false; actions := [];
     includePerformance := true; timeout := None |}.

(** [scrape_page] for a selector that matches nothing, for one engine
    that does not exist, and waiting for a selector that never
    appears. *)
Definition scrape_nothing : Args :=
  {| url := url request; selector := Some "#none"; browser := None;
     waitFor := None; screenshot := false; actions := [];
     includePerformance := false; timeout := None |}.

Definition scrape_opera : Args :=
  {| url := url request; selector := None; browser := Some "opera";
     waitFor := None; screenshot := false; actions := [];
     includePerformance := false; timeout := None |}.

Definition scrape_never : Args :=
  {| url := url request; selector := None; browser := None;
     waitFor := Some "#never"; screenshot := false; actions := [];
     includePerformance := false; timeout := None |}.

(** [wait_for_element] on the status line, with its own deadline. *)
Definition wait_status : Args :=
  {| url := url request; selector := Some "#status"; browser := None;
     waitFor := None; screenshot := false; actions := [];
     includePerformance := false; timeout := Some 700%Z |}.

End Demo.

(* ===================================================================== *)
(** ** A world with faults *)
(* ===================================================================== *)

Module Faulty.

(** The concrete world of [Demo], in a driver that can be told to fail
    to start the browser, to fail the navigation, to fail to close the
    browser, or to lose the element between the wait and the query. *)
Record World := {
  inner : Demo.World;
  launch_fails : bool;
  navigation_fails : bool;
  close_fails : bool;
  element_vanishes : bool
}.

Definition with_inner (i : Demo.World) (w : World) : World :=
  {| inner := i; launch_fails := launch_fails w;
     navigation_fails := navigation_fails w; close_fails := close_fails w;
     element_vanishes := element_vanishes w |}.

(** An operation of [Demo], run on the inner world. *)
Definition lift {A} (op : Demo.World -> Demo.World * Res A) (w : World)
  : World * Res A :=
  let (i, r) := op (inner w) in (with_inner i w, r).

#[export] Instance faulty : Playwright World := {|
  Browser := unit;
  Page := unit;
  ElementHandle := string;
  Buffer := unit;
  Num := Z;
  num_sub := Z.sub;
  num_truthy := fun z => negb (Z.eqb z 0);
  num_show := show_Z;
  Date_now := fun w => Demo.clock (inner w);
  launch := fun engine w =>
    if launch_fails w
    then (w, inl (Thrown "Executable doesn't exist"))
    else lift (launch (Playwright := Demo.demo) engine) w;
  newPage := fun b w => lift (newPage (Playwright := Demo.demo) b) w;
  close := fun b w =>
    if close_fails w
    then (w, inl (Thrown "Browser has been closed"))
    else lift (close (Playwright := Demo.demo) b) w;
  goto := fun p url w =>
    if navigation_fails w
    then (w, inl (Thrown "net::ERR_CONNECTION_REFUSED"))
    else lift (goto (Playwright := Demo.demo) p url) w;
  waitForTimeout := fun p ms w =>
    lift (waitForTimeout (Playwright := Demo.demo) p ms) w;
  waitForSelector := fun p sel t w =>
    lift (waitForSelector (Playwright := Demo.demo) p sel t) w;
  click := fun p sel t w => lift (click (Playwright := Demo.demo) p sel t) w;
  fill := fun p sel v t w =>
    lift (fill (Playwright := Demo.demo) p sel v t) w;
  page_screenshot := fun p w =>
    lift (page_screenshot (Playwright := Demo.demo) p) w;
  writeFileSync := fun path buf w =>
    lift (writeFileSync (Playwright := Demo.demo) path buf) w;
  page_textContent := fun p sel w =>
    lift (page_textContent (Playwright := Demo.demo) p sel) w;
  getAttribute := fun p sel v w =>
    lift (getAttribute (Playwright := Demo.demo) p sel v) w;
  query_all := fun p sel w =>
    lift (query_all (Playwright := Demo.demo) p sel) w;
  query := fun p sel w =>
    if element_vanishes w then (w, inr None)
    else lift (query (Playwright := Demo.demo) p sel) w;
  element_textContent := fun el w =>
    lift (element_textContent (Playwright := Demo.demo) el) w;
  element_isVisible := fun el w =>
    lift (element_isVisible (Playwright := Demo.demo) el) w;
  page_document := fun p w =>
    lift (page_document (Playwright := Demo.demo) p) w;
  evaluate_error := evaluate_error (Playwright := Demo.demo)
|}.

Definition sound : World :=
  {| inner := Demo.world0; launch_fails := false;
     navigation_fails := false; close_fails := false;
     element_vanishes := false |}.

Definition no_engine : World :=
  {| inner := Demo.world0; launch_fails := true;
     navigation_fails := false; close_fails := false;
     element_vanishes := false |}.

Definition unreachable : World :=
  {| inner := Demo.world0; launch_fails := false;
     navigation_fails := true; close_fails := false;
     element_vanishes := false |}.

Definition stuck_browser : World :=
  {| inner := Demo.world0; launch_fails := false;
     navigation_fails := false; close_fails := true;
     element_vanishes := false |}.

Definition vanishing : World :=
  {| inner := Demo.world0; launch_fails := false;
     navigation_fails := false; close_fails := false;
     element_vanishes := true |}.

Definition start (w : World) : St World := {| world := w; trace := [] |}.

(** [wait_for_element] on the status line of the page. *)
Definition wait_status : Args :=
  {| url := url Demo.request; selector := Some "#status"; browser := None;
     waitFor := None; screenshot := false; actions := [];
     includePerformance := false; timeout := Some 700%Z |}.

End Faulty.

(* ===================================================================== *)
(** ** A page that is closed while a timer runs *)
(* ===================================================================== *)

Module Interrupted.

(** The driver of [Demo] on a page that is closed while the server waits
    on a timer: [waitForTimeout] rejects, as any call on a closed page
    does; every other operation is that of [Demo]. *)
Definition interrupted : Playwright Demo.World := {|
  Browser := unit;
  Page := unit;
  ElementHandle := string;
  Buffer := unit;
  Num := Z;
  num_sub := Z.sub;
  num_truthy := fun z => negb (Z.eqb z 0);
  num_show := show_Z;
  Date_now := Demo.clock;
  launch := launch (Playwright := Demo.demo);
  newPage := newPage (Playwright := Demo.demo);
  close := close (Playwright := Demo.demo);
  goto := goto (Playwright := Demo.demo);
  waitForTimeout := fun _ _ w =>
    (w, inl (Thrown "Target page, context or browser has been closed"));
  waitForSelector := waitForSelector (Playwright := Demo.demo);
  click := click (Playwright := Demo.demo);
  fill := fill (Playwright := Demo.demo);
  page_screenshot := page_screenshot (Playwright := Demo.demo);
  writeFileSync := writeFileSync (Playwright := Demo.demo);
  page_textContent := page_textContent (Playwright := Demo.demo);
  getAttribute := getAttribute (Playwright := Demo.demo);
  query_all := query_all (Playwright := Demo.demo);
  query := query (Playwright := Demo.demo);
  element_textContent := element_textContent (Playwright := Demo.demo);
  element_isVisible := element_isVisible (Playwright := Demo.demo);
  page_document := page_document (Playwright := Demo.demo);
  evaluate_error := evaluate_error (Playwright := Demo.demo)
|}.

End Interrupted.

(* ===================================================================== *)
(** ** Reading a trace and a response *)
(* ===================================================================== *)

(** The vocabulary of the statements: predicates on the events of a
    trace, and the texts of the responses written out from the page, the
    request and the completions of the calls.  The handlers use none of
    these definitions; the theorems relate what the handlers compute to
    them. *)

(** A browser was started. *)
Definition is_launch (ev : Event) : bool :=
  match ev with
  | (Launch _, true) => true
  | _ => false
  end.

(** [browser.close()] was called. *)
Definition is_close (ev : Event) : bool :=
  match ev with
  | (Close, _) => true
  | _ => false
  end.

(** A page was opened. *)
Definition is_page (ev : Event) : bool :=
  match ev with
  | (NewPage, true) => true
  | _ => false
  end.

(** The calls that start a browser, open a page or close a browser. *)
Definition lifecycle (ev : Event) : bool :=
  match ev with
  | (Launch _, _) | (NewPage, _) | (Close, _) => true
  | _ => false
  end.

Definition is_timer (ev : Event) : bool :=
  match ev with
  | (WaitForTimeout _, _) => true
  | _ => false
  end.

Definition count (f : Event -> bool) (tr : list Event) : nat :=
  List.length (filter f tr).

(** The engine-start and engine-stop counters of a trace. *)
Definition acquired (tr : list Event) : nat := count is_launch tr.
Definition released (tr : list Event) : nat := count is_close tr.

(** The action types of the [switch]. *)
Definition known_types : list string :=
  ["click"; "fill"; "wait"; "screenshot"; "getText"; "getAttribute"].

Definition known_type (type : option string) : bool :=
  match type with
  | Some t => existsb (String.eqb t) known_types
  | None => false
  end.

(** The first call of the content extraction of [scrapePage]. *)
Definition extraction_call (selector : option string) : Call :=
  match selector with
  | Some sel =>
      if String.eqb sel EmptyString then TextContent (Some "body")
      else QueryAll sel
  | None => TextContent (Some "body")
  end.

(** The names of the four tools. *)
Definition tools : list string :=
  ["scrape_page"; "test_react_app"; "get_page_info"; "wait_for_element"].

(** The entry of [headings] made from a heading element. *)
Definition heading_of (e : Element) : Heading :=
  {| tag := localName e; text := trim (textContent e) |}.

(** The entry of [metaTags] made from a meta element. *)
Definition meta_of (e : Element) : MetaTag :=
  {| meta_name := or_else (name e) (property e);
     meta_content := elem_content e |}.

(** The element is an [h1], an [h2] or an [h3]. *)
Definition is_h1_h2_h3 (e : Element) : bool :=
  existsb (String.eqb (localName e)) ["h1"; "h2"; "h3"].

(** The element is a [meta] with a non-empty [name], or else a non-empty
    [property]. *)
Definition is_named_meta (e : Element) : bool :=
  String.eqb (localName e) "meta" && truthy_str (meta_name (meta_of e)).

(** The error response of the dispatcher. *)
Definition error_response (error : JsError) : ToolResult :=
  {| content := ["Error: " ++ message error]; isError := true |}.

(** A wait: the timer or a selector wait. *)
Definition is_wait (ev : Event) : bool :=
  match ev with
  | (WaitForTimeout _, _) | (WaitForSelector _ _, _) => true
  | _ => false
  end.

(** A capture of the page or a write to the file system. *)
Definition is_capture (ev : Event) : bool :=
  match ev with
  | (Screenshot, _) | (WriteFile _, _) => true
  | _ => false
  end.

(** The deadline a call is given, for the calls that take one. *)
Definition timeout_of (ev : Event) : option Z :=
  match ev with
  | (WaitForSelector _ t, _) | (Click _ t, _) | (Fill _ _ t, _) => Some t
  | _ => None
  end.

(** The action is a [screenshot]. *)
Definition is_screenshot_action (action : Action.t) : bool :=
  match Action.type action with
  | Some t => String.eqb t "screenshot"
  | None => false
  end.

(** The request asks for a screenshot: the flag of [scrape_page], or a
    [screenshot] action of [test_react_app]. *)
Definition asks_capture (name : string) (args : Args) : bool :=
  if String.eqb name "scrape_page" then screenshot args
  else if String.eqb name "test_react_app"
       then existsb is_screenshot_action (actions args)
  else false.

(** The calls one action may make: none for a type the [switch] does
    not know; for a [screenshot] the capture, followed by the write of
    the file when the capture has returned; one call to the page for
    any other action. *)
Definition calls_of (action : Action.t) (evs : list Event) : Prop :=
  if negb (known_type (Action.type action)) then evs = []
  else if is_screenshot_action action then
    evs = [(Screenshot, false)] \/
    exists path ok, evs = [(Screenshot, true); (WriteFile path, ok)]
  else exists c ok, evs = [(c, ok)].

(** The deadlines of the actions of a request. *)
Definition action_timeouts (actions : list Action.t) : list Z :=
  map (fun action => default 5000%Z (Action.timeout action)) actions.

(** The line recorded for an action that threw: the failure mark, the
    type and the selector of the action as a template renders them, and
    the message of the error. *)
Definition failure_line (type selector : option string)
    (error_message : string) : string :=
  fail_mark ++ " Failed " ++ show_undefined type ++ " on "
    ++ show_undefined selector ++ ": " ++ error_message.

(** The response of [test_react_app] that carries the given entries: its
    only text is the heading, an empty line, and the entries, one per
    line; it is not flagged as an error. *)
Definition report_of (entries : list string) : ToolResult :=
  {| content := ["React App Test Results:" ++ nl ++ nl ++ join nl entries];
     isError := false |}.

(** The line of the snapshot for a heading element, and for a meta
    element. *)
Definition heading_line (e : Element) : string :=
  "- " ++ toUpperCase (localName e) ++ ": " ++ trim (textContent e).

Definition meta_line (e : Element) : string :=
  "- " ++ show_undefined (or_else (name e) (property e)) ++ ": "
    ++ elem_content e.

(** The elements counted at the end of the snapshot. *)
Definition is_link (e : Element) : bool :=
  String.eqb (localName e) "a" && href e.

Definition is_image (e : Element) : bool := String.eqb (localName e) "img".

Definition is_form (e : Element) : bool := String.eqb (localName e) "form".

Section Traces.
Context {W : Type} {PW : Playwright W}.

(** The frame every handler puts around its body: start a browser, open
    a page, run the body, close the browser. *)
Definition in_session {A} (browserType : string) (body : Page -> M W A)
  : M W A :=
  browser <- getBrowser browserType ;;
  page <- call NewPage (newPage browser) ;;
  try_finally (body page) (call Close (close browser)).

(** The state in which the loop of [testReactApp] starts. *)
Definition navigated (st : St W) (engine : Engine) (url : string) (w : W)
  : St W :=
  {| world := w;
     trace := trace st ++
              [(Launch engine, true); (NewPage, true); (Goto url, true)] |}.

(** The first entry of [results]. *)
Definition navigation_line (args : Args) : string :=
  ok_mark ++ " Navigated to " ++ url args.

(** The line pushed by the [default] branch of the [switch]. *)
Definition unknown_line (action : Action.t) : string :=
  fail_mark ++ " Unknown action type: " ++ show_undefined (Action.type action).

(** The line a [fill] without [value] records: the success line shows
    the value as [undefined]. *)
Definition fill_outcome (action : Action.t) (r : Res unit) : string :=
  match r with
  | inl e =>
      failure_line (Action.type action) (Action.selector action) (message e)
  | inr _ =>
      ok_mark ++ " Filled " ++ dq ++ "undefined" ++ dq ++ " into: "
        ++ show_undefined (Action.selector action)
  end.

(** The bodies of the four handlers make none of the three calls of the
    frame. *)
Definition quiet (ev : Event) : Prop := lifecycle ev = false.

(** An event that is not a selector wait. *)
Definition not_selector_wait (ev : Event) : Prop :=
  forall s t ok, ev <> (WaitForSelector s t, ok).

(** An event that, if it is a selector wait, waits for [waitFor] with a
    deadline of 10000 milliseconds. *)
Definition waits_10000 (waitFor : option string) (ev : Event) : Prop :=
  forall s t ok, ev = (WaitForSelector s t, ok) ->
                 t = 10000%Z /\ s = waitFor.

(** Every call a computation adds to the trace satisfies [P]. *)
Definition emits {A} (P : Event -> Prop) (m : M W A) : Prop :=
  forall st, exists evs,
    trace (fst (m st)) = (trace st ++ evs)%list /\ Forall P evs.

(** [recorded page actions st lines st']: run from [st], the actions add
    the lines [lines] to the results, one each and in order, and leave
    the state [st']. *)
Inductive recorded (page : Page)
  : list Action.t -> St W -> list string -> St W -> Prop :=
| recorded_nil : forall st, recorded page [] st [] st
| recorded_cons : forall action rest st line st1 lines st2,
    (forall results,
       action_step page action results st = (st1, inr (push results line))) ->
    recorded page rest st1 lines st2 ->
    recorded page (action :: rest) st (line :: lines) st2.

(** The [switch] of the dispatcher, inside its [try]. *)
Definition dispatch (name : string) (args : Args) : M W ToolResult :=
  if String.eqb name "scrape_page" then scrapePage args
  else if String.eqb name "test_react_app" then testReactApp args
  else if String.eqb name "get_page_info" then getPageInfo args
  else if String.eqb name "wait_for_element" then waitForElement args
  else throw (Thrown ("Unknown tool: " ++ name)).

(** The [try] block of the handler of a tool. *)
Definition tool_body (name : string) (page : Page) (args : Args)
  : M W ToolResult :=
  if String.eqb name "scrape_page" then scrapePage_body page args
  else if String.eqb name "test_react_app" then testReactApp_body page args
  else if String.eqb name "get_page_info" then getPageInfo_body page args
  else waitForElement_body page args.

(** Whenever the computation returns, its value satisfies [P]. *)
Definition returns {A} (P : A -> Prop) (m : M W A) : Prop :=
  forall st st' a, m st = (st', inr a) -> P a.

(** The text of the report of [waitForElement]. *)
Definition element_found_text (selector : option string) (waitTime : Z)
    (isVisible : bool) (text : option string) : string :=
  ok_mark ++ " Element found: " ++ show_undefined selector
  ++ nl ++ "Wait time: " ++ show_Z waitTime ++ "ms" ++ nl
  ++ "Visible: " ++ show_bool isVisible ++ nl
  ++ "Text content: " ++ dq ++ show_null text ++ dq.

(** The statement that a request is refused before a browser is started:
    the response is an error and the trace has no launch. *)
Definition refused_before_acquisition (args : Args) (st : St W) : Prop :=
  let (st', r) := callTool "test_react_app" args st in
  (exists e, r = inr {| content := ["Error: " ++ message e];
                        isError := true |})
  /\ acquired (trace st') = acquired (trace st).

(** The statement that a wait on a string of digits is a timer: the
    handler sleeps for that long and the response is not an error. *)
Definition waits_as_duration (args : Args) (st : St W) : Prop :=
  let (st', r) := callTool "wait_for_element" args st in
  (exists res, r = inr res /\ isError res = false)
  /\ In (WaitForTimeout (parseInt (show_undefined (selector args))), true)
        (trace st').

(** The statement that the response carries one entry for the
    navigation and one per action whenever the navigation succeeded. *)
Definition reports_every_action (args : Args) (st : St W) : Prop :=
  let (st', r) := callTool "test_react_app" args st in
  In (Goto (url args), true) (trace st') ->
  exists entries,
    List.length entries = S (List.length (actions args)) /\
    r = inr (report_of entries).

(** The statement that the timer of a request never fails. *)
Definition timer_wait_never_fails (args : Args) (st : St W) : Prop :=
  forall ms ok,
    In (WaitForTimeout ms, ok) (trace (fst (callTool "scrape_page" args st))) ->
    ok = true.

(** Whether the first call of the extraction of [scrapePage] returns,
    when it is made in the world [w]. *)
Definition extraction_completes (page : Page) (selector : option string)
    (w : W) : bool :=
  match extraction_call selector with
  | QueryAll sel => is_ok (snd (query_all page sel w))
  | _ => is_ok (snd (page_textContent page (Some "body") w))
  end.

(** The text of the snapshot of a document: the title, the address, one
    line per named meta element, one line per [h1], [h2] or [h3]
    element, both in document order, and three counts; the performance
    section, if any, comes last. *)
Definition snapshot_text (url : string) (doc : Document Num)
    (performanceInfo : string) : string :=
  "Page Information for " ++ url ++ ":" ++ nl ++ nl
  ++ "Title: " ++ title doc ++ nl
  ++ "URL: " ++ location_href doc ++ nl ++ nl
  ++ "Meta Tags:" ++ nl
  ++ join nl (map meta_line (filter is_named_meta (elements doc)))
  ++ nl ++ nl
  ++ "Headings:" ++ nl
  ++ join nl (map heading_line (filter is_h1_h2_h3 (elements doc)))
  ++ nl ++ nl
  ++ "Page Elements:" ++ nl
  ++ "- Links: " ++ show_nat (List.length (filter is_link (elements doc)))
  ++ nl
  ++ "- Images: " ++ show_nat (List.length (filter is_image (elements doc)))
  ++ nl
  ++ "- Forms: " ++ show_nat (List.length (filter is_form (elements doc)))
  ++ performanceInfo.

(** A paint timing as the performance section shows it: the start time
    of the first entry of that name, or [N/A] when there is none or when
    its start time is falsy. *)
Definition paint_time (wanted : string) (paints : list (PaintTiming Num))
  : string :=
  match find (fun p => String.eqb (paint_name p) wanted) paints with
  | Some p => if num_truthy (startTime p) then num_show (startTime p)
              else "N/A"
  | None => "N/A"
  end.

(** The performance section: the load time measured by the handler, the
    two durations of the navigation entry, and the two paint timings. *)
Definition performance_section (loadTime : Z) (perf : NavigationTiming Num)
    (paints : list (PaintTiming Num)) : string :=
  nl ++ nl ++ "Performance Metrics:" ++ nl
  ++ "- Page Load Time: " ++ show_Z loadTime ++ "ms" ++ nl
  ++ "- DOM Content Loaded: "
  ++ num_show (num_sub (domContentLoadedEventEnd perf)
                       (domContentLoadedEventStart perf))
  ++ "ms" ++ nl
  ++ "- Load Complete: "
  ++ num_show (num_sub (loadEventEnd perf) (loadEventStart perf))
  ++ "ms" ++ nl
  ++ "- First Paint: " ++ paint_time "first-paint" paints ++ "ms" ++ nl
  ++ "- First Contentful Paint: "
  ++ paint_time "first-contentful-paint" paints ++ "ms".

End Traces.

(* ===================================================================== *)
(** ** Calls and their completions *)
(* ===================================================================== *)

Section CallLemmas.
Context {W : Type} {PW : Playwright W}.

Lemma call_returns {A} (c : Call) (op : W -> W * Res A) st w' a :
  op (world st) = (w', inr a) ->
  call c op st = ({| world := w'; trace := trace st ++ [(c, true)] |}, inr a).
Proof. intros H. unfold call. rewrite H. reflexivity. Qed.

Lemma call_throws {A} (c : Call) (op : W -> W * Res A) st w' e :
  op (world st) = (w', inl e) ->
  call c op st = ({| world := w'; trace := trace st ++ [(c, false)] |}, inl e).
Proof. intros H. unfold call. rewrite H. reflexivity. Qed.

Lemma bind_returns {A B} (m : M W A) (k : A -> M W B) st st' a :
  m st = (st', inr a) -> bind m k st = k a st'.
Proof. intros H. unfold bind. rewrite H. reflexivity. Qed.

Lemma bind_throws {A B} (m : M W A) (k : A -> M W B) st st' e :
  m st = (st', inl e) -> bind m k st = (st', inl e).
Proof. intros H. unfold bind. rewrite H. reflexivity. Qed.

Lemma getBrowser_launches (browserType : string) (engine : Engine) st :
  browsers browserType = Some engine ->
  getBrowser browserType st = call (Launch engine) (launch engine) st.
Proof. intros H. unfold getBrowser. rewrite H. reflexivity. Qed.

(** *** What a computation adds to the trace *)

Lemma emits_ret {A} P (a : A) : emits P (ret a : M W A).
Proof.
  intros st. exists []. simpl. rewrite app_nil_r. split; [reflexivity | constructor].
Qed.

Lemma emits_throw {A} P e : emits P (throw e : M W A).
Proof.
  intros st. exists []. simpl. rewrite app_nil_r. split; [reflexivity | constructor].
Qed.

Lemma emits_now P : emits P (now : M W Z).
Proof.
  intros st. exists []. simpl. rewrite app_nil_r. split; [reflexivity | constructor].
Qed.

Lemma emits_call {A} (P : Event -> Prop) c (op : W -> W * Res A) :
  (forall ok, P (c, ok)) -> emits P (call c op).
Proof.
  intros H st. unfold call. destruct (op (world st)) as [w' r]. simpl.
  exists [(c, is_ok r)]. split; [reflexivity | repeat constructor; apply H].
Qed.

Lemma emits_sleep (P : Event -> Prop) page ms :
  (forall ok, P (WaitForTimeout ms, ok)) -> emits P (sleep page ms).
Proof. intros H. apply emits_call. exact H. Qed.

Lemma emits_evaluate {A} (P : Event -> Prop) page
    (script : Document Num -> Res A) :
  (forall ok, P (Evaluate, ok)) -> emits P (evaluate page script).
Proof.
  intros H st. unfold evaluate. destruct (page_document page (world st)) as [w' r].
  simpl. eexists. split; [reflexivity | repeat constructor; apply H].
Qed.

Lemma emits_bind {A B} P (m : M W A) (k : A -> M W B) :
  emits P m -> (forall a, emits P (k a)) -> emits P (bind m k).
Proof.
  intros Hm Hk st. unfold bind.
  destruct (Hm st) as (e1 & E1 & F1).
  destruct (m st) as [st' [e | a]]; simpl in E1.
  - exists e1. split; assumption.
  - destruct (Hk a st') as (e2 & E2 & F2).
    exists (e1 ++ e2)%list. rewrite E2, E1, app_assoc.
    split; [reflexivity | apply Forall_app; split; assumption].
Qed.

Lemma emits_try_catch {A} P (body : M W A) (handler : JsError -> M W A) :
  emits P body -> (forall e, emits P (handler e)) ->
  emits P (try_catch body handler).
Proof.
  intros Hm Hk st. unfold try_catch.
  destruct (Hm st) as (e1 & E1 & F1).
  destruct (body st) as [st' [e | a]]; simpl in E1.
  - destruct (Hk e st') as (e2 & E2 & F2).
    exists (e1 ++ e2)%list. rewrite E2, E1, app_assoc.
    split; [reflexivity | apply Forall_app; split; assumption].
  - exists e1. split; assumption.
Qed.

Lemma emits_try_finally {A} P (body : M W A) (fin : M W unit) :
  emits P body -> emits P fin -> emits P (try_finally body fin).
Proof.
  intros Hm Hf st. unfold try_finally.
  destruct (Hm st) as (e1 & E1 & F1).
  destruct (body st) as [st' r]; simpl in E1.
  destruct (Hf st') as (e2 & E2 & F2).
  exists (e1 ++ e2)%list.
  destruct (fin st') as [st'' [e | u]]; simpl in *;
    rewrite E2, E1, app_assoc;
    (split; [reflexivity | apply Forall_app; split; assumption]).
Qed.

Lemma emits_promise_all {A} P (ms : list (M W A)) :
  Forall (emits P) ms -> emits P (promise_all ms).
Proof.
  induction 1 as [| m rest Hm _ IH]; intros st; simpl.
  - exists []. rewrite app_nil_r. split; [reflexivity | constructor].
  - destruct (Hm st) as (e1 & E1 & F1).
    destruct (m st) as [st1 r]; simpl in E1.
    destruct (IH st1) as (e2 & E2 & F2).
    destruct (promise_all rest st1) as [st2 rs]; simpl in *.
    exists (e1 ++ e2)%list. rewrite E2, E1, app_assoc.
    split; [reflexivity | apply Forall_app; split; assumption].
Qed.

Lemma emits_weaken {A} (P Q : Event -> Prop) (m : M W A) :
  (forall ev, P ev -> Q ev) -> emits P m -> emits Q m.
Proof.
  intros H Hm st. destruct (Hm st) as (evs & E & F).
  exists evs. split; [exact E | eapply Forall_impl; eauto].
Qed.

End CallLemmas.

(** Splits a computation along its binds, branches and handlers, and
    leaves the conditions on the calls it makes. *)
Ltac emits_step :=
  match goal with
  | |- emits _ (bind _ _) => apply emits_bind; [| intros ?]
  | |- emits _ (ret _) => apply emits_ret
  | |- emits _ (throw _) => apply emits_throw
  | |- emits _ now => apply emits_now
  | |- emits _ (call _ _) => apply emits_call; intros ?
  | |- emits _ (sleep _ _) => apply emits_sleep; intros ?
  | |- emits _ (evaluate _ _) => apply emits_evaluate; intros ?
  | |- emits _ (try_catch _ _) => apply emits_try_catch; [| intros ?]
  | |- emits _ (try_finally _ _) => apply emits_try_finally
  | |- emits _ (if ?b then _ else _) => destruct b
  | |- emits _ (match ?x with _ => _ end) => destruct x
  end.

(* ===================================================================== *)
(** ** The action loop *)
(* ===================================================================== *)

(** Case analysis on every test and every completion the goal scrutinises. *)
Ltac crush_cases :=
  repeat (cbn [fst snd];
          match goal with
          | |- context [match ?x with _ => _ end] =>
              lazymatch x with
              | context [match _ with _ => _ end] => fail
              | _ => destruct x
              end
          end);
  cbn [fst snd].

Section ActionLoop.
Context {W : Type} {PW : Playwright W}.

(** Run on an empty array, one step of the loop returns one line. *)
Lemma action_step_nil (page : Page) (action : Action.t) (st : St W) :
  exists line st1, action_step page action [] st = (st1, inr [line]).
Proof.
  unfold action_step, action_switch, try_catch, bind, call, now, ret, push.
  crush_cases; simpl; eexists; eexists; reflexivity.
Qed.

(** The array a step starts from only prefixes what the step returns. *)
Lemma action_step_push (page : Page) (action : Action.t) results (st : St W) :
  action_step page action results st =
  (fst (action_step page action [] st),
   match snd (action_step page action [] st) with
   | inl e => inl e
   | inr l => inr (results ++ l)%list
   end).
Proof.
  unfold action_step, action_switch, try_catch, bind, call, now, ret, push.
  crush_cases; reflexivity.
Qed.

(** One step of the loop never throws, and pushes exactly one line,
    which does not depend on the lines pushed before. *)
Lemma action_step_records (page : Page) (action : Action.t) (st : St W) :
  exists line st1, forall results,
    action_step page action results st = (st1, inr (push results line)).
Proof.
  destruct (action_step_nil page action st) as (line & st1 & H).
  exists line, st1. intros results.
  rewrite action_step_push, H. reflexivity.
Qed.

(** The loop never throws; it records one line per action, in order. *)
Lemma for_actions_recorded (page : Page) (actions : list Action.t) :
  forall st : St W, exists lines st',
    recorded page actions st lines st' /\
    forall results,
      for_actions page actions results st = (st', inr (results ++ lines)%list).
Proof.
  induction actions as [| action rest IH]; intros st.
  - exists [], st. split; [constructor |].
    intros results. simpl. rewrite app_nil_r. reflexivity.
  - destruct (action_step_records page action st) as (line & st1 & Hstep).
    destruct (IH st1) as (lines & st2 & Hrec & Hrest).
    exists (line :: lines), st2. split.
    + econstructor; eassumption.
    + intros results. simpl.
      rewrite (bind_returns _ _ _ _ _ (Hstep results)), Hrest.
      unfold push. rewrite <- app_assoc. reflexivity.
Qed.

Lemma recorded_length (page : Page) actions (st : St W) lines st' :
  recorded page actions st lines st' ->
  List.length lines = List.length actions.
Proof. induction 1; simpl; congruence. Qed.

(** The loop over a concatenation is the loop over its first part,
    followed by the loop over its second part. *)
Lemma for_actions_app (page : Page) (pre post : list Action.t) :
  forall results (st : St W),
    for_actions page (pre ++ post) results st =
    bind (for_actions page pre results) (for_actions page post) st.
Proof.
  induction pre as [| action pre IH]; intros results st; simpl.
  - reflexivity.
  - unfold bind.
    destruct (action_step page action results st) as [st1 [e | results1]].
    + reflexivity.
    + rewrite IH. unfold bind. reflexivity.
Qed.

(** A step of the loop makes none of the three calls of the frame and
    uses no timer: any property of the other calls holds of the calls
    it makes. *)
Lemma emits_action_step (P : Event -> Prop) (page : Page) action results :
  (forall ev, lifecycle ev = false -> is_timer ev = false -> P ev) ->
  emits P (action_step page action results : M W _).
Proof.
  intros HP. unfold action_step, action_switch.
  repeat emits_step; apply HP; reflexivity.
Qed.

Lemma emits_for_actions (P : Event -> Prop) (page : Page) actions :
  (forall ev, lifecycle ev = false -> is_timer ev = false -> P ev) ->
  forall results, emits P (for_actions page actions results : M W _).
Proof.
  intros HP. induction actions as [| action rest IH]; intros results; simpl.
  - apply emits_ret.
  - apply emits_bind; [apply emits_action_step; exact HP | exact IH].
Qed.

End ActionLoop.

(* ===================================================================== *)
(** ** Sessions *)
(* ===================================================================== *)

Section Sessions.
Context {W : Type} {PW : Playwright W}.

(** When the browser starts and the page opens, the body runs in the
    state they leave, and the browser is closed after it. *)
Lemma in_session_opened {A} browserType (body : Page -> M W A)
    (st : St W) engine w1 b w2 p :
  browsers browserType = Some engine ->
  launch engine (world st) = (w1, inr b) ->
  newPage b w1 = (w2, inr p) ->
  in_session browserType body st =
  try_finally (body p) (call Close (close b))
    {| world := w2;
       trace := trace st ++ [(Launch engine, true); (NewPage, true)] |}.
Proof.
  intros He Hl Hn. unfold in_session.
  erewrite bind_returns
    by (rewrite (getBrowser_launches _ _ _ He); apply call_returns; exact Hl).
  erewrite bind_returns by (apply call_returns; exact Hn).
  simpl. rewrite <- app_assoc. reflexivity.
Qed.

(** When the browser starts and the page cannot be opened, the handler
    throws at once: its body does not run, and neither does the
    [finally] that closes the browser. *)
Lemma in_session_page_fault {A} browserType (body : Page -> M W A)
    (st : St W) engine w1 b w2 e :
  browsers browserType = Some engine ->
  launch engine (world st) = (w1, inr b) ->
  newPage b w1 = (w2, inl e) ->
  in_session browserType body st =
  ({| world := w2;
      trace := trace st ++ [(Launch engine, true); (NewPage, false)] |},
   inl e).
Proof.
  intros He Hl Hn. unfold in_session.
  erewrite bind_returns
    by (rewrite (getBrowser_launches _ _ _ He); apply call_returns; exact Hl).
  erewrite bind_throws by (apply call_throws; exact Hn).
  simpl. rewrite <- app_assoc. reflexivity.
Qed.

Lemma try_finally_returns {A} (body : M W A) (fin : M W unit) st st1 r st2 :
  body st = (st1, r) -> fin st1 = (st2, inr tt) ->
  try_finally body fin st = (st2, r).
Proof. intros Hb Hf. unfold try_finally. rewrite Hb, Hf. reflexivity. Qed.

Lemma try_finally_throws {A} (body : M W A) (fin : M W unit) st st1 r st2 e :
  body st = (st1, r) -> fin st1 = (st2, inl e) ->
  try_finally body fin st = (st2, inl e).
Proof. intros Hb Hf. unfold try_finally. rewrite Hb, Hf. reflexivity. Qed.

(** The [finally] of the handlers: when [close] returns, the completion
    of the body stands; when it throws, its error replaces it. *)
Lemma closing_returns {A} (body : M W A) (b : Browser) st st1 r w5 :
  body st = (st1, r) -> close b (world st1) = (w5, inr tt) ->
  try_finally body (call Close (close b)) st =
  ({| world := w5; trace := trace st1 ++ [(Close, true)] |}, r).
Proof.
  intros Hb Hc. eapply try_finally_returns; [exact Hb |].
  apply call_returns. exact Hc.
Qed.

Lemma closing_throws {A} (body : M W A) (b : Browser) st st1 r w5 e :
  body st = (st1, r) -> close b (world st1) = (w5, inl e) ->
  try_finally body (call Close (close b)) st =
  ({| world := w5; trace := trace st1 ++ [(Close, false)] |}, inl e).
Proof.
  intros Hb Hc. eapply try_finally_throws; [exact Hb |].
  apply call_throws. exact Hc.
Qed.

Lemma scrapePage_in_session (args : Args) :
  scrapePage args =
  in_session (default "chromium" (browser args))
    (fun page => scrapePage_body page args).
Proof. reflexivity. Qed.

Lemma testReactApp_in_session (args : Args) :
  testReactApp args =
  in_session (default "chromium" (browser args))
    (fun page => testReactApp_body page args).
Proof. reflexivity. Qed.

Lemma getPageInfo_in_session (args : Args) :
  getPageInfo args =
  in_session (default "chromium" (browser args))
    (fun page => getPageInfo_body page args).
Proof. reflexivity. Qed.

Lemma waitForElement_in_session (args : Args) :
  waitForElement args =
  in_session (default "chromium" (browser args))
    (fun page => waitForElement_body page args).
Proof. reflexivity. Qed.

End Sessions.

(* ===================================================================== *)
(** ** The report of test_react_app *)
(* ===================================================================== *)

Section Report.
Context {W : Type} {PW : Playwright W}.

(** Once the navigation has succeeded, [testReactApp] is its loop, run
    from the navigation line, then the closing of the browser. *)
Lemma testReactApp_after_navigation
    (args : Args) (st : St W) engine w1 b w2 p w3 :
  browsers (default "chromium" (browser args)) = Some engine ->
  launch engine (world st) = (w1, inr b) ->
  newPage b w1 = (w2, inr p) ->
  goto p (url args) w2 = (w3, inr tt) ->
  testReactApp args st =
  try_finally
    (results <- for_actions p (actions args) [navigation_line args] ;;
     ret (testReactApp_report results))
    (call Close (close b))
    (navigated st engine (url args) w3).
Proof.
  intros He Hl Hn Hg.
  rewrite testReactApp_in_session.
  rewrite (in_session_opened _ _ _ _ _ _ _ _ He Hl Hn).
  unfold try_finally. f_equal.
  unfold testReactApp_body, testReactApp_results, navigated, bind at 1 2.
  unfold call. cbn [world trace]. rewrite Hg. cbn [is_ok].
  rewrite <- app_assoc. reflexivity.
Qed.

(** The loop only adds to the trace. *)
Lemma for_actions_extends (page : Page) actions results (st : St W) :
  exists evs,
    trace (fst (for_actions page actions results st)) = (trace st ++ evs)%list.
Proof.
  destruct (emits_for_actions (fun _ => True) page actions
              (fun _ _ _ => I) results st) as (evs & E & _).
  exists evs. exact E.
Qed.

(** C1, as the handler has it.  When the browser starts, the page opens
    and the navigation succeeds, the loop of [testReactApp] builds
    exactly [N + 1] entries for its [N] actions: the navigation line,
    then one line per action in order, whether the actions succeed or
    fail.  What the handler then returns depends on [browser.close()],
    called from the [finally]: when it returns, the handler returns the
    report made of these [N + 1] entries; when it throws, the handler
    throws that error, and the entries are lost. *)
Theorem testReactApp_outcome_count
    (args : Args) (st : St W) engine w1 b w2 p w3 :
  browsers (default "chromium" (browser args)) = Some engine ->
  launch engine (world st) = (w1, inr b) ->
  newPage b w1 = (w2, inr p) ->
  goto p (url args) w2 = (w3, inr tt) ->
  exists lines st4,
    recorded p (actions args) (navigated st engine (url args) w3) lines st4 /\
    List.length (navigation_line args :: lines) = S (List.length (actions args)) /\
    (forall w5, close b (world st4) = (w5, inr tt) ->
       testReactApp args st =
       ({| world := w5; trace := trace st4 ++ [(Close, true)] |},
        inr (report_of (navigation_line args :: lines)))) /\
    (forall w5 e, close b (world st4) = (w5, inl e) ->
       testReactApp args st =
       ({| world := w5; trace := trace st4 ++ [(Close, false)] |}, inl e)).
Proof.
  intros He Hl Hn Hg.
  destruct (for_actions_recorded p (actions args)
              (navigated st engine (url args) w3)) as (lines & st4 & Hrec & Hrun).
  exists lines, st4. split; [exact Hrec | split; [| split]].
  - simpl. f_equal. eapply recorded_length; exact Hrec.
  - intros w5 Hc.
    rewrite (testReactApp_after_navigation _ _ _ _ _ _ _ _ He Hl Hn Hg).
    eapply closing_returns; [| exact Hc].
    erewrite bind_returns by apply Hrun. reflexivity.
  - intros w5 e Hc.
    rewrite (testReactApp_after_navigation _ _ _ _ _ _ _ _ He Hl Hn Hg).
    eapply closing_throws; [| exact Hc].
    erewrite bind_returns by apply Hrun. reflexivity.
Qed.

(** C2. When the action at some position throws, the error is caught
    there: the line recorded for it, after the lines of the actions
    before it, is the failure mark, [Failed], the type and the selector
    of the action, and the message of the error; and the actions after
    it run from the state the failure left, each recording its line in
    order. *)
Theorem failing_action_is_recorded_and_sequence_continues
    (page : Page) (pre : list Action.t) (action : Action.t)
    (post : list Action.t) results (st st_i st_e : St W) results_i e :
  for_actions page pre results st = (st_i, inr results_i) ->
  action_switch page action results_i st_i = (st_e, inl e) ->
  exists lines st',
    recorded page post st_e lines st' /\
    List.length lines = List.length post /\
    for_actions page (pre ++ action :: post) results st =
    (st', inr (results_i ++
               failure_line (Action.type action) (Action.selector action)
                 (message e) :: lines)%list).
Proof.
  intros Hpre Hfail.
  destruct (for_actions_recorded page post st_e) as (lines & st' & Hrec & Hrun).
  exists lines, st'. split; [exact Hrec | split].
  - eapply recorded_length; exact Hrec.
  - rewrite for_actions_app, (bind_returns _ _ _ _ _ Hpre). simpl.
    erewrite bind_returns.
    2:{ unfold action_step, try_catch. rewrite Hfail. reflexivity. }
    rewrite Hrun. unfold push, failed_line. rewrite <- app_assoc. reflexivity.
Qed.

(** An action whose type is none of the six makes no call: it only
    pushes the line of the [default] branch. *)
Lemma action_step_unknown (page : Page) (action : Action.t) results
    (st : St W) :
  known_type (Action.type action) = false ->
  action_step page action results st =
  (st, inr (push results (unknown_line action))).
Proof.
  intros H. unfold action_step, action_switch, try_catch, unknown_line.
  destruct (Action.type action) as [t |]; simpl in H.
  - repeat (apply orb_false_elim in H; destruct H as [?E H]).
    rewrite E, E0, E1, E2, E3, E4. reflexivity.
  - reflexivity.
Qed.

(** C7. An action whose type is none of [click], [fill], [wait],
    [screenshot], [getText] and [getAttribute] is recorded by the line
    of the unknown action type, after the lines of the actions before
    it, and the actions after it run, from the very state the unknown
    action was met in, each recording its line in order. *)
Theorem unknown_action_is_recorded_and_skipped
    (page : Page) (pre : list Action.t) (action : Action.t)
    (post : list Action.t) results (st st_i : St W) results_i :
  known_type (Action.type action) = false ->
  for_actions page pre results st = (st_i, inr results_i) ->
  exists lines st',
    recorded page post st_i lines st' /\
    List.length lines = List.length post /\
    for_actions page (pre ++ action :: post) results st =
    (st', inr (results_i ++ unknown_line action :: lines)%list).
Proof.
  intros Hk Hpre.
  destruct (for_actions_recorded page post st_i) as (lines & st' & Hrec & Hrun).
  exists lines, st'. split; [exact Hrec | split].
  - eapply recorded_length; exact Hrec.
  - rewrite for_actions_app, (bind_returns _ _ _ _ _ Hpre). simpl.
    rewrite (bind_returns _ _ _ _ _ (action_step_unknown _ _ _ _ Hk)).
    rewrite Hrun. unfold push. rewrite <- app_assoc. reflexivity.
Qed.

(** A [fill] action without [value] is run as any [fill]: the page is
    asked to fill the field with [undefined], and the completion of that
    call decides the line. *)
Lemma action_step_fill_undefined (page : Page) (action : Action.t) results
    (st : St W) :
  Action.type action = Some "fill" ->
  Action.value action = None ->
  action_step page action results st =
  (let (w', r) := fill page (Action.selector action) None
                    (default 5000%Z (Action.timeout action)) (world st) in
   ({| world := w';
       trace := trace st ++
                [(Fill (Action.selector action) None
                    (default 5000%Z (Action.timeout action)), is_ok r)] |},
    inr (push results (fill_outcome action r)))).
Proof.
  intros Ht Hv. unfold action_step, action_switch, try_catch. rewrite Ht, Hv.
  cbn [String.eqb Ascii.eqb Bool.eqb]. unfold bind, call.
  destruct (fill page _ None _ (world st)) as [w' [e | []]]; reflexivity.
Qed.

(** C4, as the handler has it.  A request with a [fill] action that has
    no [value] is run like any other request: the browser is started,
    the actions before the [fill] are run, the page is asked to fill the
    field with [undefined], and the completion of that call is recorded
    as the line of the action: the line of a filled field, showing
    [undefined], when the call returns, and the line of a failure, with
    the message of the error, when it throws.  The actions after it are
    run from the state the call left.  When [browser.close()] then
    returns, the handler returns the report of all these lines; when it
    throws, the handler throws that error. *)
Theorem fill_without_value_runs_in_a_session
    (args : Args) (st : St W) pre action post engine w1 b w2 p w3 :
  actions args = (pre ++ action :: post)%list ->
  Action.type action = Some "fill" ->
  Action.value action = None ->
  browsers (default "chromium" (browser args)) = Some engine ->
  launch engine (world st) = (w1, inr b) ->
  newPage b w1 = (w2, inr p) ->
  goto p (url args) w2 = (w3, inr tt) ->
  exists lines_pre st_i lines_post st4,
    recorded p pre (navigated st engine (url args) w3) lines_pre st_i /\
    let filled := fill p (Action.selector action) None
                    (default 5000%Z (Action.timeout action)) (world st_i) in
    let event := (Fill (Action.selector action) None
                    (default 5000%Z (Action.timeout action)),
                  is_ok (snd filled)) in
    recorded p post
      {| world := fst filled; trace := trace st_i ++ [event] |}
      lines_post st4 /\
    List.length lines_post = List.length post /\
    In (Launch engine, true) (trace st4) /\
    In event (trace st4) /\
    (forall w5, close b (world st4) = (w5, inr tt) ->
       testReactApp args st =
       ({| world := w5; trace := trace st4 ++ [(Close, true)] |},
        inr (report_of
               (navigation_line args :: lines_pre ++
                fill_outcome action (snd filled) :: lines_post)%list))) /\
    (forall w5 e, close b (world st4) = (w5, inl e) ->
       testReactApp args st =
       ({| world := w5; trace := trace st4 ++ [(Close, false)] |}, inl e)).
Proof.
  intros Ha Ht Hv He Hl Hn Hg.
  destruct (for_actions_recorded p pre (navigated st engine (url args) w3))
    as (lines_pre & st_i & Hrec_pre & Hrun_pre).
  pose proof (action_step_fill_undefined p action
                ([navigation_line args] ++ lines_pre)%list st_i Ht Hv) as Hstep.
  destruct (fill p (Action.selector action) None
              (default 5000%Z (Action.timeout action)) (world st_i))
    as [w_e r] eqn:Hfill.
  set (st_e := {| world := w_e;
                  trace := trace st_i ++
                    [(Fill (Action.selector action) None
                        (default 5000%Z (Action.timeout action)), is_ok r)] |})
    in Hstep.
  destruct (for_actions_recorded p post st_e)
    as (lines_post & st4 & Hrec_post & Hrun_post).
  assert (Hbody :
    (results <- for_actions p (actions args) [navigation_line args] ;;
     ret (testReactApp_report results))
      (navigated st engine (url args) w3) =
    (st4, inr (report_of
                 (navigation_line args :: lines_pre ++
                  fill_outcome action r :: lines_post)%list))).
  { erewrite bind_returns.
    2:{ rewrite Ha, for_actions_app.
        erewrite bind_returns by apply Hrun_pre.
        simpl for_actions.
        erewrite bind_returns by exact Hstep.
        apply Hrun_post. }
    unfold ret, push, testReactApp_report, report_of.
    repeat rewrite <- app_assoc. reflexivity. }
  assert (Htrace : exists evs1 evs2,
    trace st4 =
    ((((trace st ++
       [(Launch engine, true); (NewPage, true); (Goto (url args), true)]) ++
      evs1) ++
     [(Fill (Action.selector action) None
         (default 5000%Z (Action.timeout action)), is_ok r)]) ++ evs2)%list).
  { destruct (for_actions_extends p pre [navigation_line args]
                (navigated st engine (url args) w3)) as (evs1 & E1).
    rewrite Hrun_pre in E1. cbn [fst] in E1.
    destruct (for_actions_extends p post [] st_e) as (evs2 & E2).
    rewrite Hrun_post in E2. cbn [fst] in E2.
    exists evs1, evs2. rewrite E2. subst st_e. cbn [trace]. rewrite E1.
    reflexivity. }
  destruct Htrace as (evs1 & evs2 & Htrace).
  exists lines_pre, st_i, lines_post, st4.
  split; [exact Hrec_pre |].
  cbv zeta. rewrite Hfill. cbn [fst snd].
  split; [exact Hrec_post |].
  split; [eapply recorded_length; exact Hrec_post |].
  split; [| split; [| split]].
  - rewrite Htrace. repeat rewrite in_app_iff. simpl. tauto.
  - rewrite Htrace. repeat rewrite in_app_iff. simpl. tauto.
  - intros w5 Hc.
    rewrite (testReactApp_after_navigation _ _ _ _ _ _ _ _ He Hl Hn Hg).
    eapply closing_returns; [exact Hbody | exact Hc].
  - intros w5 e Hc.
    rewrite (testReactApp_after_navigation _ _ _ _ _ _ _ _ He Hl Hn Hg).
    eapply closing_throws; [exact Hbody | exact Hc].
Qed.

End Report.

(* ===================================================================== *)
(** ** Acquisition and release of the browser *)
(* ===================================================================== *)

Section Release.
Context {W : Type} {PW : Playwright W}.

(** The content extraction of [scrapePage] only queries the page. *)
Lemma emits_scrapePage_content (P : Event -> Prop) (page : Page) selector :
  (forall ev, lifecycle ev = false -> is_timer ev = false ->
              (forall s t ok, ev <> (WaitForSelector s t, ok)) -> P ev) ->
  emits P (scrapePage_content page selector : M W _).
Proof.
  intros HP. unfold scrapePage_content.
  repeat emits_step; try (apply HP; try reflexivity; intros; discriminate).
  apply emits_promise_all. apply Forall_forall. intros m Hm.
  apply in_map_iff in Hm. destruct Hm as (el & <- & _).
  emits_step. apply HP; try reflexivity; intros; discriminate.
Qed.

Lemma scrapePage_body_quiet (page : Page) (args : Args) :
  emits quiet (scrapePage_body page args : M W _).
Proof.
  unfold scrapePage_body.
  apply emits_bind; [emits_step; reflexivity | intros _].
  apply emits_bind.
  { unfold scrapePage_wait. repeat emits_step; reflexivity. }
  intros _. apply emits_bind.
  { apply emits_scrapePage_content. intros ev H _ _. exact H. }
  intros content. cbv zeta. repeat emits_step; reflexivity.
Qed.

Lemma testReactApp_body_quiet (page : Page) (args : Args) :
  emits quiet (testReactApp_body page args : M W _).
Proof.
  unfold testReactApp_body, testReactApp_results.
  apply emits_bind; [| intros; apply emits_ret].
  apply emits_bind; [emits_step; reflexivity | intros _].
  apply emits_for_actions. intros ev H _. exact H.
Qed.

Lemma getPageInfo_body_quiet (page : Page) (args : Args) :
  emits quiet (getPageInfo_body page args : M W _).
Proof. unfold getPageInfo_body. repeat emits_step; reflexivity. Qed.

Lemma waitForElement_body_quiet (page : Page) (args : Args) :
  emits quiet (waitForElement_body page args : M W _).
Proof. unfold waitForElement_body. repeat emits_step; reflexivity. Qed.

Lemma count_app (f : Event -> bool) (l1 l2 : list Event) :
  count f (l1 ++ l2) = count f l1 + count f l2.
Proof. unfold count. rewrite filter_app, length_app. reflexivity. Qed.

Lemma count_quiet (f : Event -> bool) (evs : list Event) :
  (forall ev, f ev = true -> lifecycle ev = true) ->
  Forall quiet evs -> count f evs = 0.
Proof.
  intros Hf. induction 1 as [| ev evs Hq _ IH]; [reflexivity |].
  unfold count in *. simpl. destruct (f ev) eqn:E; [| exact IH].
  apply Hf in E. unfold quiet in Hq. congruence.
Qed.

Lemma is_launch_lifecycle ev : is_launch ev = true -> lifecycle ev = true.
Proof. destruct ev as [[] []]; simpl; congruence. Qed.

Lemma is_close_lifecycle ev : is_close ev = true -> lifecycle ev = true.
Proof. destruct ev as [[] []]; simpl; congruence. Qed.

Lemma is_page_lifecycle ev : is_page ev = true -> lifecycle ev = true.
Proof. destruct ev as [[] []]; simpl; congruence. Qed.

(** The frame closes the browser exactly when it has opened a page: a
    handler whose body leaves the three calls of the frame alone starts
    at most one browser, and calls [close] once if the page was opened
    and not at all otherwise. *)
Lemma in_session_balance {A} browserType (body : Page -> M W A) :
  (forall page, emits quiet (body page)) ->
  forall st, exists evs,
    trace (fst (in_session browserType body st)) = (trace st ++ evs)%list /\
    acquired evs <= 1 /\
    count is_page evs <= acquired evs /\
    released evs = count is_page evs.
Proof.
  intros Hbody st. unfold in_session, getBrowser.
  destruct (browsers browserType) as [engine |].
  2:{ exists []. rewrite app_nil_r.
      destruct (existsb _ _); simpl; repeat split; cbn; try reflexivity; lia. }
  unfold bind at 1. unfold call at 1.
  destruct (launch engine (world st)) as [w1 [e | b]].
  { exists [(Launch engine, false)]. simpl. repeat split; cbn; try reflexivity; lia. }
  unfold bind at 1. unfold call at 1. cbn [world trace].
  destruct (newPage b w1) as [w2 [e | p]].
  { exists [(Launch engine, true); (NewPage, false)].
    simpl. rewrite <- app_assoc.
    repeat split; cbn; try reflexivity; lia. }
  unfold try_finally. cbn [is_ok].
  destruct (Hbody p {| world := w2;
                       trace := (trace st ++ [(Launch engine, true)]) ++
                                [(NewPage, true)] |}) as (evs & E & Q).
  destruct (body p _) as [st3 r]. cbn [fst trace] in E.
  unfold call. destruct (close b (world st3)) as [w4 rc].
  exists ([(Launch engine, true); (NewPage, true)] ++ evs ++ [(Close, is_ok rc)])%list.
  split.
  - destruct rc; cbn [fst trace]; rewrite E;
      repeat rewrite <- app_assoc; reflexivity.
  - unfold acquired, released. repeat rewrite count_app.
    rewrite (count_quiet is_launch evs is_launch_lifecycle Q).
    rewrite (count_quiet is_page evs is_page_lifecycle Q).
    rewrite (count_quiet is_close evs is_close_lifecycle Q).
    destruct rc; cbn; repeat split; cbn; try reflexivity; lia.
Qed.

(** X21. Whatever the tool and its arguments, a request starts at most
    one browser, and closes it once if the page was opened and never
    otherwise. *)
Lemma callTool_balance (name : string) (args : Args) (st : St W) :
  exists evs,
    trace (fst (callTool name args st)) = (trace st ++ evs)%list /\
    acquired evs <= 1 /\
    count is_page evs <= acquired evs /\
    released evs = count is_page evs.
Proof.
  assert (Hcatch : forall (m : M W ToolResult),
    (exists evs, trace (fst (m st)) = (trace st ++ evs)%list /\
       acquired evs <= 1 /\ count is_page evs <= acquired evs /\
       released evs = count is_page evs) ->
    exists evs,
      trace (fst (try_catch m (fun error =>
        ret {| content := ["Error: " ++ message error];
               isError := true |}) st)) = (trace st ++ evs)%list /\
      acquired evs <= 1 /\ count is_page evs <= acquired evs /\
      released evs = count is_page evs).
  { intros m (evs & E & H). exists evs. split; [| exact H].
    unfold try_catch. destruct (m st) as [st' [e | r]]; exact E. }
  unfold callTool. apply Hcatch.
  destruct (String.eqb name "scrape_page").
  { rewrite scrapePage_in_session. apply in_session_balance.
    intros page. apply scrapePage_body_quiet. }
  destruct (String.eqb name "test_react_app").
  { rewrite testReactApp_in_session. apply in_session_balance.
    intros page. apply testReactApp_body_quiet. }
  destruct (String.eqb name "get_page_info").
  { rewrite getPageInfo_in_session. apply in_session_balance.
    intros page. apply getPageInfo_body_quiet. }
  destruct (String.eqb name "wait_for_element").
  { rewrite waitForElement_in_session. apply in_session_balance.
    intros page. apply waitForElement_body_quiet. }
  exists []. rewrite app_nil_r. simpl. repeat split; cbn; lia.
Qed.

(** When the browser starts and the page cannot be opened, each of the
    four handlers throws with the browser still running: [close] is not
    called. *)
Lemma page_fault_leaks (name : string) (args : Args) (st : St W)
    engine w1 b w2 e :
  In name tools ->
  browsers (default "chromium" (browser args)) = Some engine ->
  launch engine (world st) = (w1, inr b) ->
  newPage b w1 = (w2, inl e) ->
  callTool name args st =
  ({| world := w2;
      trace := trace st ++ [(Launch engine, true); (NewPage, false)] |},
   inr {| content := ["Error: " ++ message e]; isError := true |}).
Proof.
  intros Hname He Hl Hn. unfold callTool, try_catch.
  pose proof (in_session_page_fault (default "chromium" (browser args))
                (fun page => scrapePage_body page args) st _ _ _ _ _ He Hl Hn)
    as H1.
  pose proof (in_session_page_fault (default "chromium" (browser args))
                (fun page => testReactApp_body page args) st _ _ _ _ _ He Hl Hn)
    as H2.
  pose proof (in_session_page_fault (default "chromium" (browser args))
                (fun page => getPageInfo_body page args) st _ _ _ _ _ He Hl Hn)
    as H3.
  pose proof (in_session_page_fault (default "chromium" (browser args))
                (fun page => waitForElement_body page args) st _ _ _ _ _ He Hl Hn)
    as H4.
  simpl in Hname.
  destruct Hname as [<- | [<- | [<- | [<- | []]]]]; cbn [String.eqb Ascii.eqb Bool.eqb].
  - rewrite scrapePage_in_session, H1. reflexivity.
  - rewrite testReactApp_in_session, H2. reflexivity.
  - rewrite getPageInfo_in_session, H3. reflexivity.
  - rewrite waitForElement_in_session, H4. reflexivity.
Qed.

End Release.

(* ===================================================================== *)
(** ** Strings of digits and the numbers they denote *)
(* ===================================================================== *)

Section Numerals.
Local Open Scope Z_scope.

(** Evaluates the digit test and the digit value at a literal. *)
Ltac eval_digit :=
  cbn [NilEmpty.string_of_uint parse_digits all_digits];
  repeat match goal with
         | |- context [is_digit ?c] =>
             let v := eval vm_compute in (is_digit c) in
             change (is_digit c) with v
         | |- context [digit_value ?c] =>
             let v := eval vm_compute in (digit_value c) in
             change (digit_value c) with v
         end;
  cbv beta iota.

Lemma parse_digits_acc (d : Decimal.uint) :
  forall acc : positive,
    parse_digits (Zpos acc) (NilEmpty.string_of_uint d) =
    Zpos (Pos.of_uint_acc d acc).
Proof.
  induction d; intros acc; eval_digit; try reflexivity;
    cbn [Pos.of_uint_acc]; rewrite <- IHd; f_equal; lia.
Qed.

Lemma parse_digits_uint (d : Decimal.uint) :
  parse_digits 0 (NilEmpty.string_of_uint d) = Z.of_N (Pos.of_uint d).
Proof.
  induction d; eval_digit; try reflexivity; cbn [Pos.of_uint Z.of_N];
    try exact IHd;
    match goal with
    | |- parse_digits ?z _ = _ =>
        let v := eval vm_compute in z in change z with v
    end;
    apply parse_digits_acc.
Qed.

Lemma all_digits_uint (d : Decimal.uint) :
  all_digits (NilEmpty.string_of_uint d) = true.
Proof. induction d; eval_digit; try reflexivity; exact IHd. Qed.

(** The decimal rendering of a positive number. *)
Lemma show_Z_pos (p : positive) :
  show_Z (Zpos p) = NilEmpty.string_of_uint (Pos.to_uint p) /\
  NilEmpty.string_of_uint (Pos.to_uint p) <> EmptyString.
Proof.
  unfold show_Z. cbn [Z.to_int NilZero.string_of_int].
  pose proof (DecimalPos.Unsigned.to_uint_nonnil p) as Hn.
  unfold NilZero.string_of_uint.
  destruct (Pos.to_uint p); try (split; [reflexivity | discriminate]).
  contradiction.
Qed.

(** The digit strings are read as non-negative numbers. *)
Lemma parse_digits_nonneg (s : string) :
  forall acc, 0 <= acc -> 0 <= parse_digits acc s.
Proof.
  induction s as [| c s IH]; intros acc Hacc; cbn [parse_digits];
    [exact Hacc |].
  destruct (is_digit c) eqn:Hd; [| exact Hacc].
  apply IH. unfold is_digit in Hd. unfold digit_value.
  apply andb_true_iff in Hd. destruct Hd as [Hd _].
  apply Nat.leb_le in Hd. lia.
Qed.

(** Below 2^53 every integer is a number value. *)
Lemma to_double_exact (n : Z) : n < 2 ^ 53 -> to_double n = Finite n.
Proof.
  intros H. unfold to_double.
  destruct (Z.ltb_spec n (2 ^ 53)) as [_ | Hge]; [reflexivity | lia].
Qed.

(** Above 2^53 the number value is the integer rounded to 53
    significant bits: it is off by at most half a unit of the last of
    them, that is by at most one part in 2^53. *)
Lemma to_double_close (n v : Z) :
  0 <= n -> to_double n = Finite v -> Z.abs (v - n) * 2 ^ 53 <= n.
Proof.
  intros Hn. unfold to_double.
  destruct (Z.ltb_spec n (2 ^ 53)) as [Hlt | Hge].
  { intros [= <-]. rewrite Z.sub_diag. simpl. exact Hn. }
  assert (Hlog : 53 <= Z.log2 n).
  { rewrite <- (Z.log2_pow2 53) by lia. apply Z.log2_le_mono. exact Hge. }
  set (e := Z.log2 n - 52).
  assert (He : 1 <= e) by (unfold e; lia).
  rewrite Z.shiftr_div_pow2, !Z.shiftl_mul_pow2 by lia.
  assert (Hpow : 2 ^ e = 2 * 2 ^ (e - 1)).
  { replace e with (1 + (e - 1)) at 1 by lia.
    rewrite Z.pow_add_r by lia. reflexivity. }
  assert (Hbig : 2 ^ (e - 1) * 2 ^ 53 <= n).
  { rewrite <- Z.pow_add_r by lia.
    replace (e - 1 + 53) with (Z.log2 n) by (unfold e; lia).
    apply Z.log2_spec. lia. }
  set (P := 2 ^ (e - 1)) in *.
  assert (HP : 0 < P) by (unfold P; apply Z.pow_pos_nonneg; lia).
  rewrite Hpow. rewrite Z.mul_1_l.
  pose proof (Z.div_mod n (2 * P) ltac:(lia)) as Hdiv.
  pose proof (Z.mod_pos_bound n (2 * P) ltac:(lia)) as Hmod.
  set (q := n / (2 * P)) in *.
  set (r := n mod (2 * P)) in *.
  replace (n - q * (2 * P)) with r by lia.
  set (K := 2 ^ 53) in *.
  assert (HK : 0 < K) by (unfold K; lia).
  clearbody K P q r.
  destruct ((P <? r) || ((r =? P) && Z.odd q)) eqn:Hup.
  - assert (Hr : P <= r).
    { apply orb_true_iff in Hup. destruct Hup as [H | H].
      - apply Z.ltb_lt in H. lia.
      - apply andb_true_iff in H. destruct H as [H _].
        apply Z.eqb_eq in H. lia. }
    destruct (2 ^ 1024 <=? (q + 1) * (2 * P)); intros Hv;
      [discriminate Hv |].
    assert (Ev : v = (q + 1) * (2 * P)) by congruence. subst v.
    replace ((q + 1) * (2 * P) - n) with (2 * P - r) by lia.
    rewrite Z.abs_eq by lia.
    apply Z.le_trans with (P * K); [| exact Hbig].
    apply Z.mul_le_mono_nonneg_r; lia.
  - assert (Hr : r <= P).
    { apply orb_false_iff in Hup. destruct Hup as [H _].
      apply Z.ltb_ge in H. exact H. }
    destruct (2 ^ 1024 <=? q * (2 * P)); intros Hv; [discriminate Hv |].
    assert (Ev : v = q * (2 * P)) by congruence. subst v.
    replace (q * (2 * P) - n) with (- r) by lia.
    rewrite Z.abs_opp, Z.abs_eq by lia.
    apply Z.le_trans with (P * K); [| exact Hbig].
    apply Z.mul_le_mono_nonneg_r; lia.
Qed.

(** The decimal rendering of a number that is not negative is a string
    of digits, and [parseInt] reads it back, up to the rounding of
    number values. *)
Lemma parseInt_show_Z (n : Z) :
  0 <= n ->
  matches_digits (show_Z n) = true /\ parseInt (show_Z n) = to_double n.
Proof.
  intros Hn. destruct n as [| p | p]; [split; reflexivity | | lia].
  destruct (show_Z_pos p) as [-> Hne]. unfold matches_digits, parseInt.
  rewrite all_digits_uint, parse_digits_uint.
  rewrite DecimalPos.Unsigned.of_to. split; [| reflexivity].
  apply String.eqb_neq in Hne. rewrite Hne. reflexivity.
Qed.

End Numerals.

(* ===================================================================== *)
(** ** The waits of scrape_page and wait_for_element *)
(* ===================================================================== *)

Section Waits.
Context {W : Type} {PW : Playwright W}.

Lemma emits_in_session {A} (P : Event -> Prop) browserType
    (body : Page -> M W A) :
  (forall ev, lifecycle ev = true -> P ev) ->
  (forall page, emits P (body page)) ->
  emits P (in_session browserType body).
Proof.
  intros HP Hbody. unfold in_session, getBrowser.
  repeat emits_step; try (apply HP; reflexivity). apply Hbody.
Qed.

(** The extraction starts with its query, made in the state the
    extraction starts in, and waits for nothing. *)
Lemma scrapePage_content_starts (page : Page) selector (st : St W) :
  exists evs,
    trace (fst (scrapePage_content page selector st)) =
    (trace st ++
     (extraction_call selector,
      extraction_completes page selector (world st)) :: evs)%list /\
    Forall not_selector_wait evs.
Proof.
  assert (Hbody : forall st : St W, exists evs,
    trace (fst ((c <- call (TextContent (Some "body"))
                        (page_textContent page (Some "body")) ;;
                 ret (show_null c)) st)) =
    (trace st ++
     (TextContent (Some "body"),
      is_ok (snd (page_textContent page (Some "body") (world st)))) :: evs)%list
    /\ Forall not_selector_wait evs).
  { intros st0. unfold bind, call, ret.
    destruct (page_textContent page (Some "body") (world st0)) as [w' [e | c]];
      simpl; exists []; split; try reflexivity; constructor. }
  unfold scrapePage_content, extraction_completes, extraction_call.
  destruct selector as [sel |].
  2:{ apply Hbody. }
  destruct (String.eqb sel EmptyString).
  { apply Hbody. }
  unfold bind at 1. unfold call at 1.
  destruct (query_all page sel (world st)) as [w' [e | els]].
  { simpl. exists []. split; [reflexivity | constructor]. }
  match goal with
  | |- context [bind ?m ?k ?s] =>
      destruct (emits_bind not_selector_wait m k) with (st := s)
        as (evs & E & F)
  end.
  - apply emits_promise_all. apply Forall_forall. intros m Hm.
    apply in_map_iff in Hm. destruct Hm as (el & <- & _).
    apply emits_call. intros ok s t ok'. discriminate.
  - intros texts. apply emits_ret.
  - exists evs. rewrite E. cbn [trace is_ok snd].
    rewrite <- app_assoc. split; [reflexivity | exact F].
Qed.

Lemma scrapePage_content_first_call (page : Page) selector (st : St W) :
  exists ok evs,
    trace (fst (scrapePage_content page selector st)) =
    (trace st ++ (extraction_call selector, ok) :: evs)%list /\
    Forall not_selector_wait evs.
Proof.
  destruct (scrapePage_content_starts page selector st) as (evs & E & F).
  eexists. exists evs. split; [exact E | exact F].
Qed.

(** What follows the extraction in [scrapePage]: the screenshot, if one
    is asked for. *)
Lemma scrapePage_after_content (page : Page) (args : Args) content :
  emits not_selector_wait
    (let result :=
       [ "Scraped content from " ++ url args ++ ":" ++ nl ++ nl ++ content ]
     in
     if screenshot args then
       screenshotBuffer <- call Screenshot (page_screenshot page) ;;
       t <- now ;;
       let screenshotPath := "/tmp/screenshot-" ++ show_Z t ++ ".png" in
       call (WriteFile screenshotPath)
            (writeFileSync screenshotPath screenshotBuffer) ;;
       ret {| content :=
                push result ("Screenshot saved to: " ++ screenshotPath);
              isError := false |}
     else ret {| content := result; isError := false |} : M W ToolResult).
Proof. cbv zeta. repeat emits_step; intros s t ok'; discriminate. Qed.

(** From the extraction to the closing of the browser, [scrapePage]
    starts with the query of the extraction, made in the state it is
    in, and waits for no selector. *)
Lemma scrapePage_extraction_starts (page : Page) (b : Browser)
    (args : Args) (st : St W) :
  exists evs,
    trace (fst (try_finally
                  (content <- scrapePage_content page (selector args) ;;
                   let result :=
                     [ "Scraped content from " ++ url args ++ ":" ++ nl ++ nl
                       ++ content ] in
                   if screenshot args then
                     screenshotBuffer <- call Screenshot (page_screenshot page) ;;
                     t <- now ;;
                     let screenshotPath :=
                       "/tmp/screenshot-" ++ show_Z t ++ ".png" in
                     call (WriteFile screenshotPath)
                          (writeFileSync screenshotPath screenshotBuffer) ;;
                     ret {| content :=
                              push result
                                ("Screenshot saved to: " ++ screenshotPath);
                            isError := false |}
                   else ret {| content := result; isError := false |})
                  (call Close (close b)) st)) =
    (trace st ++
     (extraction_call (selector args),
      extraction_completes page (selector args) (world st)) :: evs)%list /\
    Forall not_selector_wait evs.
Proof.
  destruct (scrapePage_content_starts page (selector args) st)
    as (evs1 & E1 & F1).
  unfold try_finally, bind at 1.
  destruct (scrapePage_content page (selector args) st) as [st1 [e | content]];
    cbn [fst] in E1.
  - unfold call. destruct (close b (world st1)) as [w' rc].
    exists (evs1 ++ [(Close, is_ok rc)])%list. split.
    + destruct rc; cbn [fst trace]; rewrite E1, <- app_assoc; reflexivity.
    + apply Forall_app. split; [exact F1 |].
      repeat constructor. intros s t ok'. discriminate.
  - destruct (scrapePage_after_content page args content st1) as (evs2 & E2 & F2).
    cbv zeta in E2 |- *.
    match goal with
    | |- context [let (_, _) := ?m st1 in _] => destruct (m st1) as [st2 r]
    end.
    cbn [fst] in E2.
    unfold call. destruct (close b (world st2)) as [w' rc].
    exists (evs1 ++ evs2 ++ [(Close, is_ok rc)])%list. split.
    + destruct rc; cbn [fst trace]; rewrite E2, E1;
        repeat rewrite <- app_assoc; reflexivity.
    + apply Forall_app. split; [exact F1 |].
      apply Forall_app. split; [exact F2 |].
      repeat constructor. intros s t ok'. discriminate.
Qed.


Lemma matches_digits_nonempty (w : string) :
  matches_digits w = true -> String.eqb w EmptyString = false.
Proof.
  unfold matches_digits. intros H. apply andb_true_iff in H.
  destruct H as [H _]. apply negb_true_iff in H. exact H.
Qed.

Lemma extraction_call_not_selector_wait selector ok :
  not_selector_wait (extraction_call selector, ok).
Proof.
  unfold extraction_call. intros s t ok'.
  destruct selector as [sel |]; [destruct (String.eqb sel EmptyString) |];
    discriminate.
Qed.

(** C6, as the handler has it.  When [waitFor] is a string of digits and
    the navigation has succeeded, the next call of [scrapePage] is the
    timer of the page, for the number [parseInt] reads in the string
    (the number the string denotes when that is below 2^53), whatever
    the page holds; no selector is waited for.  The timer is a call to
    the driver like the others.  When it returns, the extraction starts
    with its query in the state the timer has left.  When it throws,
    nothing is extracted: the browser is closed and the handler throws
    that error, or the error of [close] when closing throws too. *)
Theorem scrapePage_digits_wait_is_a_timer
    (args : Args) (st : St W) (w : string) engine w1 b w2 p w3 w4 r :
  waitFor args = Some w ->
  matches_digits w = true ->
  browsers (default "chromium" (browser args)) = Some engine ->
  launch engine (world st) = (w1, inr b) ->
  newPage b w1 = (w2, inr p) ->
  goto p (url args) w2 = (w3, inr tt) ->
  waitForTimeout p (parseInt w) w3 = (w4, r) ->
  (forall n, (0 <= n < 2 ^ 53)%Z -> w = show_Z n -> parseInt w = Finite n) /\
  (exists evs,
     trace (fst (scrapePage args st)) =
     (trace st ++
      [(Launch engine, true); (NewPage, true); (Goto (url args), true);
       (WaitForTimeout (parseInt w), is_ok r)] ++ evs)%list /\
     Forall not_selector_wait evs /\
     (is_ok r = true ->
      exists evs',
        evs = (extraction_call (selector args),
               extraction_completes p (selector args) w4) :: evs')) /\
  (forall e, r = inl e ->
     (forall w5, close b w4 = (w5, inr tt) ->
        scrapePage args st =
        ({| world := w5;
            trace := trace st ++
              [(Launch engine, true); (NewPage, true);
               (Goto (url args), true);
               (WaitForTimeout (parseInt w), false); (Close, true)] |},
         inl e)) /\
     (forall w5 ec, close b w4 = (w5, inl ec) ->
        scrapePage args st =
        ({| world := w5;
            trace := trace st ++
              [(Launch engine, true); (NewPage, true);
               (Goto (url args), true);
               (WaitForTimeout (parseInt w), false); (Close, false)] |},
         inl ec))).
Proof.
  intros Hw Hd He Hl Hn Hg Hwait.
  split.
  { intros n [Hn0 Hn53] ->. destruct (parseInt_show_Z n Hn0) as [_ ->].
    apply to_double_exact. exact Hn53. }
  rewrite scrapePage_in_session.
  rewrite (in_session_opened _ _ _ _ _ _ _ _ He Hl Hn).
  destruct r as [e | []].
  - (* the timer throws: the browser is closed and the handler throws *)
    assert (Hbody : scrapePage_body p args
              {| world := w2;
                 trace := trace st ++ [(Launch engine, true); (NewPage, true)] |} =
              ({| world := w4;
                  trace := trace st ++
                    [(Launch engine, true); (NewPage, true);
                     (Goto (url args), true);
                     (WaitForTimeout (parseInt w), false)] |}, inl e)).
    { unfold scrapePage_body.
      erewrite bind_returns by (apply call_returns; exact Hg).
      unfold scrapePage_wait, sleep.
      rewrite Hw, (matches_digits_nonempty _ Hd), Hd.
      erewrite bind_throws by (apply call_throws; exact Hwait).
      cbn [world trace]. repeat rewrite <- app_assoc. reflexivity. }
    split.
    + unfold try_finally. rewrite Hbody. unfold call. cbn [world trace].
      destruct (close b w4) as [w5 rc].
      exists [(Close, is_ok rc)]. split; [| split].
      * destruct rc; cbn [fst trace]; rewrite <- app_assoc; reflexivity.
      * repeat constructor. intros s t ok'. discriminate.
      * intros H. discriminate H.
    + intros e' He'. injection He' as <-. split.
      * intros w5 Hc. erewrite closing_returns; [| exact Hbody | exact Hc].
        cbn [trace]. rewrite <- app_assoc. reflexivity.
      * intros w5 ec Hc. erewrite closing_throws; [| exact Hbody | exact Hc].
        cbn [trace]. rewrite <- app_assoc. reflexivity.
  - (* the timer returns: the extraction follows, in the state it left *)
    split; [| intros e He'; discriminate He'].
    destruct (scrapePage_extraction_starts p b args
                {| world := w4;
                   trace := trace st ++
                     [(Launch engine, true); (NewPage, true);
                      (Goto (url args), true);
                      (WaitForTimeout (parseInt w), true)] |})
      as (evs & E & F).
    cbn [world] in E.
    exists ((extraction_call (selector args),
             extraction_completes p (selector args) w4) :: evs).
    split; [| split].
    + etransitivity; [| etransitivity; [exact E |]].
      * f_equal. f_equal. unfold try_finally. f_equal.
        unfold scrapePage_body.
        erewrite bind_returns by (apply call_returns; exact Hg).
        unfold scrapePage_wait, sleep.
        rewrite Hw, (matches_digits_nonempty _ Hd), Hd.
        erewrite bind_returns by (apply call_returns; exact Hwait).
        cbn [world trace]. repeat rewrite <- app_assoc. reflexivity.
      * cbn [trace]. rewrite <- app_assoc. reflexivity.
    + constructor; [apply extraction_call_not_selector_wait | exact F].
    + intros _. exists evs. reflexivity.
Qed.


(** Whatever the request, a selector wait of [scrapePage] waits for
    [waitFor] with a deadline of 10000 milliseconds. *)
Lemma scrapePage_waits_only_10000 (args : Args) :
  emits (waits_10000 (waitFor args)) (scrapePage args : M W _).
Proof.
  rewrite scrapePage_in_session. apply emits_in_session.
  { intros [[] ok] H s t ok' Heq; try discriminate H; discriminate Heq. }
  intros page. unfold scrapePage_body.
  apply emits_bind; [emits_step; intros s t ok' Heq; discriminate Heq |].
  intros _. apply emits_bind.
  { unfold scrapePage_wait. destruct (waitFor args) as [w |].
    - repeat emits_step; intros s t ok' Heq; try discriminate Heq.
      injection Heq as <- <- _. split; reflexivity.
    - apply emits_ret. }
  intros _. apply emits_bind.
  { apply emits_scrapePage_content. intros ev _ _ H s t ok' Heq.
    exfalso. exact (H s t ok' Heq). }
  intros content.
  eapply emits_weaken; [| apply scrapePage_after_content].
  intros ev H s t ok' Heq. exfalso. exact (H s t ok' Heq).
Qed.

(** No request to [waitForElement] ever uses the timer. *)
Lemma waitForElement_uses_no_timer (args : Args) :
  emits (fun ev => is_timer ev = false) (waitForElement args : M W _).
Proof.
  rewrite waitForElement_in_session. apply emits_in_session.
  { intros [[] ok] H; try discriminate H; reflexivity. }
  intros page. unfold waitForElement_body. repeat emits_step; reflexivity.
Qed.

(** What [waitForElement] does once its wait has returned. *)
Lemma waitForElement_after_wait (page : Page) (b : Browser) (args : Args)
    (startTime : Z) :
  emits (fun _ => True)
    (try_finally
       (endTime <- now ;;
        let waitTime := (endTime - startTime)%Z in
        element <- call (Query (selector args)) (query page (selector args)) ;;
        match element with
        | None =>
            throw (Thrown
                     "Cannot read properties of null (reading 'textContent')")
        | Some el =>
            text <- call ElementText (element_textContent el) ;;
            isVisible <- call ElementVisible (element_isVisible el) ;;
            ret {| content :=
                     [ok_mark ++ " Element found: "
                      ++ show_undefined (selector args)
                      ++ nl ++ "Wait time: " ++ show_Z waitTime ++ "ms" ++ nl
                      ++ "Visible: " ++ show_bool isVisible ++ nl
                      ++ "Text content: " ++ dq ++ show_null text ++ dq];
                   isError := false |}
        end)
       (call Close (close b)) : M W ToolResult).
Proof.
  apply emits_try_finally; [| apply emits_call; intros; exact I].
  apply emits_bind; [apply emits_now |]. intros endTime. cbv zeta.
  apply emits_bind; [apply emits_call; intros; exact I |].
  intros [el |]; [| apply emits_throw].
  repeat emits_step; exact I.
Qed.

(** C5, as the handler has it.  Whatever the selector of a
    [wait_for_element] request, a string of digits included, the handler
    never uses the timer.  When the navigation has succeeded, its next
    call waits for the selector itself, with the timeout of the request
    (10000 milliseconds by default), whether that wait returns or
    throws.  When it throws because no such element appears, nothing
    more is asked of the page: the browser is closed and the handler
    throws the error of the wait, or the error of [close] when closing
    throws too. *)
Theorem waitForElement_waits_for_the_selector (args : Args) (st : St W) :
  (exists evs,
     trace (fst (waitForElement args st)) = (trace st ++ evs)%list /\
     Forall (fun ev => is_timer ev = false) evs) /\
  forall engine w1 b w2 p w3 w4 r,
    browsers (default "chromium" (browser args)) = Some engine ->
    launch engine (world st) = (w1, inr b) ->
    newPage b w1 = (w2, inr p) ->
    goto p (url args) w2 = (w3, inr tt) ->
    waitForSelector p (selector args) (default 10000%Z (timeout args)) w3 =
      (w4, r) ->
    (exists evs,
       trace (fst (waitForElement args st)) =
       (trace st ++
        [(Launch engine, true); (NewPage, true); (Goto (url args), true);
         (WaitForSelector (selector args)
            (default 10000%Z (timeout args)), is_ok r)] ++ evs)%list) /\
    (forall e, r = inl e ->
       (forall w5, close b w4 = (w5, inr tt) ->
          waitForElement args st =
          ({| world := w5;
              trace := trace st ++
                [(Launch engine, true); (NewPage, true);
                 (Goto (url args), true);
                 (WaitForSelector (selector args)
                    (default 10000%Z (timeout args)), false);
                 (Close, true)] |},
           inl e)) /\
       (forall w5 ec, close b w4 = (w5, inl ec) ->
          waitForElement args st =
          ({| world := w5;
              trace := trace st ++
                [(Launch engine, true); (NewPage, true);
                 (Goto (url args), true);
                 (WaitForSelector (selector args)
                    (default 10000%Z (timeout args)), false);
                 (Close, false)] |},
           inl ec))).
Proof.
  split; [apply waitForElement_uses_no_timer |].
  intros engine w1 b w2 p w3 w4 r He Hl Hn Hg Hwait.
  rewrite waitForElement_in_session.
  rewrite (in_session_opened _ _ _ _ _ _ _ _ He Hl Hn).
  destruct r as [e | []].
  - assert (Hbody : waitForElement_body p args
              {| world := w2;
                 trace := trace st ++ [(Launch engine, true); (NewPage, true)] |} =
              ({| world := w4;
                  trace := trace st ++
                    [(Launch engine, true); (NewPage, true);
                     (Goto (url args), true);
                     (WaitForSelector (selector args)
                        (default 10000%Z (timeout args)), false)] |}, inl e)).
    { unfold waitForElement_body.
      erewrite bind_returns by (apply call_returns; exact Hg).
      erewrite bind_returns by reflexivity.
      erewrite bind_throws by (apply call_throws; exact Hwait).
      cbn [world trace]. repeat rewrite <- app_assoc. reflexivity. }
    split.
    + unfold try_finally. rewrite Hbody. unfold call. cbn [world trace].
      destruct (close b w4) as [w5 rc]. exists [(Close, is_ok rc)].
      destruct rc; cbn [fst trace]; rewrite <- app_assoc; reflexivity.
    + intros e' He'. injection He' as <-. split.
      * intros w5 Hc. erewrite closing_returns; [| exact Hbody | exact Hc].
        cbn [trace]. rewrite <- app_assoc. reflexivity.
      * intros w5 ec Hc. erewrite closing_throws; [| exact Hbody | exact Hc].
        cbn [trace]. rewrite <- app_assoc. reflexivity.
  - split; [| intros e He'; discriminate He'].
    destruct (waitForElement_after_wait p b args (Date_now w3)
                {| world := w4;
                   trace := trace st ++
                     [(Launch engine, true); (NewPage, true);
                      (Goto (url args), true);
                      (WaitForSelector (selector args)
                         (default 10000%Z (timeout args)), true)] |})
      as (evs & E & _).
    exists evs.
    etransitivity; [| etransitivity; [exact E |]].
    + f_equal. f_equal. unfold try_finally. f_equal.
      unfold waitForElement_body.
      erewrite bind_returns by (apply call_returns; exact Hg).
      erewrite bind_returns by reflexivity.
      erewrite bind_returns by (apply call_returns; exact Hwait).
      cbn [world trace]. repeat rewrite <- app_assoc. reflexivity.
    + cbn [trace]. rewrite <- app_assoc. reflexivity.
Qed.

End Waits.

(* ===================================================================== *)
(** ** The snapshot of get_page_info *)
(* ===================================================================== *)

Section Snapshot.
Context {W : Type} {PW : Playwright W}.

Lemma filter_map_commute {A B} (f : B -> bool) (g : A -> B) (l : list A) :
  filter f (map g l) = map g (filter (fun a => f (g a)) l).
Proof.
  induction l as [| a l IH]; simpl; [reflexivity |].
  destruct (f (g a)); simpl; rewrite IH; reflexivity.
Qed.

Lemma filter_twice {A} (f g : A -> bool) (l : list A) :
  filter f (filter g l) = filter (fun a => g a && f a) l.
Proof.
  induction l as [| a l IH]; simpl; [reflexivity |].
  destruct (g a); simpl; [destruct (f a) |]; rewrite IH; reflexivity.
Qed.

Lemma heading_tag_round_trip (e : Element) :
  is_h1_h2_h3 e = true ->
  toLowerCase (tagName e) = localName e /\
  In (localName e) ["h1"; "h2"; "h3"].
Proof.
  unfold is_h1_h2_h3, tagName. simpl. intros H.
  repeat (apply orb_true_iff in H; destruct H as [H | H]);
    try discriminate H; apply String.eqb_eq in H; rewrite H;
    (split; [reflexivity | simpl; tauto]).
Qed.

(** The first script of [getPageInfo] always returns.  Its [headings]
    are the [h1], [h2] and [h3] elements of the document and no others,
    in document order, each with its tag and its trimmed text; its
    [metaTags] are the [meta] elements that have a name or a property,
    in document order. *)
Lemma pageInfo_script_entries (doc : Document Num) :
  exists info,
    pageInfo_script doc = inr info /\
    headings info = map heading_of (filter is_h1_h2_h3 (elements doc)) /\
    (forall h, In h (headings info) ->
               In (tag h) ["h1"; "h2"; "h3"] /\
               ~ In (tag h) ["h4"; "h5"; "h6"]) /\
    metaTags info = map meta_of (filter is_named_meta (elements doc)) /\
    (forall e, name e = EmptyString -> property e = None ->
               ~ In (meta_of e) (metaTags info)).
Proof.
  eexists. split; [reflexivity |]. cbn [headings metaTags].
  assert (Hh : map (fun h => {| tag := toLowerCase (tagName h);
                                text := trim (textContent h) |})
                 (querySelectorAll (elements doc)
                    [TypeSel "h1"; TypeSel "h2"; TypeSel "h3"]) =
               map heading_of (filter is_h1_h2_h3 (elements doc))).
  { unfold querySelectorAll. apply map_ext_in. intros e He.
    apply filter_In in He. destruct He as [_ He].
    destruct (heading_tag_round_trip e He) as [Ht _].
    unfold heading_of. rewrite Ht. reflexivity. }
  assert (Hm : filter (fun meta => truthy_str (meta_name meta))
                 (map (fun meta =>
                         {| meta_name := or_else (name meta) (property meta);
                            meta_content := elem_content meta |})
                      (querySelectorAll (elements doc) [TypeSel "meta"])) =
               map meta_of (filter is_named_meta (elements doc))).
  { unfold querySelectorAll. rewrite filter_map_commute, filter_twice.
    f_equal. apply filter_ext. intros e. unfold is_named_meta. simpl.
    rewrite orb_false_r. reflexivity. }
  rewrite Hh, Hm. repeat split.
  - apply in_map_iff in H. destruct H as (e & <- & He).
    apply filter_In in He. destruct He as [_ He].
    apply (heading_tag_round_trip e He).
  - apply in_map_iff in H. destruct H as (e & <- & He).
    apply filter_In in He. destruct He as [_ He].
    destruct (heading_tag_round_trip e He) as [_ Hin].
    cbn [tag heading_of]. simpl in Hin. simpl.
    intros Hbad.
    destruct Hin as [Hi | [Hi | [Hi | []]]];
      destruct Hbad as [Hb | [Hb | [Hb | []]]];
      rewrite <- Hi in Hb; discriminate Hb.
  - intros e Hn Hp Hin.
    apply in_map_iff in Hin. destruct Hin as (e' & Heq & He').
    apply filter_In in He'. destruct He' as [_ He'].
    unfold is_named_meta in He'. apply andb_true_iff in He'.
    destruct He' as [_ He']. rewrite Heq in He'.
    unfold meta_of in He'. cbn [meta_name] in He'.
    rewrite Hn, Hp in He'. discriminate He'.
Qed.

Lemma querySelectorAll_one (l : list Element) (sel : Selector) :
  querySelectorAll l [sel] = filter (matches sel) l.
Proof.
  unfold querySelectorAll. apply filter_ext. intros e. simpl.
  apply orb_false_r.
Qed.

(** The text the handler renders from the result of its first script is
    the snapshot of the document. *)
Lemma pageInfo_text_snapshot (url : string) (doc : Document Num) info
    (performanceInfo : string) :
  pageInfo_script doc = inr info ->
  pageInfo_text url info performanceInfo =
  snapshot_text url doc performanceInfo.
Proof.
  intros Hs.
  destruct (pageInfo_script_entries doc) as (info' & Hs' & Hh & _ & Hm & _).
  rewrite Hs in Hs'. injection Hs' as <-.
  unfold pageInfo_script in Hs. injection Hs as Hinfo.
  unfold pageInfo_text, snapshot_text. rewrite Hh, Hm, !map_map.
  rewrite <- Hinfo. cbn [info_title info_url links images forms].
  rewrite !querySelectorAll_one.
  assert (Hlines :
    map (fun e => "- " ++ toUpperCase (tag (heading_of e)) ++ ": "
                  ++ text (heading_of e))
        (filter is_h1_h2_h3 (elements doc)) =
    map heading_line (filter is_h1_h2_h3 (elements doc))) by reflexivity.
  rewrite Hlines. reflexivity.
Qed.

(** The text the handler renders from the result of its second script
    is the performance section of the navigation entry it read. *)
Lemma performance_text_section (loadTime : Z) (doc : Document Num) perf rest
    metrics :
  navigation_entries doc = perf :: rest ->
  metrics_script doc = inr metrics ->
  performance_text loadTime metrics =
  performance_section loadTime perf (paint_entries doc).
Proof.
  intros Hnav Hm. unfold metrics_script in Hm. rewrite Hnav in Hm.
  injection Hm as <-.
  unfold performance_text, performance_section, or_NA, paint_start, paint_time.
  cbn [domContentLoaded loadComplete firstPaint firstContentfulPaint].
  destruct (find (fun p => String.eqb (paint_name p) "first-paint")
              (paint_entries doc));
    destruct (find (fun p => String.eqb (paint_name p)
                               "first-contentful-paint")
                (paint_entries doc));
    reflexivity.
Qed.

(** C10. For a request whose browser starts, whose page opens, whose
    navigation succeeds and whose first script reads the document
    [doc]: every report [getPageInfo] returns is the snapshot of [doc],
    whose heading lines are those of the [h1], [h2] and [h3] elements
    of [doc], in document order, and whose meta lines are those of the
    [meta] elements with a name or a property; without
    [includePerformance], it does return that report when [close]
    returns.  An [h4], [h5] or [h6] element has no heading line, and a
    [meta] element with neither name nor property has no meta line. *)
Theorem getPageInfo_headings_and_meta
    (args : Args) (st : St W) engine w1 b w2 p w3 w4 doc :
  browsers (default "chromium" (browser args)) = Some engine ->
  launch engine (world st) = (w1, inr b) ->
  newPage b w1 = (w2, inr p) ->
  goto p (url args) w2 = (w3, inr tt) ->
  page_document p w3 = (w4, inr doc) ->
  (forall st' report,
     getPageInfo args st = (st', inr report) ->
     exists performanceInfo,
       report = {| content := [snapshot_text (url args) doc performanceInfo];
                   isError := false |}) /\
  (includePerformance args = false ->
   forall w5, close b w4 = (w5, inr tt) ->
     getPageInfo args st =
     ({| world := w5;
         trace := trace st ++
           [(Launch engine, true); (NewPage, true); (Goto (url args), true);
            (Evaluate, true); (Close, true)] |},
      inr {| content := [snapshot_text (url args) doc EmptyString];
             isError := false |})) /\
  (forall e, In e (filter is_h1_h2_h3 (elements doc)) <->
             In e (elements doc) /\ In (localName e) ["h1"; "h2"; "h3"]) /\
  (forall e, In (localName e) ["h4"; "h5"; "h6"] ->
             ~ In e (filter is_h1_h2_h3 (elements doc))) /\
  (forall e, In e (filter is_named_meta (elements doc)) <->
             In e (elements doc) /\ localName e = "meta" /\
             truthy_str (or_else (name e) (property e)) = true) /\
  (forall e, name e = EmptyString -> truthy_str (property e) = false ->
             ~ In e (filter is_named_meta (elements doc))).
Proof.
  intros He Hl Hn Hg Hd.
  destruct (pageInfo_script doc) as [err | info] eqn:Hinfo;
    [discriminate Hinfo |].
  pose proof (pageInfo_text_snapshot (url args) doc info) as Htext.
  specialize (fun perf => Htext perf Hinfo).
  assert (Hstart :
    getPageInfo_body p args
      {| world := w2;
         trace := trace st ++ [(Launch engine, true); (NewPage, true)] |} =
    (performanceInfo <-
       (if includePerformance args then
          metrics <- evaluate p metrics_script ;;
          ret (performance_text (Date_now w3 - Date_now w2) metrics)
        else ret EmptyString) ;;
     ret {| content := [pageInfo_text (url args) info performanceInfo];
            isError := false |})
      {| world := w4;
         trace := trace st ++
           [(Launch engine, true); (NewPage, true);
            (Goto (url args), true); (Evaluate, true)] |}).
  { unfold getPageInfo_body.
    erewrite bind_returns by reflexivity.
    erewrite bind_returns by (apply call_returns; exact Hg).
    erewrite bind_returns by reflexivity.
    erewrite bind_returns.
    2:{ unfold evaluate. cbn [world trace]. rewrite Hd, Hinfo. reflexivity. }
    cbn [is_ok world]. repeat rewrite <- app_assoc. reflexivity. }
  assert (Hmem : forall e, is_h1_h2_h3 e = true <->
                           In (localName e) ["h1"; "h2"; "h3"]).
  { intros e. unfold is_h1_h2_h3. rewrite existsb_exists. split.
    - intros (t & Hin & Heq). apply String.eqb_eq in Heq. subst t. exact Hin.
    - intros Hin. exists (localName e). split; [exact Hin |].
      apply String.eqb_refl. }
  split; [| split; [| split; [| split; [| split]]]].
  - intros st' report Hrun.
    rewrite getPageInfo_in_session in Hrun.
    rewrite (in_session_opened _ _ _ _ _ _ _ _ He Hl Hn) in Hrun.
    unfold try_finally in Hrun. rewrite Hstart in Hrun.
    destruct (includePerformance args).
    + unfold bind at 1 2 in Hrun. unfold evaluate in Hrun.
      cbn [world trace] in Hrun.
      destruct (page_document p w4) as [w5 [e | doc2]].
      * unfold call in Hrun. cbn [world trace] in Hrun.
        destruct (close b w5) as [w6 [ec | []]]; discriminate Hrun.
      * destruct (metrics_script doc2) as [e | metrics];
          unfold call, ret in Hrun; cbn [world trace] in Hrun;
          destruct (close b w5) as [w6 [ec | []]]; try discriminate Hrun.
        injection Hrun as _ <-. eexists. rewrite Htext. reflexivity.
    + unfold bind, ret, call in Hrun. cbn [world trace] in Hrun.
      destruct (close b w4) as [w6 [ec | []]]; try discriminate Hrun.
      injection Hrun as _ <-. eexists. rewrite Htext. reflexivity.
  - intros Hp w5 Hc.
    rewrite getPageInfo_in_session.
    rewrite (in_session_opened _ _ _ _ _ _ _ _ He Hl Hn).
    rewrite Hp in Hstart. unfold bind, ret in Hstart. rewrite Htext in Hstart.
    erewrite closing_returns; [| exact Hstart | exact Hc].
    cbn [trace]. rewrite <- app_assoc. reflexivity.
  - intros e. rewrite filter_In, Hmem. reflexivity.
  - intros e Hbad Hin. apply filter_In in Hin. destruct Hin as [_ Hin].
    apply Hmem in Hin. simpl in Hbad, Hin.
    destruct Hin as [Hi | [Hi | [Hi | []]]];
      destruct Hbad as [Hb | [Hb | [Hb | []]]];
      rewrite <- Hi in Hb; discriminate Hb.
  - intros e. rewrite filter_In. unfold is_named_meta, meta_of.
    cbn [meta_name]. rewrite andb_true_iff, String.eqb_eq. reflexivity.
  - intros e Hname Hprop Hin. apply filter_In in Hin. destruct Hin as [_ Hin].
    unfold is_named_meta, meta_of in Hin. cbn [meta_name] in Hin.
    apply andb_true_iff in Hin. destruct Hin as [_ Hin].
    unfold or_else in Hin. rewrite Hname in Hin. cbn in Hin.
    rewrite Hprop in Hin. discriminate Hin.
Qed.

(** Without a navigation entry the second script throws. *)
Lemma metrics_script_without_navigation (doc : Document Num) :
  navigation_entries doc = [] ->
  metrics_script doc =
  inl (Thrown ("Cannot read properties of undefined " ++
               "(reading 'domContentLoadedEventEnd')")).
Proof. intros H. unfold metrics_script. rewrite H. reflexivity. Qed.

(** With a navigation entry the second script returns, and a paint
    timing that has no entry is rendered as absent. *)
Lemma metrics_script_paint_absent (doc : Document Num) perf rest wanted :
  navigation_entries doc = perf :: rest ->
  (forall p, In p (paint_entries doc) -> paint_name p <> wanted) ->
  exists metrics,
    metrics_script doc = inr metrics /\
    or_NA (paint_start wanted (paint_entries doc)) = "N/A".
Proof.
  intros Hnav Hpaint. unfold metrics_script. rewrite Hnav.
  eexists. split; [reflexivity |].
  unfold paint_start.
  destruct (find (fun p => String.eqb (paint_name p) wanted)
              (paint_entries doc)) as [p |] eqn:Hfind; [| reflexivity].
  apply find_some in Hfind. destruct Hfind as [Hin Heq].
  apply String.eqb_eq in Heq. exfalso. exact (Hpaint p Hin Heq).
Qed.

(** Without [includePerformance] the body of [getPageInfo] runs the
    first script only, and its text ends with the element counts. *)
Lemma getPageInfo_without_performance (page : Page) (args : Args)
    (st : St W) :
  includePerformance args = false ->
  getPageInfo_body page args st =
  (startTime <- now ;;
   call (Goto (url args)) (goto page (url args)) ;;
   endTime <- now ;;
   info <- evaluate page pageInfo_script ;;
   ret {| content := [pageInfo_text (url args) info EmptyString];
          isError := false |}) st.
Proof.
  intros H. unfold getPageInfo_body. rewrite H. reflexivity.
Qed.

(** With [includePerformance], whenever the document the second script
    runs against has no navigation entry, the body of [getPageInfo]
    throws the error of that script: no report is built. *)
Lemma getPageInfo_throws_without_navigation (page : Page) (args : Args)
    (st : St W) w1 w2 doc1 w3 doc2 :
  includePerformance args = true ->
  goto page (url args) (world st) = (w1, inr tt) ->
  page_document page w1 = (w2, inr doc1) ->
  page_document page w2 = (w3, inr doc2) ->
  navigation_entries doc2 = [] ->
  getPageInfo_body page args st =
  ({| world := w3;
      trace := trace st ++
        [(Goto (url args), true); (Evaluate, true); (Evaluate, false)] |},
   inl (evaluate_error
          (Thrown ("Cannot read properties of undefined " ++
                   "(reading 'domContentLoadedEventEnd')")))).
Proof.
  intros Hp Hg Hd1 Hd2 Hnav. unfold getPageInfo_body. rewrite Hp.
  erewrite bind_returns by reflexivity.
  erewrite bind_returns by (apply call_returns; exact Hg).
  erewrite bind_returns by reflexivity.
  erewrite bind_returns.
  2:{ unfold evaluate. cbn [world trace]. rewrite Hd1. reflexivity. }
  erewrite bind_throws.
  2:{ erewrite bind_throws.
      2:{ unfold evaluate. cbn [world trace]. rewrite Hd2.
          rewrite (metrics_script_without_navigation _ Hnav). reflexivity. }
      reflexivity. }
  cbn [is_ok]. repeat rewrite <- app_assoc. reflexivity.
Qed.

End Snapshot.

(* ===================================================================== *)
(** ** The dispatcher *)
(* ===================================================================== *)

Section Dispatcher.
Context {W : Type} {PW : Playwright W}.

Lemma callTool_dispatch (name : string) (args : Args) :
  callTool name args =
  try_catch (dispatch name args)
    (fun error => ret (error_response error) : M W _).
Proof. reflexivity. Qed.

Lemma listed_names : map tool_name listTools = tools.
Proof. reflexivity. Qed.

(** The handler of a listed tool is the frame around its body. *)
Lemma dispatch_in_session (name : string) (args : Args) :
  In name tools ->
  dispatch name args =
  in_session (default "chromium" (browser args))
    (fun page => tool_body name page args : M W _).
Proof.
  intros H. simpl in H.
  destruct H as [<- | [<- | [<- | [<- | []]]]]; reflexivity.
Qed.

(** A name that is not listed fails every test of the [switch]. *)
Lemma unlisted_name (name : string) :
  ~ In name tools ->
  String.eqb name "scrape_page" = false /\
  String.eqb name "test_react_app" = false /\
  String.eqb name "get_page_info" = false /\
  String.eqb name "wait_for_element" = false.
Proof.
  intros H. repeat split; apply String.eqb_neq; intros ->; apply H;
    simpl; tauto.
Qed.

Lemma returns_ret {A} (P : A -> Prop) (a : A) :
  P a -> returns P (ret a : M W A).
Proof. intros H st st' a' E. injection E as _ <-. exact H. Qed.

Lemma returns_throw {A} (P : A -> Prop) e : returns P (throw e : M W A).
Proof. intros st st' a E. discriminate E. Qed.

Lemma returns_bind {A B} (P : B -> Prop) (m : M W A) (k : A -> M W B) :
  (forall a, returns P (k a)) -> returns P (bind m k).
Proof.
  intros Hk st st' b E. unfold bind in E.
  destruct (m st) as [st1 [e | a]]; [discriminate E |].
  exact (Hk a st1 st' b E).
Qed.

Lemma returns_try_finally {A} (P : A -> Prop) (body : M W A) fin :
  returns P body -> returns P (try_finally body fin).
Proof.
  intros Hb st st' a E. unfold try_finally in E.
  destruct (body st) as [st1 r] eqn:Eb.
  destruct (fin st1) as [st2 [e | u]]; [discriminate E |].
  injection E as _ ->. exact (Hb st st1 a Eb).
Qed.

Lemma returns_in_session {A} (P : A -> Prop) browserType
    (body : Page -> M W A) :
  (forall page, returns P (body page)) ->
  returns P (in_session browserType body).
Proof.
  intros Hb. unfold in_session.
  apply returns_bind. intros b. apply returns_bind. intros page.
  apply returns_try_finally. apply Hb.
Qed.

(** What a handler returns is never flagged as an error. *)
Lemma tool_body_returns_report (name : string) (page : Page) (args : Args) :
  returns (fun r => isError r = false) (tool_body name page args).
Proof.
  unfold tool_body, scrapePage_body, testReactApp_body, getPageInfo_body,
    waitForElement_body.
  repeat match goal with
         | |- returns _ (bind _ _) => apply returns_bind; intros ?
         | |- returns _ (ret _) => apply returns_ret; reflexivity
         | |- returns _ (throw _) => apply returns_throw
         | |- returns _ (if ?b then _ else _) => destruct b
         | |- returns _ (match ?x with _ => _ end) => destruct x
         end.
Qed.

Lemma dispatch_returns_report (name : string) (args : Args) :
  returns (fun r => isError r = false) (dispatch name args).
Proof.
  unfold dispatch.
  pose proof (fun body => returns_in_session (fun r => isError r = false)
                (default "chromium" (browser args)) body) as Hs.
  destruct (String.eqb name "scrape_page").
  { apply Hs. intros page. apply (tool_body_returns_report "scrape_page"). }
  destruct (String.eqb name "test_react_app").
  { apply Hs. intros page. apply (tool_body_returns_report "test_react_app"). }
  destruct (String.eqb name "get_page_info").
  { apply Hs. intros page. apply (tool_body_returns_report "get_page_info"). }
  destruct (String.eqb name "wait_for_element").
  { apply Hs. intros page.
    apply (tool_body_returns_report "wait_for_element"). }
  apply returns_throw.
Qed.

(** X1. The dispatcher answers every request and never throws: when the
    handler returns, the answer is its report, which is not flagged as
    an error; when the handler, or the [switch] itself, throws, the
    answer is the error response made of the message, and nothing more
    is called. *)
Theorem callTool_answers_every_request (name : string) (args : Args)
    (st : St W) :
  exists res,
    callTool name args st = (fst (dispatch name args st), inr res) /\
    match snd (dispatch name args st) with
    | inl error => res = error_response error
    | inr report => res = report /\ isError res = false
    end.
Proof.
  rewrite callTool_dispatch. unfold try_catch.
  destruct (dispatch name args st) as [st' [e | r]] eqn:E.
  - exists (error_response e). split; reflexivity.
  - exists r. split; [reflexivity |]. split; [reflexivity |].
    exact (dispatch_returns_report name args st st' r E).
Qed.

(** X2. A name that is not in the list of tools is answered by the
    error response [Unknown tool: name]; no call is made. *)
Theorem unknown_tool_is_answered_without_calls (name : string)
    (args : Args) (st : St W) :
  ~ In name (map tool_name listTools) ->
  callTool name args st =
  (st, inr (error_response (Thrown ("Unknown tool: " ++ name)))).
Proof.
  intros H. rewrite listed_names in H.
  destruct (unlisted_name name H) as (E1 & E2 & E3 & E4).
  unfold callTool, try_catch. rewrite E1, E2, E3, E4. reflexivity.
Qed.

(** X3. A [browser] that names none of the three engines makes every
    listed tool answer with the error response of a [TypeError]; no
    browser is started and no call is made. *)
Theorem unsupported_engine_starts_nothing (name : string) (args : Args)
    (st : St W) (browserType : string) :
  In name (map tool_name listTools) ->
  browser args = Some browserType ->
  browsers browserType = None ->
  exists error,
    callTool name args st = (st, inr (error_response error)) /\
    In (message error)
       [ "browsers[browserType].launch is not a function";
         "Cannot read properties of undefined (reading 'launch')" ].
Proof.
  intros Hn Hb He. rewrite listed_names in Hn.
  rewrite callTool_dispatch, (dispatch_in_session _ _ Hn).
  unfold try_catch, in_session, getBrowser, bind. rewrite Hb.
  unfold default. rewrite He.
  destruct (existsb (String.eqb browserType) object_prototype_names);
    eexists; (split; [reflexivity | simpl; tauto]).
Qed.

(** X4. When the engine cannot be started, every listed tool answers
    with the error response of that failure after the one failed
    launch: no page is opened, nothing is closed. *)
Theorem launch_fault_is_answered_at_once (name : string) (args : Args)
    (st : St W) engine w1 e :
  In name (map tool_name listTools) ->
  browsers (default "chromium" (browser args)) = Some engine ->
  launch engine (world st) = (w1, inl e) ->
  callTool name args st =
  ({| world := w1; trace := trace st ++ [(Launch engine, false)] |},
   inr (error_response e)).
Proof.
  intros Hn He Hl. rewrite listed_names in Hn.
  rewrite callTool_dispatch, (dispatch_in_session _ _ Hn).
  unfold try_catch, in_session.
  erewrite bind_throws
    by (rewrite (getBrowser_launches _ _ _ He); apply call_throws; exact Hl).
  reflexivity.
Qed.

(** When the navigation throws, the body of every handler throws the
    same error, having called nothing else. *)
Lemma tool_body_navigation_fault (name : string) (page : Page)
    (args : Args) (st : St W) w e :
  goto page (url args) (world st) = (w, inl e) ->
  tool_body name page args st =
  ({| world := w; trace := trace st ++ [(Goto (url args), false)] |}, inl e).
Proof.
  intros Hg.
  assert (Hc : call (Goto (url args)) (goto page (url args)) st =
               ({| world := w;
                   trace := trace st ++ [(Goto (url args), false)] |}, inl e))
    by (apply call_throws; exact Hg).
  unfold tool_body.
  destruct (String.eqb name "scrape_page");
    [| destruct (String.eqb name "test_react_app");
       [| destruct (String.eqb name "get_page_info")]];
    unfold scrapePage_body, testReactApp_body, testReactApp_results,
      getPageInfo_body, waitForElement_body.
  - erewrite bind_throws by exact Hc. reflexivity.
  - erewrite bind_throws by (erewrite bind_throws by exact Hc; reflexivity).
    reflexivity.
  - erewrite bind_returns by reflexivity.
    erewrite bind_throws by exact Hc. reflexivity.
  - erewrite bind_throws by exact Hc. reflexivity.
Qed.

(** X5. When the navigation throws, every listed tool closes the browser
    and answers with the error response of the navigation: between the
    failed [goto] and the [close] nothing is called, so no action runs
    and nothing is extracted. *)
Theorem navigation_fault_closes_and_answers (name : string) (args : Args)
    (st : St W) engine w1 b w2 p w3 w4 e :
  In name (map tool_name listTools) ->
  browsers (default "chromium" (browser args)) = Some engine ->
  launch engine (world st) = (w1, inr b) ->
  newPage b w1 = (w2, inr p) ->
  goto p (url args) w2 = (w3, inl e) ->
  close b w3 = (w4, inr tt) ->
  callTool name args st =
  ({| world := w4;
      trace := trace st ++
        [(Launch engine, true); (NewPage, true);
         (Goto (url args), false); (Close, true)] |},
   inr (error_response e)).
Proof.
  intros Hn He Hl Hp Hg Hc. rewrite listed_names in Hn.
  rewrite callTool_dispatch, (dispatch_in_session _ _ Hn).
  unfold try_catch.
  rewrite (in_session_opened _ _ _ _ _ _ _ _ He Hl Hp).
  pose proof (tool_body_navigation_fault name p args
                {| world := w2;
                   trace := trace st ++
                            [(Launch engine, true); (NewPage, true)] |}
                w3 e Hg) as Hbody.
  erewrite try_finally_returns;
    [| exact Hbody | apply call_returns; exact Hc].
  cbn [trace]. repeat rewrite <- app_assoc. reflexivity.
Qed.

(** X6. When closing the browser throws in the state the body of the
    handler leaves, the error of [close] is the answer of every listed
    tool, whatever its body did: a report the body had returned is
    lost, and an error it had thrown is replaced. *)
Theorem close_fault_replaces_the_result (name : string) (args : Args)
    (st : St W) engine w1 b w2 p e :
  In name (map tool_name listTools) ->
  browsers (default "chromium" (browser args)) = Some engine ->
  launch engine (world st) = (w1, inr b) ->
  newPage b w1 = (w2, inr p) ->
  snd (close b
         (world (fst (tool_body name p args
                        {| world := w2;
                           trace := trace st ++
                             [(Launch engine, true); (NewPage, true)] |}))))
    = inl e ->
  snd (callTool name args st) = inr (error_response e).
Proof.
  intros Hn He Hl Hp Hc. rewrite listed_names in Hn.
  rewrite callTool_dispatch, (dispatch_in_session _ _ Hn).
  unfold try_catch.
  rewrite (in_session_opened _ _ _ _ _ _ _ _ He Hl Hp).
  unfold try_finally.
  destruct (tool_body name p args _) as [st3 r].
  unfold call. cbn [fst] in Hc.
  destruct (close b (world st3)) as [w4 rc]. cbn [snd] in Hc. subst rc.
  reflexivity.
Qed.

End Dispatcher.

(* ===================================================================== *)
(** ** More on scrape_page *)
(* ===================================================================== *)

Section Scrape.
Context {W : Type} {PW : Playwright W}.

(** X7. Without [waitFor], or with the empty string, [scrapePage] waits
    for nothing: no timer and no selector wait is among its calls. *)
Theorem scrapePage_without_waitFor_never_waits (args : Args) :
  truthy_str (waitFor args) = false ->
  emits (fun ev => is_wait ev = false) (scrapePage args : M W _).
Proof.
  intros Hw. rewrite scrapePage_in_session. apply emits_in_session.
  { intros [[] ok] H; try discriminate H; reflexivity. }
  intros page. unfold scrapePage_body.
  apply emits_bind; [emits_step; reflexivity | intros _].
  apply emits_bind.
  { unfold scrapePage_wait. destruct (waitFor args) as [w |];
      [| apply emits_ret].
    simpl in Hw. apply negb_false_iff in Hw. rewrite Hw. apply emits_ret. }
  intros _. apply emits_bind.
  { apply emits_scrapePage_content. intros [[] ok] _ Ht Hs; try reflexivity.
    - discriminate Ht.
    - exfalso. eapply Hs. reflexivity. }
  intros content. cbv zeta. repeat emits_step; reflexivity.
Qed.

(** X8. When the selector wait of [scrapePage] throws, nothing is
    extracted: the browser is closed right after the failed wait and
    the handler throws the error of the wait. *)
Theorem scrapePage_wait_fault_skips_the_extraction
    (args : Args) (st : St W) (w : string) engine w1 b w2 p w3 w4 w5 e :
  waitFor args = Some w ->
  String.eqb w EmptyString = false ->
  matches_digits w = false ->
  browsers (default "chromium" (browser args)) = Some engine ->
  launch engine (world st) = (w1, inr b) ->
  newPage b w1 = (w2, inr p) ->
  goto p (url args) w2 = (w3, inr tt) ->
  waitForSelector p (Some w) 10000 w3 = (w4, inl e) ->
  close b w4 = (w5, inr tt) ->
  scrapePage args st =
  ({| world := w5;
      trace := trace st ++
        [(Launch engine, true); (NewPage, true); (Goto (url args), true);
         (WaitForSelector (Some w) 10000, false); (Close, true)] |},
   inl e).
Proof.
  intros Hw Hne Hd He Hl Hn Hg Hwait Hc.
  rewrite scrapePage_in_session.
  rewrite (in_session_opened _ _ _ _ _ _ _ _ He Hl Hn).
  assert (Hbody : scrapePage_body p args
            {| world := w2;
               trace := trace st ++ [(Launch engine, true); (NewPage, true)] |} =
            ({| world := w4;
                trace := trace st ++
                  [(Launch engine, true); (NewPage, true);
                   (Goto (url args), true);
                   (WaitForSelector (Some w) 10000, false)] |}, inl e)).
  { unfold scrapePage_body.
    erewrite bind_returns by (apply call_returns; exact Hg).
    unfold scrapePage_wait. rewrite Hw, Hne, Hd.
    erewrite bind_throws by (apply call_throws; exact Hwait).
    cbn [world trace]. repeat rewrite <- app_assoc. reflexivity. }
  erewrite try_finally_returns;
    [| exact Hbody | apply call_returns; exact Hc].
  cbn [trace]. rewrite <- app_assoc. reflexivity.
Qed.

(** X9. A selector that matches no element is no error for
    [scrapePage]: the content is empty and the report is returned. *)
Theorem scrapePage_without_match_returns_empty_content
    (args : Args) (st : St W) (sel : string) engine w1 b w2 p w3 w4 w5 :
  selector args = Some sel ->
  String.eqb sel EmptyString = false ->
  truthy_str (waitFor args) = false ->
  screenshot args = false ->
  browsers (default "chromium" (browser args)) = Some engine ->
  launch engine (world st) = (w1, inr b) ->
  newPage b w1 = (w2, inr p) ->
  goto p (url args) w2 = (w3, inr tt) ->
  query_all p sel w3 = (w4, inr []) ->
  close b w4 = (w5, inr tt) ->
  scrapePage args st =
  ({| world := w5;
      trace := trace st ++
        [(Launch engine, true); (NewPage, true); (Goto (url args), true);
         (QueryAll sel, true); (Close, true)] |},
   inr {| content :=
            ["Scraped content from " ++ url args ++ ":" ++ nl ++ nl];
          isError := false |}).
Proof.
  intros Hs Hne Hw Hf He Hl Hn Hg Hq Hc.
  rewrite scrapePage_in_session.
  rewrite (in_session_opened _ _ _ _ _ _ _ _ He Hl Hn).
  assert (Hwait : forall page, scrapePage_wait page (waitFor args) = ret tt).
  { intros page. unfold scrapePage_wait.
    destruct (waitFor args) as [w |]; [| reflexivity].
    simpl in Hw. apply negb_false_iff in Hw. rewrite Hw. reflexivity. }
  assert (Hbody : scrapePage_body p args
            {| world := w2;
               trace := trace st ++ [(Launch engine, true); (NewPage, true)] |} =
            ({| world := w4;
                trace := trace st ++
                  [(Launch engine, true); (NewPage, true);
                   (Goto (url args), true); (QueryAll sel, true)] |},
             inr {| content :=
                      ["Scraped content from " ++ url args ++ ":" ++ nl ++ nl];
                    isError := false |})).
  { unfold scrapePage_body.
    erewrite bind_returns by (apply call_returns; exact Hg).
    rewrite Hwait. erewrite bind_returns by reflexivity.
    unfold scrapePage_content. rewrite Hs, Hne, Hf.
    erewrite bind_returns.
    2:{ erewrite bind_returns by (apply call_returns; exact Hq).
        reflexivity. }
    cbn [world trace]. repeat rewrite <- app_assoc. reflexivity. }
  erewrite try_finally_returns;
    [| exact Hbody | apply call_returns; exact Hc].
  cbn [trace]. rewrite <- app_assoc. reflexivity.
Qed.

End Scrape.

(* ===================================================================== *)
(** ** What the tools call, and with which deadlines *)
(* ===================================================================== *)

Section Calls.
Context {W : Type} {PW : Playwright W}.

(** The dispatcher adds nothing to what its handlers call. *)
Lemma emits_callTool (P : Event -> Prop) (name : string) (args : Args) :
  emits P (dispatch name args : M W _) -> emits P (callTool name args).
Proof.
  intros H. rewrite callTool_dispatch.
  apply emits_try_catch; [exact H | intros e; apply emits_ret].
Qed.

(** The three calls of the content extraction of [scrapePage]. *)
Lemma scrapePage_content_calls (P : Event -> Prop) (page : Page) selector :
  (forall s ok, P (TextContent s, ok)) ->
  (forall s ok, P (QueryAll s, ok)) ->
  (forall ok, P (ElementText, ok)) ->
  emits P (scrapePage_content page selector : M W _).
Proof.
  intros Ht Hq He. unfold scrapePage_content.
  repeat emits_step; try apply Ht; try apply Hq.
  apply emits_promise_all. apply Forall_forall. intros m Hm.
  apply in_map_iff in Hm. destruct Hm as (el & <- & _).
  emits_step. apply He.
Qed.

(** A step of the loop on an action that is no [screenshot] captures
    nothing. *)
Lemma action_step_captures_nothing (page : Page) (action : Action.t) results :
  is_screenshot_action action = false ->
  emits (fun ev => is_capture ev = false)
    (action_step page action results : M W _).
Proof.
  unfold is_screenshot_action. intros H.
  unfold action_step, action_switch. cbv zeta.
  destruct (Action.type action) as [t |].
  - rewrite H. repeat emits_step; reflexivity.
  - repeat emits_step; reflexivity.
Qed.

Lemma for_actions_captures_nothing (page : Page) (actions : list Action.t) :
  existsb is_screenshot_action actions = false ->
  forall results,
    emits (fun ev => is_capture ev = false)
      (for_actions page actions results : M W _).
Proof.
  induction actions as [| action rest IH]; intros H results; simpl.
  - apply emits_ret.
  - simpl in H. apply orb_false_elim in H. destruct H as [Ha Hr].
    apply emits_bind;
      [apply action_step_captures_nothing; exact Ha | apply IH; exact Hr].
Qed.

(** X10. A screenshot is taken and a file is written only on request:
    unless the tool is [scrape_page] with its [screenshot] flag, or
    [test_react_app] with a [screenshot] action, no request makes a
    screenshot call or a file write. *)
Theorem captures_only_on_request (name : string) (args : Args) :
  asks_capture name args = false ->
  emits (fun ev => is_capture ev = false) (callTool name args : M W _).
Proof.
  unfold asks_capture. intros H. apply emits_callTool. unfold dispatch.
  assert (Hframe : forall ev, lifecycle ev = true -> is_capture ev = false)
    by (intros [[] ok] Hl; try discriminate Hl; reflexivity).
  destruct (String.eqb name "scrape_page").
  { rewrite scrapePage_in_session. apply emits_in_session; [exact Hframe |].
    intros page. unfold scrapePage_body. rewrite H.
    apply emits_bind; [emits_step; reflexivity | intros _].
    apply emits_bind.
    { unfold scrapePage_wait. repeat emits_step; reflexivity. }
    intros _. apply emits_bind; [| intros; apply emits_ret].
    apply scrapePage_content_calls; intros; reflexivity. }
  destruct (String.eqb name "test_react_app").
  { rewrite testReactApp_in_session. apply emits_in_session; [exact Hframe |].
    intros page. unfold testReactApp_body, testReactApp_results.
    apply emits_bind; [| intros; apply emits_ret].
    apply emits_bind; [emits_step; reflexivity | intros _].
    apply for_actions_captures_nothing. exact H. }
  destruct (String.eqb name "get_page_info").
  { rewrite getPageInfo_in_session. apply emits_in_session; [exact Hframe |].
    intros page. unfold getPageInfo_body. repeat emits_step; reflexivity. }
  destruct (String.eqb name "wait_for_element").
  { rewrite waitForElement_in_session.
    apply emits_in_session; [exact Hframe |].
    intros page. unfold waitForElement_body. repeat emits_step; reflexivity. }
  apply emits_throw.
Qed.

(** X11. Only [scrape_page] ever uses the timer: no other request, with
    whatever arguments, sleeps for a duration; the [wait] action of
    [test_react_app] and [wait_for_element] wait for selectors. *)
Theorem only_scrape_page_uses_the_timer (name : string) (args : Args) :
  name <> "scrape_page" ->
  emits (fun ev => is_timer ev = false) (callTool name args : M W _).
Proof.
  intros Hn. apply String.eqb_neq in Hn.
  apply emits_callTool. unfold dispatch. rewrite Hn.
  assert (Hframe : forall ev, lifecycle ev = true -> is_timer ev = false)
    by (intros [[] ok] Hl; try discriminate Hl; reflexivity).
  destruct (String.eqb name "test_react_app").
  { rewrite testReactApp_in_session. apply emits_in_session; [exact Hframe |].
    intros page. unfold testReactApp_body, testReactApp_results.
    apply emits_bind; [| intros; apply emits_ret].
    apply emits_bind; [emits_step; reflexivity | intros _].
    apply emits_for_actions. intros ev _ H. exact H. }
  destruct (String.eqb name "get_page_info").
  { rewrite getPageInfo_in_session. apply emits_in_session; [exact Hframe |].
    intros page. unfold getPageInfo_body. repeat emits_step; reflexivity. }
  destruct (String.eqb name "wait_for_element").
  { rewrite waitForElement_in_session.
    apply emits_in_session; [exact Hframe |].
    intros page. unfold waitForElement_body. repeat emits_step; reflexivity. }
  apply emits_throw.
Qed.

(** The deadline of a call made for an action is the deadline of that
    action. *)
Lemma action_step_deadline (page : Page) (action : Action.t) results :
  emits (fun ev => forall t, timeout_of ev = Some t ->
                             t = default 5000%Z (Action.timeout action))
    (action_step page action results : M W _).
Proof.
  unfold action_step, action_switch. cbv zeta.
  repeat emits_step; intros t Ht; simpl in Ht; try discriminate Ht;
    injection Ht as <-; reflexivity.
Qed.

Lemma for_actions_deadlines (page : Page) (actions : list Action.t) :
  forall results,
    emits (fun ev => forall t, timeout_of ev = Some t ->
                               In t (action_timeouts actions))
      (for_actions page actions results : M W _).
Proof.
  induction actions as [| action rest IH]; intros results; simpl.
  - apply emits_ret.
  - apply emits_bind.
    + eapply emits_weaken; [| apply action_step_deadline].
      intros ev H t Ht. left. symmetry. exact (H t Ht).
    + intros results'. eapply emits_weaken; [| apply IH].
      intros ev H t Ht. right. exact (H t Ht).
Qed.

(** X12. Every click, fill and selector wait of a [test_react_app]
    request is given the deadline of one of its actions, 5000
    milliseconds for an action without [timeout]: no call gets a
    deadline that no action has, and the [timeout] of the request
    itself is not used. *)
Theorem testReactApp_uses_the_deadlines_of_its_actions (args : Args) :
  emits (fun ev => forall t, timeout_of ev = Some t ->
                             In t (action_timeouts (actions args)))
    (testReactApp args : M W _).
Proof.
  rewrite testReactApp_in_session. apply emits_in_session.
  { intros [[] ok] Hl t Ht; try discriminate Hl; discriminate Ht. }
  intros page. unfold testReactApp_body, testReactApp_results.
  apply emits_bind; [| intros; apply emits_ret].
  apply emits_bind; [emits_step; intros t Ht; discriminate Ht | intros _].
  apply for_actions_deadlines.
Qed.

End Calls.

(* ===================================================================== *)
(** ** More on wait_for_element and get_page_info *)
(* ===================================================================== *)

Section Reports.
Context {W : Type} {PW : Playwright W}.

(** X13. When the element appears, [waitForElement] reports it: the
    wait time is the clock after the wait minus the clock after the
    navigation, the visibility and the text are those the element
    handle gives, and the browser is closed after the three reads. *)
Theorem waitForElement_reports_the_element
    (args : Args) (st : St W) engine w1 b w2 p w3 w4 w5 el w6 text w7
    visible w8 :
  browsers (default "chromium" (browser args)) = Some engine ->
  launch engine (world st) = (w1, inr b) ->
  newPage b w1 = (w2, inr p) ->
  goto p (url args) w2 = (w3, inr tt) ->
  waitForSelector p (selector args) (default 10000%Z (timeout args)) w3 =
    (w4, inr tt) ->
  query p (selector args) w4 = (w5, inr (Some el)) ->
  element_textContent el w5 = (w6, inr text) ->
  element_isVisible el w6 = (w7, inr visible) ->
  close b w7 = (w8, inr tt) ->
  waitForElement args st =
  ({| world := w8;
      trace := trace st ++
        [(Launch engine, true); (NewPage, true); (Goto (url args), true);
         (WaitForSelector (selector args)
            (default 10000%Z (timeout args)), true);
         (Query (selector args), true); (ElementText, true);
         (ElementVisible, true); (Close, true)] |},
   inr {| content :=
            [element_found_text (selector args)
               (Date_now w4 - Date_now w3) visible text];
          isError := false |}).
Proof.
  intros He Hl Hn Hg Hwait Hq Ht Hv Hc.
  rewrite waitForElement_in_session.
  rewrite (in_session_opened _ _ _ _ _ _ _ _ He Hl Hn).
  assert (Hbody : waitForElement_body p args
            {| world := w2;
               trace := trace st ++ [(Launch engine, true); (NewPage, true)] |} =
            ({| world := w7;
                trace := trace st ++
                  [(Launch engine, true); (NewPage, true);
                   (Goto (url args), true);
                   (WaitForSelector (selector args)
                      (default 10000%Z (timeout args)), true);
                   (Query (selector args), true); (ElementText, true);
                   (ElementVisible, true)] |},
             inr {| content :=
                      [element_found_text (selector args)
                         (Date_now w4 - Date_now w3) visible text];
                    isError := false |})).
  { unfold waitForElement_body.
    erewrite bind_returns by (apply call_returns; exact Hg).
    erewrite bind_returns by reflexivity.
    erewrite bind_returns by (apply call_returns; exact Hwait).
    erewrite bind_returns by reflexivity.
    erewrite bind_returns by (apply call_returns; exact Hq).
    cbv beta iota.
    erewrite bind_returns by (apply call_returns; exact Ht).
    erewrite bind_returns by (apply call_returns; exact Hv).
    cbn [world trace]. repeat rewrite <- app_assoc. reflexivity. }
  erewrite try_finally_returns;
    [| exact Hbody | apply call_returns; exact Hc].
  cbn [trace]. rewrite <- app_assoc. reflexivity.
Qed.

(** X14. When the element has appeared but the query after the wait
    finds none, [waitForElement] throws the [TypeError] of reading
    [textContent] of [null]; the browser is closed. *)
Theorem waitForElement_vanished_element
    (args : Args) (st : St W) engine w1 b w2 p w3 w4 w5 w6 :
  browsers (default "chromium" (browser args)) = Some engine ->
  launch engine (world st) = (w1, inr b) ->
  newPage b w1 = (w2, inr p) ->
  goto p (url args) w2 = (w3, inr tt) ->
  waitForSelector p (selector args) (default 10000%Z (timeout args)) w3 =
    (w4, inr tt) ->
  query p (selector args) w4 = (w5, inr None) ->
  close b w5 = (w6, inr tt) ->
  waitForElement args st =
  ({| world := w6;
      trace := trace st ++
        [(Launch engine, true); (NewPage, true); (Goto (url args), true);
         (WaitForSelector (selector args)
            (default 10000%Z (timeout args)), true);
         (Query (selector args), true); (Close, true)] |},
   inl (Thrown "Cannot read properties of null (reading 'textContent')")).
Proof.
  intros He Hl Hn Hg Hwait Hq Hc.
  rewrite waitForElement_in_session.
  rewrite (in_session_opened _ _ _ _ _ _ _ _ He Hl Hn).
  assert (Hbody : waitForElement_body p args
            {| world := w2;
               trace := trace st ++ [(Launch engine, true); (NewPage, true)] |} =
            ({| world := w5;
                trace := trace st ++
                  [(Launch engine, true); (NewPage, true);
                   (Goto (url args), true);
                   (WaitForSelector (selector args)
                      (default 10000%Z (timeout args)), true);
                   (Query (selector args), true)] |},
             inl (Thrown
                    "Cannot read properties of null (reading 'textContent')"))).
  { unfold waitForElement_body.
    erewrite bind_returns by (apply call_returns; exact Hg).
    erewrite bind_returns by reflexivity.
    erewrite bind_returns by (apply call_returns; exact Hwait).
    erewrite bind_returns by reflexivity.
    erewrite bind_returns by (apply call_returns; exact Hq).
    cbv beta iota. unfold throw.
    cbn [world trace]. repeat rewrite <- app_assoc. reflexivity. }
  erewrite try_finally_returns;
    [| exact Hbody | apply call_returns; exact Hc].
  cbn [trace]. rewrite <- app_assoc. reflexivity.
Qed.

(** X15. With [includePerformance], when the navigation and the two
    scripts succeed, [getPageInfo] returns the snapshot of the document
    the first script read, followed by the performance section; the
    page load time in it is the clock after the navigation minus the
    clock before it, so the time of the two scripts is not part of it,
    and the other timings are those of the first navigation entry and
    of the paint entries of the document the second script read. *)
Theorem getPageInfo_reports_the_load_time
    (args : Args) (st : St W) engine w1 b w2 p w3 w4 doc1 w5 doc2 perf rest
    w6 :
  includePerformance args = true ->
  browsers (default "chromium" (browser args)) = Some engine ->
  launch engine (world st) = (w1, inr b) ->
  newPage b w1 = (w2, inr p) ->
  goto p (url args) w2 = (w3, inr tt) ->
  page_document p w3 = (w4, inr doc1) ->
  page_document p w4 = (w5, inr doc2) ->
  navigation_entries doc2 = perf :: rest ->
  close b w5 = (w6, inr tt) ->
  getPageInfo args st =
  ({| world := w6;
      trace := trace st ++
        [(Launch engine, true); (NewPage, true); (Goto (url args), true);
         (Evaluate, true); (Evaluate, true); (Close, true)] |},
   inr {| content :=
            [snapshot_text (url args) doc1
               (performance_section (Date_now w3 - Date_now w2) perf
                  (paint_entries doc2))];
          isError := false |}).
Proof.
  intros Hp He Hl Hn Hg Hd1 Hd2 Hnav Hc.
  destruct (pageInfo_script doc1) as [e | info] eqn:Hinfo;
    [discriminate Hinfo |].
  assert (Hm : exists metrics, metrics_script doc2 = inr metrics)
    by (unfold metrics_script; rewrite Hnav; eexists; reflexivity).
  destruct Hm as (metrics & Hm).
  rewrite getPageInfo_in_session.
  rewrite (in_session_opened _ _ _ _ _ _ _ _ He Hl Hn).
  assert (Hbody : getPageInfo_body p args
            {| world := w2;
               trace := trace st ++ [(Launch engine, true); (NewPage, true)] |} =
            ({| world := w5;
                trace := trace st ++
                  [(Launch engine, true); (NewPage, true);
                   (Goto (url args), true); (Evaluate, true);
                   (Evaluate, true)] |},
             inr {| content :=
                      [pageInfo_text (url args) info
                         (performance_text (Date_now w3 - Date_now w2)
                            metrics)];
                    isError := false |})).
  { unfold getPageInfo_body. rewrite Hp.
    erewrite bind_returns by reflexivity.
    erewrite bind_returns by (apply call_returns; exact Hg).
    erewrite bind_returns by reflexivity.
    erewrite bind_returns.
    2:{ unfold evaluate. cbn [world trace]. rewrite Hd1, Hinfo.
        reflexivity. }
    erewrite bind_returns.
    2:{ erewrite bind_returns.
        2:{ unfold evaluate. cbn [world trace]. rewrite Hd2, Hm.
            reflexivity. }
        reflexivity. }
    cbn [world trace is_ok]. repeat rewrite <- app_assoc. reflexivity. }
  rewrite (pageInfo_text_snapshot _ _ _ _ Hinfo) in Hbody.
  rewrite (performance_text_section _ _ _ _ _ Hnav Hm) in Hbody.
  erewrite closing_returns; [| exact Hbody | exact Hc].
  cbn [trace]. rewrite <- app_assoc. reflexivity.
Qed.

End Reports.

(* ===================================================================== *)
(** ** Strings of digits *)
(* ===================================================================== *)

Section Digits.
Context {W : Type} {PW : Playwright W}.
Local Open Scope Z_scope.

(** X16. The wait of [scrapePage] reads decimal numbers back: for
    [waitFor] the decimal rendering of a number [n] that is not
    negative, it calls the timer with the number value of [n], which is
    [n] itself when [n] is below 2^53, and in any case differs from [n]
    by less than one part in 2^53 or is [Infinity]; the rendering of a
    negative number is not a string of digits, and is waited for as a
    selector. *)
Theorem scrapePage_wait_reads_decimal_numbers (page : Page) (n : Z) :
  (0 <= n ->
   matches_digits (show_Z n) = true /\
   scrapePage_wait page (Some (show_Z n)) =
   call (WaitForTimeout (to_double n)) (waitForTimeout page (to_double n)) /\
   (n < 2 ^ 53 -> to_double n = Finite n) /\
   (forall v, to_double n = Finite v ->
              Z.abs (v - n) * 2 ^ 53 <= n)) /\
  (n < 0 ->
   matches_digits (show_Z n) = false /\
   scrapePage_wait page (Some (show_Z n)) =
   call (WaitForSelector (Some (show_Z n)) 10000)
        (waitForSelector page (Some (show_Z n)) 10000)).
Proof.
  split; intros Hn.
  - destruct (parseInt_show_Z n Hn) as [Hm Hp].
    split; [exact Hm |]. split; [| split].
    + unfold scrapePage_wait, sleep.
      rewrite (matches_digits_nonempty _ Hm), Hm, Hp. reflexivity.
    + apply to_double_exact.
    + intros v. apply to_double_close. exact Hn.
  - destruct n as [| p | p]; try lia.
    assert (Hs : exists rest, show_Z (Zneg p) = String "-" rest)
      by (eexists; reflexivity).
    destruct Hs as (rest & ->).
    split; reflexivity.
Qed.

End Digits.

(* ===================================================================== *)
(** ** The tools as advertised and as run *)
(* ===================================================================== *)

Section Advertised.
Context {W : Type} {PW : Playwright W}.

(** An action of one of the six types makes the [switch] call the
    page. *)
Lemma action_switch_known (t : string) (page : Page) (action : Action.t)
    results (st : St W) :
  Action.type action = Some t ->
  In t ["click"; "fill"; "wait"; "screenshot"; "getText"; "getAttribute"] ->
  exists c ok evs,
    trace (fst (action_switch page action results st)) =
    (trace st ++ (c, ok) :: evs)%list.
Proof.
  intros Ht Hin. unfold action_switch. rewrite Ht. simpl in Hin.
  destruct Hin as [<- | [<- | [<- | [<- | [<- | [<- | []]]]]]]; cbn;
    unfold bind, call, now.
  - destruct (click _ _ _ _) as [w' [e | []]]; cbn;
      do 2 eexists; exists []; reflexivity.
  - destruct (fill _ _ _ _ _) as [w' [e | []]]; cbn;
      do 2 eexists; exists []; reflexivity.
  - destruct (waitForSelector _ _ _ _) as [w' [e | []]]; cbn;
      do 2 eexists; exists []; reflexivity.
  - destruct (page_screenshot _ _) as [w' [e | buf]]; cbn.
    + do 2 eexists. exists []. reflexivity.
    + destruct (writeFileSync _ _ _) as [w'' [e | []]]; cbn;
        do 3 eexists; rewrite <- app_assoc; reflexivity.
  - destruct (page_textContent _ _ _) as [w' [e | text]]; cbn;
      do 2 eexists; exists []; reflexivity.
  - destruct (getAttribute _ _ _ _) as [w' [e | attr]]; cbn;
      do 2 eexists; exists []; reflexivity.
Qed.

(** An action of any other type makes it take the [default] branch. *)
Lemma action_switch_default (t : string) (page : Page) (action : Action.t)
    results (st : St W) :
  Action.type action = Some t ->
  ~ In t ["click"; "fill"; "wait"; "screenshot"; "getText"; "getAttribute"] ->
  action_switch page action results st =
  (st, inr (push results (unknown_line action))).
Proof.
  intros Ht Hnin. unfold action_switch, unknown_line. rewrite Ht.
  assert (H : forall k,
            In k ["click"; "fill"; "wait"; "screenshot"; "getText";
                  "getAttribute"] -> String.eqb t k = false).
  { intros k Hk. apply String.eqb_neq. intros ->. exact (Hnin Hk). }
  rewrite !H by (simpl; tauto). reflexivity.
Qed.

Lemma trace_not_extended (l : list Event) ev evs :
  l <> (l ++ ev :: evs)%list.
Proof.
  intros E. apply (f_equal (@List.length Event)) in E.
  rewrite length_app in E. simpl in E. lia.
Qed.

(** X18. The values the schemas advertise are the values the handlers
    accept: in every tool the [enum] of [browser] lists exactly the
    names [getBrowser] resolves to an engine, and the [enum] of the
    action type lists exactly the types for which the [switch] of
    [testReactApp] calls the page; for exactly the other types it takes
    its [default] branch, which records the unknown type and makes no
    call. *)
Theorem advertised_values_are_the_accepted_ones :
  (forall tool, In tool listTools ->
     exists p, property_named "browser" (tool_properties tool) = Some p /\
               forall b, In b (prop_enum p) <-> browsers b <> None) /\
  (exists p, property_named "type" action_properties = Some p /\
     forall t (page : Page) (action : Action.t) results (st : St W),
       Action.type action = Some t ->
       (In t (prop_enum p) <->
        exists c ok evs,
          trace (fst (action_switch page action results st)) =
          (trace st ++ (c, ok) :: evs)%list) /\
       (~ In t (prop_enum p) <->
        action_switch page action results st =
        (st, inr (push results (unknown_line action))))).
Proof.
  assert (Hb : forall b, In b ["chromium"; "firefox"; "webkit"] <->
                         browsers b <> None).
  { intros b. unfold browsers. simpl.
    destruct (String.eqb_spec b "chromium") as [-> | H1];
      [split; [discriminate | tauto] |].
    destruct (String.eqb_spec b "firefox") as [-> | H2];
      [split; [discriminate | tauto] |].
    destruct (String.eqb_spec b "webkit") as [-> | H3];
      [split; [discriminate | tauto] |].
    split; [| congruence].
    intros [E | [E | [E | []]]]; symmetry in E; contradiction. }
  split.
  - intros tool Ht. simpl in Ht.
    destruct Ht as [<- | [<- | [<- | [<- | []]]]];
      exists browser_property; (split; [reflexivity | exact Hb]).
  - eexists. split; [reflexivity |]. cbn [prop_enum].
    intros t page action results st Ht.
    destruct (in_dec string_dec t
                ["click"; "fill"; "wait"; "screenshot"; "getText";
                 "getAttribute"]) as [Hin | Hnin].
    + destruct (action_switch_known t page action results st Ht Hin)
        as (c & ok & evs & E).
      split; split.
      * intros _. exists c, ok, evs. exact E.
      * intros _. exact Hin.
      * intros H. contradiction.
      * intros Heq Hin'. rewrite Heq in E. cbn [fst] in E.
        exact (trace_not_extended _ _ _ E).
    + pose proof (action_switch_default t page action results st Ht Hnin)
        as Heq.
      split; split.
      * intros H. contradiction.
      * intros (c & ok & evs & E). rewrite Heq in E. cbn [fst] in E.
        exfalso. exact (trace_not_extended _ _ _ E).
      * intros _. exact Heq.
      * intros _. exact Hnin.
Qed.

(** X19. An argument that is left out behaves as the default its schema
    advertises: a request without [browser] is answered as the same
    request with the advertised engine, [wait_for_element] without
    [timeout] as with the advertised number of milliseconds, and an
    action without [timeout] as the action with the advertised one. *)
Theorem omitted_arguments_take_the_advertised_defaults :
  (forall name engine (args : Args) (st : St W),
     In name (map tool_name listTools) ->
     advertised_default name "browser" = Some (JString engine) ->
     browser args = None ->
     callTool name args st = callTool name (set_browser (Some engine) args) st)
  /\
  (forall ms (args : Args) (st : St W),
     advertised_default "wait_for_element" "timeout" = Some (JNumber ms) ->
     timeout args = None ->
     waitForElement args st = waitForElement (set_timeout (Some ms) args) st)
  /\
  (forall ms (page : Page) (action : Action.t) results (st : St W),
     advertised_action_default "timeout" = Some (JNumber ms) ->
     Action.timeout action = None ->
     action_step page action results st =
     action_step page (set_action_timeout (Some ms) action) results st).
Proof.
  split; [| split].
  - intros name engine args st Hn Hd Hb. simpl in Hn.
    destruct args as [u s b w sc a ip t]. cbn [browser] in Hb. subst b.
    destruct Hn as [<- | [<- | [<- | [<- | []]]]];
      injection Hd as <-; reflexivity.
  - intros ms args st Hd Ht. injection Hd as <-.
    destruct args as [u s b w sc a ip t]. cbn [timeout] in Ht. subst t.
    reflexivity.
  - intros ms page action results st Hd Ht. injection Hd as <-.
    destruct action as [ty s v t]. cbn [Action.timeout] in Ht. subst t.
    reflexivity.
Qed.

(** One step of the loop makes the calls of its action. *)
Lemma action_step_calls (page : Page) (action : Action.t) results
    (st : St W) :
  exists evs,
    trace (fst (action_step page action results st)) = (trace st ++ evs)%list /\
    calls_of action evs.
Proof.
  unfold calls_of, known_type, known_types, is_screenshot_action,
    action_step, action_switch, try_catch. cbv zeta.
  destruct (Action.type action) as [t |].
  2:{ exists []. rewrite app_nil_r. split; reflexivity. }
  cbn [existsb].
  destruct (String.eqb_spec t "click") as [-> | H1].
  { cbn. unfold bind, call. destruct (click _ _ _ _) as [w' [e | []]];
      cbn; eexists; (split; [reflexivity | eauto]). }
  destruct (String.eqb_spec t "fill") as [-> | H2].
  { cbn. unfold bind, call. destruct (fill _ _ _ _ _) as [w' [e | []]];
      cbn; eexists; (split; [reflexivity | eauto]). }
  destruct (String.eqb_spec t "wait") as [-> | H3].
  { cbn. unfold bind, call.
    destruct (waitForSelector _ _ _ _) as [w' [e | []]];
      cbn; eexists; (split; [reflexivity | eauto]). }
  destruct (String.eqb_spec t "screenshot") as [-> | H4].
  { cbn. unfold bind, call, now.
    destruct (page_screenshot _ _) as [w' [e | buf]]; cbn.
    - eexists. split; [reflexivity | left; reflexivity].
    - destruct (writeFileSync _ _ _) as [w'' [e | []]]; cbn.
      + eexists. split; [rewrite <- app_assoc; reflexivity |].
        right. eexists. eexists. reflexivity.
      + eexists. split; [rewrite <- app_assoc; reflexivity |].
        right. eexists. eexists. reflexivity. }
  destruct (String.eqb_spec t "getText") as [-> | H5].
  { cbn. unfold bind, call.
    destruct (page_textContent _ _ _) as [w' [e | text]];
      cbn; eexists; (split; [reflexivity | eauto]). }
  destruct (String.eqb_spec t "getAttribute") as [-> | H6].
  { cbn. unfold bind, call.
    destruct (getAttribute _ _ _ _) as [w' [e | attr]];
      cbn; eexists; (split; [reflexivity | eauto]). }
  cbn. exists []. rewrite app_nil_r. split; reflexivity.
Qed.

(** X20. The loop calls the page action by action, in the order of the
    list: its calls are the concatenation of one group per action, and
    the group of an action has no call for an unknown type, the capture
    and at most the write for a [screenshot], and exactly one call for
    any other action, whether the call returns or throws. *)
Theorem actions_are_called_in_order (page : Page)
    (actions : list Action.t) :
  forall results (st : St W),
    exists groups,
      Forall2 calls_of actions groups /\
      trace (fst (for_actions page actions results st)) =
      (trace st ++ concat groups)%list.
Proof.
  induction actions as [| action rest IH]; intros results st.
  - exists []. split; [constructor |]. simpl. rewrite app_nil_r. reflexivity.
  - destruct (action_step_calls page action results st) as (evs & E & Hc).
    destruct (action_step_records page action st) as (line & st1 & Hstep).
    rewrite Hstep in E. cbn [fst] in E.
    destruct (IH (push results line) st1) as (groups & Hg & Et).
    exists (evs :: groups). split; [constructor; assumption |].
    simpl for_actions. rewrite (bind_returns _ _ _ _ _ (Hstep results)).
    rewrite Et, E. simpl concat. rewrite app_assoc. reflexivity.
Qed.

End Advertised.

(* ===================================================================== *)
(** ** The handlers on a concrete page *)
(* ===================================================================== *)

Section Scenarios.
Import Demo.

Example trim_example : trim ("  Hello world" ++ nl ++ " ") = "Hello world".
Proof. reflexivity. Qed.

Example parseInt_example :
  parseInt "2000" = Finite 2000 /\ parseInt "007" = Finite 7 /\
  matches_digits "2000" = true /\
  matches_digits "#app" = false /\ matches_digits EmptyString = false.
Proof. repeat split. Qed.

(** Number values above 2^53: a tie goes to the even significand, the
    decimal [1e23] is not a number value, and the integers from
    [2^1024 - 2^970] on are read as [Infinity]. *)
Example to_double_example :
  to_double (2 ^ 53 + 1) = Finite (2 ^ 53) /\
  to_double (2 ^ 53 + 3) = Finite (2 ^ 53 + 4) /\
  to_double (10 ^ 23) = Finite 99999999999999991611392 /\
  to_double (2 ^ 1024 - 2 ^ 970 - 1) = Finite (2 ^ 1024 - 2 ^ 971) /\
  to_double (2 ^ 1024 - 2 ^ 970) = Infinity.
Proof. repeat split; vm_compute; reflexivity. Qed.

(** The scenario of the specification: the click on the missing element
    is recorded as failed, and the text of the status line is still
    read. *)
Example login_flow_report :
  snd (testReactApp (with_actions login_flow) (start world0)) =
  inr {| content :=
           [ "React App Test Results:" ++ nl ++ nl
             ++ "✅ Navigated to http://localhost:3000" ++ nl
             ++ "✅ Clicked: #login" ++ nl
             ++ "✅ Filled " ++ dq ++ "alice" ++ dq ++ " into: #user"
             ++ nl
             ++ "❌ Failed click on #missing: Timeout 5000ms exceeded."
             ++ nl
             ++ "✅ Text from #status: " ++ dq ++ "text of #status"
             ++ dq ];
         isError := false |}.
Proof. vm_compute. reflexivity. Qed.

Lemma testReactApp_outcome_count_witness :
  exists lines st4,
    recorded (PW := demo) tt login_flow
      (navigated (start world0) chromium (url request) (tick 120 world0))
      lines st4 /\
    List.length (navigation_line (with_actions login_flow) :: lines) = 5 /\
    (forall w5, close (Playwright := demo) tt (world st4) = (w5, inr tt) ->
       testReactApp (with_actions login_flow) (start world0) =
       ({| world := w5; trace := trace st4 ++ [(Close, true)] |},
        inr (report_of
               (navigation_line (with_actions login_flow) :: lines)))) /\
    (forall w5 e, close (Playwright := demo) tt (world st4) = (w5, inl e) ->
       testReactApp (with_actions login_flow) (start world0) =
       ({| world := w5; trace := trace st4 ++ [(Close, false)] |}, inl e)).
Proof.
  apply (testReactApp_outcome_count (PW := demo)
           (with_actions login_flow) (start world0)
           chromium world0 tt world0 tt (tick 120 world0));
    reflexivity.
Defined.

(** C1 fails on the code: in a browser that cannot be closed the
    navigation succeeds and the four actions are run, but the response
    is the error of [close], a single entry, and not the report of the
    five entries. *)
Lemma report_is_lost_when_close_faults :
  callTool (PW := Faulty.faulty) "test_react_app" (with_actions login_flow)
    (Faulty.start Faulty.stuck_browser) =
  ({| world := Faulty.with_inner (tick 5000 (tick 120 world0))
                 Faulty.stuck_browser;
      trace := [(Launch chromium, true); (NewPage, true);
                (Goto (url request), true);
                (Click (Some "#login") 5000%Z, true);
                (Fill (Some "#user") (Some "alice") 5000%Z, true);
                (Click (Some "#missing") 5000%Z, false);
                (TextContent (Some "#status"), true); (Close, false)] |},
   inr {| content := ["Error: Browser has been closed"];
          isError := true |}) /\
  ~ reports_every_action (PW := Faulty.faulty) (with_actions login_flow)
      (Faulty.start Faulty.stuck_browser).
Proof.
  assert (Hrun :
    callTool (PW := Faulty.faulty) "test_react_app" (with_actions login_flow)
      (Faulty.start Faulty.stuck_browser) =
    ({| world := Faulty.with_inner (tick 5000 (tick 120 world0))
                   Faulty.stuck_browser;
        trace := [(Launch chromium, true); (NewPage, true);
                  (Goto (url request), true);
                  (Click (Some "#login") 5000%Z, true);
                  (Fill (Some "#user") (Some "alice") 5000%Z, true);
                  (Click (Some "#missing") 5000%Z, false);
                  (TextContent (Some "#status"), true); (Close, false)] |},
     inr {| content := ["Error: Browser has been closed"];
            isError := true |}))
    by (vm_compute; reflexivity).
  split; [exact Hrun |].
  unfold reports_every_action. rewrite Hrun. cbn [trace]. intros H.
  destruct H as (entries & _ & Heq).
  - simpl. tauto.
  - unfold report_of in Heq. injection Heq as _ Hflag. discriminate Hflag.
Qed.

Lemma failing_action_witness :
  failure_line (Action.type click_missing) (Action.selector click_missing)
    (message missing_error) =
  "❌ Failed click on #missing: Timeout 5000ms exceeded." /\
  exists lines st',
    recorded (PW := demo) tt after_missing (fst missing_thrown) lines st' /\
    List.length lines = 1 /\
    for_actions (PW := demo) tt
      (before_missing ++ click_missing :: after_missing) first_line
      after_goto =
    (st', inr (results_at_missing ++
               failure_line (Action.type click_missing)
                 (Action.selector click_missing) (message missing_error)
               :: lines)%list).
Proof.
  split; [reflexivity |].
  apply (failing_action_is_recorded_and_sequence_continues (PW := demo)
           tt before_missing click_missing after_missing first_line
           after_goto (fst at_missing) (fst missing_thrown)
           results_at_missing missing_error);
    reflexivity.
Defined.

Lemma unknown_action_witness :
  known_type (Action.type hover) = false /\
  exists lines st',
    recorded (PW := demo) tt after_missing (fst at_missing) lines st' /\
    List.length lines = 1 /\
    for_actions (PW := demo) tt
      (before_missing ++ hover :: after_missing) first_line after_goto =
    (st', inr (results_at_missing ++ unknown_line hover :: lines)%list).
Proof.
  split; [reflexivity |].
  apply (unknown_action_is_recorded_and_skipped (PW := demo)
           tt before_missing hover after_missing first_line
           after_goto (fst at_missing) results_at_missing);
    reflexivity.
Defined.

(** C4 fails on the code: a request whose only action is a [fill]
    without [value] starts a browser and returns a report, in which the
    fill is the failed second line. *)
Lemma fill_without_value_is_not_refused :
  snd (callTool (PW := demo) "test_react_app"
         (with_actions [fill_no_value]) (start world0)) =
  inr {| content :=
           [ "React App Test Results:" ++ nl ++ nl
             ++ "✅ Navigated to http://localhost:3000" ++ nl
             ++ "❌ Failed fill on #user: "
             ++ "value: expected string, got undefined" ];
         isError := false |} /\
  acquired (trace (fst (callTool (PW := demo) "test_react_app"
                          (with_actions [fill_no_value]) (start world0)))) = 1 /\
  ~ refused_before_acquisition (PW := demo)
      (with_actions [fill_no_value]) (start world0).
Proof.
  split; [vm_compute; reflexivity |]. split; [vm_compute; reflexivity |].
  unfold refused_before_acquisition. vm_compute.
  intros [_ H]. discriminate H.
Qed.

Lemma fill_without_value_witness :
  fill_outcome fill_no_value
    (inl (Thrown "value: expected string, got undefined")) =
  "❌ Failed fill on #user: value: expected string, got undefined"
  /\
  exists lines_pre st_i lines_post st4,
    recorded (PW := demo) tt before_missing
      (navigated (start world0) chromium (url request) (tick 120 world0))
      lines_pre st_i /\
    let filled := fill (Playwright := demo) tt (Some "#user") None 5000%Z
                    (world st_i) in
    let event := (Fill (Some "#user") None 5000%Z, is_ok (snd filled)) in
    recorded (PW := demo) tt after_missing
      {| world := fst filled; trace := trace st_i ++ [event] |}
      lines_post st4 /\
    List.length lines_post = 1 /\
    In (Launch chromium, true) (trace st4) /\
    In event (trace st4) /\
    (forall w5, close (Playwright := demo) tt (world st4) = (w5, inr tt) ->
       testReactApp (PW := demo)
         (with_actions (before_missing ++ fill_no_value :: after_missing))
         (start world0) =
       ({| world := w5; trace := trace st4 ++ [(Close, true)] |},
        inr (report_of
               (navigation_line (with_actions []) :: lines_pre ++
                fill_outcome fill_no_value (snd filled) :: lines_post)%list)))
    /\
    (forall w5 e, close (Playwright := demo) tt (world st4) = (w5, inl e) ->
       testReactApp (PW := demo)
         (with_actions (before_missing ++ fill_no_value :: after_missing))
         (start world0) =
       ({| world := w5; trace := trace st4 ++ [(Close, false)] |}, inl e)).
Proof.
  split; [reflexivity |].
  apply (fill_without_value_runs_in_a_session (PW := demo)
           (with_actions (before_missing ++ fill_no_value :: after_missing))
           (start world0) before_missing fill_no_value after_missing
           chromium world0 tt world0 tt (tick 120 world0));
    reflexivity.
Defined.

(** C5 fails on the code: the selector [2000] is waited for as a
    selector, no element matches it, the response is the error of the
    wait, and the timer is not used. *)
Lemma digits_selector_is_not_a_duration :
  matches_digits "2000" = true /\
  snd (callTool (PW := demo) "wait_for_element" wait_2000 (start world0)) =
  inr {| content := ["Error: Timeout 10000ms exceeded."];
         isError := true |} /\
  trace (fst (callTool (PW := demo) "wait_for_element" wait_2000
                (start world0))) =
  [(Launch chromium, true); (NewPage, true); (Goto (url request), true);
   (WaitForSelector (Some "2000") 10000%Z, false); (Close, true)] /\
  ~ waits_as_duration (PW := demo) wait_2000 (start world0).
Proof.
  split; [reflexivity |]. split; [vm_compute; reflexivity |].
  split; [vm_compute; reflexivity |].
  unfold waits_as_duration. vm_compute.
  intros [[res [H1 H2]] _]. injection H1 as <-. discriminate H2.
Qed.

Lemma waitForElement_witness :
  matches_digits (show_undefined (selector wait_2000)) = true /\
  (exists evs,
     trace (fst (waitForElement (PW := demo) wait_2000 (start world0))) =
     (trace (start world0) ++ evs)%list /\
     Forall (fun ev => is_timer ev = false) evs) /\
  waitForElement (PW := demo) wait_2000 (start world0) =
  ({| world := tick 10000 (tick 120 world0);
      trace := [(Launch chromium, true); (NewPage, true);
                (Goto (url request), true);
                (WaitForSelector (Some "2000") 10000%Z, false);
                (Close, true)] |},
   inl (timeout_error 10000%Z)).
Proof.
  split; [reflexivity |].
  destruct (waitForElement_waits_for_the_selector (PW := demo)
              wait_2000 (start world0)) as [Hquiet Hwait].
  split; [exact Hquiet |].
  destruct (Hwait chromium world0 tt world0 tt (tick 120 world0)
              (tick 10000 (tick 120 world0)) (inl (timeout_error 10000%Z))
              eq_refl eq_refl eq_refl eq_refl eq_refl) as [_ Hthrows].
  destruct (Hthrows (timeout_error 10000%Z) eq_refl) as [Hclosed _].
  exact (Hclosed (tick 10000 (tick 120 world0)) eq_refl).
Defined.

(** C6 fails on the code.  The timer is a call to the driver: on a page
    that is closed while it runs the call rejects, nothing is
    extracted, and the response is that error.  And the timer is given
    a number value: for the digits of [2^53 + 1] that is [2^53]. *)
Lemma timer_wait_can_fail :
  callTool (PW := Interrupted.interrupted) "scrape_page" scrape_2000
    (start world0) =
  ({| world := tick 120 world0;
      trace := [(Launch chromium, true); (NewPage, true);
                (Goto (url request), true);
                (WaitForTimeout (Finite 2000), false); (Close, true)] |},
   inr {| content :=
            ["Error: Target page, context or browser has been closed"];
          isError := true |}) /\
  ~ timer_wait_never_fails (PW := Interrupted.interrupted) scrape_2000
      (start world0) /\
  matches_digits "9007199254740993" = true /\
  parseInt "9007199254740993" = Finite 9007199254740992.
Proof.
  split; [vm_compute; reflexivity |].
  split; [| split; vm_compute; reflexivity].
  intros H.
  assert (Hin : In (WaitForTimeout (Finite 2000), false)
                  (trace (fst (callTool (PW := Interrupted.interrupted)
                                 "scrape_page" scrape_2000 (start world0))))).
  { vm_compute. do 3 right. left. reflexivity. }
  discriminate (H _ _ Hin).
Qed.

Lemma scrapePage_digits_witness :
  parseInt "2000" = Finite 2000 /\
  exists evs,
    trace (fst (scrapePage (PW := demo) scrape_2000 (start world0))) =
    ([(Launch chromium, true); (NewPage, true); (Goto (url request), true);
      (WaitForTimeout (Finite 2000), true); (QueryAll "#status", true)]
     ++ evs)%list /\
    Forall not_selector_wait evs.
Proof.
  destruct (scrapePage_digits_wait_is_a_timer (PW := demo)
              scrape_2000 (start world0) "2000" chromium world0 tt world0 tt
              (tick 120 world0) (tick 2000 (tick 120 world0)) (inr tt)
              eq_refl eq_refl eq_refl eq_refl eq_refl eq_refl eq_refl)
    as (Hnumber & (evs & E & F & Hnext) & _).
  split; [apply (Hnumber 2000%Z); [lia | reflexivity] |].
  destruct (Hnext eq_refl) as (evs' & ->).
  exists evs'. split; [exact E |].
  inversion F; assumption.
Defined.


(** C3 fails on the code.  In a browser that starts but cannot open a
    page, each of the four tools answers with an error and leaves the
    browser it started running: one launch, no [close]. *)
Theorem session_leaks_when_page_creation_faults :
  Forall (fun name =>
            let st' := fst (callTool (PW := demo) name request
                              (start world_no_page)) in
            trace st' = [(Launch chromium, true); (NewPage, false)] /\
            acquired (trace st') = 1 /\
            released (trace st') = 0)
         tools.
Proof. repeat constructor. Qed.

(** C8 fails on the code.  In a browser that reports no navigation
    entry, [get_page_info] with the performance metrics answers with an
    error, where the paint timings it does not find are rendered as
    absent. *)
Theorem getPageInfo_fails_without_navigation_entry :
  snd (callTool (PW := demo) "get_page_info" with_performance
         (start world_no_navigation)) =
  inr {| content :=
           ["Error: page.evaluate: Cannot read properties of undefined "
            ++ "(reading 'domContentLoadedEventEnd')"];
         isError := true |}.
Proof. vm_compute. reflexivity. Qed.

(** On the page of [world0] the heading lines are those of the [h1],
    the [h3] and the [h2], in that order, and the only meta line is
    that of the named one; the [h4] and the unnamed [meta] have none. *)
Lemma getPageInfo_witness :
  getPageInfo (PW := demo) request (start world0) =
  ({| world := tick 120 world0;
      trace := [(Launch chromium, true); (NewPage, true);
                (Goto (url request), true); (Evaluate, true);
                (Close, true)] |},
   inr {| content :=
            [ "Page Information for http://localhost:3000:" ++ nl ++ nl
              ++ "Title: Demo" ++ nl
              ++ "URL: http://localhost:3000/" ++ nl ++ nl
              ++ "Meta Tags:" ++ nl
              ++ "- description: A demo page" ++ nl ++ nl
              ++ "Headings:" ++ nl
              ++ "- H1: Welcome" ++ nl
              ++ "- H3: Status" ++ nl
              ++ "- H2: Login" ++ nl ++ nl
              ++ "Page Elements:" ++ nl
              ++ "- Links: 0" ++ nl
              ++ "- Images: 0" ++ nl
              ++ "- Forms: 0" ];
          isError := false |}) /\
  ~ In (element "h4" "Details") (filter is_h1_h2_h3 page_elements) /\
  ~ In (meta EmptyString None "utf-8") (filter is_named_meta page_elements).
Proof.
  destruct (getPageInfo_headings_and_meta (PW := demo) request (start world0)
              chromium world0 tt world0 tt (tick 120 world0)
              (tick 120 world0) (document world0)
              eq_refl eq_refl eq_refl eq_refl eq_refl)
    as (_ & Hreport & _ & Hheadings & _ & Hmetas).
  split; [| split].
  - exact (Hreport eq_refl (tick 120 world0) eq_refl).
  - apply Hheadings. simpl. tauto.
  - apply Hmetas; reflexivity.
Defined.

End Scenarios.

(* ===================================================================== *)
(** ** The handlers on further pages and on a faulty driver *)
(* ===================================================================== *)

Section FurtherScenarios.
Import Demo.

Lemma unknown_tool_witness :
  callTool (PW := demo) "delete_page" request (start world0) =
  (start world0,
   inr (error_response (Thrown ("Unknown tool: " ++ "delete_page")))).
Proof.
  apply (unknown_tool_is_answered_without_calls (PW := demo)).
  simpl. intros [H | [H | [H | [H | []]]]]; discriminate H.
Defined.

Lemma unsupported_engine_witness :
  exists error,
    callTool (PW := demo) "scrape_page" scrape_opera (start world0) =
    (start world0, inr (error_response error)) /\
    In (message error)
       [ "browsers[browserType].launch is not a function";
         "Cannot read properties of undefined (reading 'launch')" ].
Proof.
  apply (unsupported_engine_starts_nothing (PW := demo)
           "scrape_page" scrape_opera (start world0) "opera").
  - simpl. tauto.
  - reflexivity.
  - reflexivity.
Defined.

Lemma launch_fault_witness :
  callTool (PW := Faulty.faulty) "get_page_info" request
    (Faulty.start Faulty.no_engine) =
  ({| world := Faulty.no_engine; trace := [(Launch chromium, false)] |},
   inr (error_response (Thrown "Executable doesn't exist"))).
Proof.
  apply (launch_fault_is_answered_at_once (PW := Faulty.faulty)
           "get_page_info" request (Faulty.start Faulty.no_engine)
           chromium Faulty.no_engine (Thrown "Executable doesn't exist")).
  - simpl. tauto.
  - reflexivity.
  - reflexivity.
Defined.

Lemma navigation_fault_witness :
  callTool (PW := Faulty.faulty) "test_react_app" (with_actions login_flow)
    (Faulty.start Faulty.unreachable) =
  ({| world := Faulty.unreachable;
      trace := [(Launch chromium, true); (NewPage, true);
                (Goto (url request), false); (Close, true)] |},
   inr (error_response (Thrown "net::ERR_CONNECTION_REFUSED"))).
Proof.
  apply (navigation_fault_closes_and_answers (PW := Faulty.faulty)
           "test_react_app" (with_actions login_flow)
           (Faulty.start Faulty.unreachable) chromium
           Faulty.unreachable tt Faulty.unreachable tt Faulty.unreachable
           Faulty.unreachable (Thrown "net::ERR_CONNECTION_REFUSED"));
    try reflexivity.
  simpl. tauto.
Defined.

Lemma close_fault_witness :
  snd (callTool (PW := Faulty.faulty) "scrape_page" request
         (Faulty.start Faulty.stuck_browser)) =
  inr (error_response (Thrown "Browser has been closed")).
Proof.
  apply (close_fault_replaces_the_result (PW := Faulty.faulty)
           "scrape_page" request (Faulty.start Faulty.stuck_browser)
           chromium Faulty.stuck_browser tt Faulty.stuck_browser tt
           (Thrown "Browser has been closed"));
    try reflexivity.
  simpl. tauto.
Defined.

Lemma scrapePage_without_waitFor_witness :
  truthy_str (waitFor request) = false /\
  exists evs,
    trace (fst (scrapePage (PW := demo) request (start world0))) =
    (trace (start world0) ++ evs)%list /\
    Forall (fun ev => is_wait ev = false) evs.
Proof.
  split; [reflexivity |].
  apply (scrapePage_without_waitFor_never_waits (PW := demo) request).
  reflexivity.
Defined.

Lemma scrapePage_wait_fault_witness :
  scrapePage (PW := demo) scrape_never (start world0) =
  ({| world := tick 10000 (tick 120 world0);
      trace := [(Launch chromium, true); (NewPage, true);
                (Goto (url request), true);
                (WaitForSelector (Some "#never") 10000%Z, false);
                (Close, true)] |},
   inl (timeout_error 10000%Z)).
Proof.
  apply (scrapePage_wait_fault_skips_the_extraction (PW := demo)
           scrape_never (start world0) "#never" chromium world0 tt world0 tt
           (tick 120 world0) (tick 10000 (tick 120 world0))
           (tick 10000 (tick 120 world0)) (timeout_error 10000%Z));
    reflexivity.
Defined.

Lemma scrapePage_without_match_witness :
  scrapePage (PW := demo) scrape_nothing (start world0) =
  ({| world := tick 120 world0;
      trace := [(Launch chromium, true); (NewPage, true);
                (Goto (url request), true); (QueryAll "#none", true);
                (Close, true)] |},
   inr {| content :=
            ["Scraped content from " ++ url request ++ ":" ++ nl ++ nl];
          isError := false |}).
Proof.
  apply (scrapePage_without_match_returns_empty_content (PW := demo)
           scrape_nothing (start world0) "#none" chromium world0 tt world0 tt
           (tick 120 world0) (tick 120 world0) (tick 120 world0));
    reflexivity.
Defined.

Lemma captures_only_on_request_witness :
  asks_capture "test_react_app" (with_actions login_flow) = false /\
  exists evs,
    trace (fst (callTool (PW := demo) "test_react_app"
                  (with_actions login_flow) (start world0))) =
    (trace (start world0) ++ evs)%list /\
    Forall (fun ev => is_capture ev = false) evs.
Proof.
  split; [reflexivity |].
  apply (captures_only_on_request (PW := demo) "test_react_app"
           (with_actions login_flow)).
  reflexivity.
Defined.

Lemma only_scrape_page_uses_the_timer_witness :
  exists evs,
    trace (fst (callTool (PW := demo) "wait_for_element" wait_2000
                  (start world0))) =
    (trace (start world0) ++ evs)%list /\
    Forall (fun ev => is_timer ev = false) evs.
Proof.
  apply (only_scrape_page_uses_the_timer (PW := demo) "wait_for_element"
           wait_2000).
  discriminate.
Defined.

Lemma waitForElement_reports_witness :
  waitForElement (PW := demo) wait_status (start world0) =
  ({| world := tick 120 world0;
      trace := [(Launch chromium, true); (NewPage, true);
                (Goto (url request), true);
                (WaitForSelector (Some "#status") 700%Z, true);
                (Query (Some "#status"), true); (ElementText, true);
                (ElementVisible, true); (Close, true)] |},
   inr {| content :=
            [element_found_text (Some "#status") 0 true
               (Some "text of #status")];
          isError := false |}).
Proof.
  apply (waitForElement_reports_the_element (PW := demo)
           wait_status (start world0) chromium world0 tt world0 tt
           (tick 120 world0) (tick 120 world0) (tick 120 world0) "#status"
           (tick 120 world0) (Some "text of #status") (tick 120 world0) true
           (tick 120 world0));
    reflexivity.
Defined.

Lemma waitForElement_vanished_witness :
  exists w,
    waitForElement (PW := Faulty.faulty) Faulty.wait_status
      (Faulty.start Faulty.vanishing) =
    ({| world := w;
        trace := [(Launch chromium, true); (NewPage, true);
                  (Goto (url request), true);
                  (WaitForSelector (Some "#status") 700%Z, true);
                  (Query (Some "#status"), true); (Close, true)] |},
     inl (Thrown "Cannot read properties of null (reading 'textContent')")).
Proof.
  eexists.
  apply (waitForElement_vanished_element (PW := Faulty.faulty)
           Faulty.wait_status (Faulty.start Faulty.vanishing) chromium
           Faulty.vanishing tt Faulty.vanishing tt
           (Faulty.with_inner (tick 120 world0) Faulty.vanishing)
           (Faulty.with_inner (tick 120 world0) Faulty.vanishing)
           (Faulty.with_inner (tick 120 world0) Faulty.vanishing));
    reflexivity.
Defined.

Lemma getPageInfo_load_time_witness :
  getPageInfo (PW := demo) with_performance (start world0) =
  ({| world := tick 120 world0;
      trace := [(Launch chromium, true); (NewPage, true);
                (Goto (url request), true); (Evaluate, true);
                (Evaluate, true); (Close, true)] |},
   inr {| content :=
            [ "Page Information for http://localhost:3000:" ++ nl ++ nl
              ++ "Title: Demo" ++ nl
              ++ "URL: http://localhost:3000/" ++ nl ++ nl
              ++ "Meta Tags:" ++ nl
              ++ "- description: A demo page" ++ nl ++ nl
              ++ "Headings:" ++ nl
              ++ "- H1: Welcome" ++ nl
              ++ "- H3: Status" ++ nl
              ++ "- H2: Login" ++ nl ++ nl
              ++ "Page Elements:" ++ nl
              ++ "- Links: 0" ++ nl
              ++ "- Images: 0" ++ nl
              ++ "- Forms: 0" ++ nl ++ nl
              ++ "Performance Metrics:" ++ nl
              ++ "- Page Load Time: 120ms" ++ nl
              ++ "- DOM Content Loaded: 15ms" ++ nl
              ++ "- Load Complete: 8ms" ++ nl
              ++ "- First Paint: N/Ams" ++ nl
              ++ "- First Contentful Paint: 64ms" ];
          isError := false |}).
Proof.
  apply (getPageInfo_reports_the_load_time (PW := demo)
           with_performance (start world0) chromium world0 tt world0 tt
           (tick 120 world0) (tick 120 world0) (document world0)
           (tick 120 world0) (document world0) navigation []
           (tick 120 world0));
    reflexivity.
Defined.

Lemma scrapePage_wait_decimal_witness :
  (matches_digits (show_Z 2000) = true /\
   scrapePage_wait (PW := demo) tt (Some (show_Z 2000)) =
   call (WaitForTimeout (to_double 2000))
        (waitForTimeout (Playwright := demo) tt (to_double 2000)) /\
   ((2000 < 2 ^ 53)%Z -> to_double 2000 = Finite 2000) /\
   (forall v, to_double 2000 = Finite v ->
              (Z.abs (v - 2000) * 2 ^ 53 <= 2000)%Z)) /\
  (matches_digits (show_Z (-5)) = false /\
   scrapePage_wait (PW := demo) tt (Some (show_Z (-5))) =
   call (WaitForSelector (Some (show_Z (-5))) 10000%Z)
        (waitForSelector (Playwright := demo) tt (Some (show_Z (-5)))
           10000%Z)).
Proof.
  split.
  - apply (scrapePage_wait_reads_decimal_numbers (PW := demo) tt 2000%Z). lia.
  - apply (scrapePage_wait_reads_decimal_numbers (PW := demo) tt (-5)%Z). lia.
Defined.

Lemma advertised_values_witness :
  (exists p, property_named "browser"
               (tool_properties
                  {| tool_name := "get_page_info";
                     tool_properties :=
                       [ plain "url" TString; browser_property;
                         {| prop_name := "includePerformance";
                            prop_type := TBoolean; prop_enum := [];
                            prop_default := Some (JBoolean false) |} ];
                     tool_required := ["url"] |}) = Some p /\
             (In "webkit" (prop_enum p) <-> browsers "webkit" <> None) /\
             (In "opera" (prop_enum p) <-> browsers "opera" <> None)) /\
  (exists p, property_named "type" action_properties = Some p /\
             (In "click" (prop_enum p) <->
              exists c ok evs,
                trace (fst (action_switch (PW := demo) tt click_missing
                              first_line after_goto)) =
                (trace after_goto ++ (c, ok) :: evs)%list) /\
             (~ In "hover" (prop_enum p) <->
              action_switch (PW := demo) tt hover first_line after_goto =
              (after_goto, inr (push first_line (unknown_line hover))))).
Proof.
  destruct (advertised_values_are_the_accepted_ones (PW := demo))
    as (Hb & p & Hp & Ht).
  split.
  - destruct (Hb _ (or_intror (or_intror (or_introl eq_refl))))
      as (q & Hq & Hin).
    exists q. split; [exact Hq |]. split; apply Hin.
  - exists p. split; [exact Hp |]. split.
    + apply (Ht "click" tt click_missing first_line after_goto eq_refl).
    + apply (Ht "hover" tt hover first_line after_goto eq_refl).
Defined.

Lemma advertised_defaults_witness :
  callTool (PW := demo) "get_page_info" request (start world0) =
  callTool (PW := demo) "get_page_info"
    (set_browser (Some "chromium") request) (start world0) /\
  waitForElement (PW := demo) wait_2000 (start world0) =
  waitForElement (PW := demo) (set_timeout (Some 10000%Z) wait_2000)
    (start world0) /\
  action_step (PW := demo) tt click_missing first_line after_goto =
  action_step (PW := demo) tt
    (set_action_timeout (Some 5000%Z) click_missing) first_line after_goto.
Proof.
  destruct (omitted_arguments_take_the_advertised_defaults (PW := demo))
    as (Hb & Ht & Ha).
  split; [| split].
  - apply (Hb "get_page_info" "chromium"); [simpl; tauto | reflexivity ..].
  - apply Ht; reflexivity.
  - apply Ha; reflexivity.
Defined.

End FurtherScenarios.
